(** * CAW8Bookkeeper: the sheet parser and its streak engine

    A shallow embedding of [src/parseSheets.ts].  The parser reads the
    worksheets of a Google spreadsheet, cuts every worksheet into
    operations ("ops"), and replays each pilot's results over the ops to
    award "five ops without death / bolter" achievements.

    Conventions of the embedding:
    - a JavaScript value held by a cell or by a field of an object is a
      [JsValue]; number cells carry integers;
    - a JavaScript string is a [string] whose characters are the UTF-16
      code units below 256, one per character;
    - a call that can throw returns a [Result];
    - the fields of the [GoogleSheetParser] instance are threaded through
      [GoogleSheetParser.run] and [GoogleSheetParser.parseMember] as an
      explicit state. *)

From stdpp Require Import gmap strings list fin_maps.
From Stdlib Require Import ZArith Ascii String DecimalString DecimalPos Lia.

Open Scope string_scope.
Open Scope Z_scope.

(** ** JavaScript values and the primitives the parser relies on *)

Inductive JsValue : Type :=
| VUndefined
| VNull
| VBool (b : bool)
| VNum (n : Z)
| VStr (s : string).

Definition JsValue_eqb (a b : JsValue) : bool :=
  match a, b with
  | VUndefined, VUndefined => true
  | VNull, VNull => true
  | VBool x, VBool y => Bool.eqb x y
  | VNum x, VNum y => x =? y
  | VStr x, VStr y => String.eqb x y
  | _, _ => false
  end.

Inductive JsError : Type :=
| CellOutOfBounds (row column : Z)
| TypeError (msg : string).

Inductive Result (A : Type) : Type :=
| Ok (a : A)
| Throw (e : JsError).
Arguments Ok {A} a.
Arguments Throw {A} e.

#[global] Instance Result_ret : MRet Result := fun _ a => Ok a.
#[global] Instance Result_bind : MBind Result := fun _ _ f r =>
  match r with
  | Ok a => f a
  | Throw e => Throw e
  end.

Definition isOk {A} (r : Result A) : bool :=
  match r with Ok _ => true | Throw _ => false end.

(** *** Characters and strings *)

Definition code (c : ascii) : Z := Z.of_N (N_of_ascii c).

(** WhiteSpace and LineTerminator code units below 256:
    TAB, LF, VT, FF, CR, SP and NBSP. *)
Definition isWhiteSpace (c : ascii) : bool :=
  let n := code c in
  ((9 <=? n) && (n <=? 13)) || (n =? 32) || (n =? 160).

Fixpoint trimStart (s : string) : string :=
  match s with
  | EmptyString => EmptyString
  | String c r => if isWhiteSpace c then trimStart r else s
  end.

Fixpoint trimEnd (s : string) : string :=
  match s with
  | EmptyString => EmptyString
  | String c r =>
      match trimEnd r with
      | EmptyString => if isWhiteSpace c then EmptyString else String c EmptyString
      | r' => String c r'
      end
  end.

(** [String.prototype.trim] *)
Definition trim (s : string) : string := trimEnd (trimStart s).

Definition lowerChar (c : ascii) : ascii :=
  let n := code c in
  if ((65 <=? n) && (n <=? 90))
     || ((192 <=? n) && (n <=? 222) && negb (n =? 215))
  then ascii_of_N (Z.to_N (n + 32))
  else c.

(** [String.prototype.toLowerCase] *)
Fixpoint toLowerCase (s : string) : string :=
  match s with
  | EmptyString => EmptyString
  | String c r => String (lowerChar c) (toLowerCase r)
  end.

(** ToString, as applied by template literals, [parseInt] and
    property access.  A number is printed with all its digits, which is
    what JavaScript does for an integer below 10^21 in magnitude; larger
    numbers, which it prints with an exponent, are outside the model. *)
Definition toString (v : JsValue) : string :=
  match v with
  | VUndefined => "undefined"
  | VNull => "null"
  | VBool true => "true"
  | VBool false => "false"
  | VNum n => NilZero.string_of_int (Z.to_int n)
  | VStr s => s
  end.

(** ToBoolean *)
Definition truthy (v : JsValue) : bool :=
  match v with
  | VUndefined | VNull => false
  | VBool b => b
  | VNum n => negb (n =? 0)
  | VStr s => negb (String.eqb s "")
  end.

(** The method call [v.toString()]: [undefined] and [null] have no
    properties. *)
Definition callToString (v : JsValue) : Result string :=
  match v with
  | VUndefined | VNull => Throw (TypeError "Cannot read properties of undefined or null")
  | _ => Ok (toString v)
  end.

(** The method call [v.toLowerCase()], which only strings have. *)
Definition callToLowerCase (v : JsValue) : Result string :=
  match v with
  | VStr s => Ok (toLowerCase s)
  | VUndefined | VNull => Throw (TypeError "Cannot read properties of undefined or null")
  | _ => Throw (TypeError "toLowerCase is not a function")
  end.

(** *** Numbers read from text *)

Definition digitValue (c : ascii) : option Z :=
  let n := code c in
  if (48 <=? n) && (n <=? 57) then Some (n - 48)
  else if (97 <=? n) && (n <=? 122) then Some (n - 87)
  else if (65 <=? n) && (n <=? 90) then Some (n - 55)
  else None.

(** The longest prefix of [s] made of digits of radix [R], most
    significant digit first. *)
Fixpoint radixDigits (R : Z) (s : string) : list Z :=
  match s with
  | EmptyString => []
  | String c r =>
      match digitValue c with
      | Some d => if d <? R then d :: radixDigits R r else []
      | None => []
      end
  end.

Definition digitsValue (R : Z) (ds : list Z) : Z :=
  fold_left (fun acc d => acc * R + d) ds 0.

Definition stripSign (s : string) : Z * string :=
  match s with
  | String "-" r => (-1, r)
  | String "+" r => (1, r)
  | _ => (1, s)
  end.

Definition stripHexPrefix (s : string) : Z * string :=
  match s with
  | String "0" (String "x" r) => (16, r)
  | String "0" (String "X" r) => (16, r)
  | _ => (10, s)
  end.

(** [parseInt(text)] with no radix argument.  [None] is NaN.  The
    mathematical integer is kept; its rounding to a double changes
    neither its sign nor whether it is zero, which is all the parser
    looks at. *)
Definition parseIntString (text : string) : option Z :=
  let '(sign, s1) := stripSign (trimStart text) in
  let '(R, s2) := stripHexPrefix s1 in
  match radixDigits R s2 with
  | [] => None
  | ds => Some (sign * digitsValue R ds)
  end.

Definition parseInt (v : JsValue) : option Z := parseIntString (toString v).

Definition isNaN (num : option Z) : bool :=
  match num with None => true | Some _ => false end.

(** [num > 0]; a comparison with NaN is false. *)
Definition gtZero (num : option Z) : bool :=
  match num with None => false | Some n => 0 <? n end.

(** StringToNumber for integer literals: optional surrounding white
    space, an optional sign and decimal digits, or an unsigned [0x]
    literal; the empty text is 0.  Texts with a fraction or an exponent,
    binary and octal literals and [Infinity] are outside the model and
    read as NaN, so that [==] between a text and a number or a boolean
    is modelled for integer literals only. *)
Definition stringToNumber (text : string) : option Z :=
  let s := trim text in
  if String.eqb s "" then Some 0
  else
    let '(R, s1) := stripHexPrefix s in
    if R =? 16 then
      match radixDigits 16 s1 with
      | [] => None
      | ds => if Nat.eqb (List.length ds) (String.length s1)
              then Some (digitsValue 16 ds) else None
      end
    else
      let '(sign, s2) := stripSign s in
      match radixDigits 10 s2 with
      | [] => None
      | ds => if Nat.eqb (List.length ds) (String.length s2)
              then Some (sign * digitsValue 10 ds) else None
      end.

(** ToNumber *)
Definition toNumber (v : JsValue) : option Z :=
  match v with
  | VUndefined => None
  | VNull => Some 0
  | VBool b => Some (if b then 1 else 0)
  | VNum n => Some n
  | VStr s => stringToNumber s
  end.

Definition numEq (a b : option Z) : bool :=
  match a, b with
  | Some x, Some y => x =? y
  | _, _ => false
  end.

(** The loose equality [a == b]. *)
Definition looseEq (a b : JsValue) : bool :=
  match a, b with
  | (VUndefined | VNull), (VUndefined | VNull) => true
  | (VUndefined | VNull), _ => false
  | _, (VUndefined | VNull) => false
  | VStr x, VStr y => String.eqb x y
  | _, _ => numEq (toNumber a) (toNumber b)
  end.

(** The strict equality [a === b]. *)
Definition strictEq (a b : JsValue) : bool := JsValue_eqb a b.

(** ** The data model of [parseSheets.ts] *)

Record OpMember : Type := mkOpMember {
  uniqueName : JsValue;
  displayName : JsValue;
  callsign : JsValue;
  type : JsValue;
  bolters : JsValue;
  wire : JsValue;
  lsoGrade : JsValue;
  combatDeaths : JsValue;
  promotions : JsValue;
  remarks : JsValue
}.

(** [{} as OpMember] *)
Definition emptyMember : OpMember :=
  mkOpMember VUndefined VUndefined VUndefined VUndefined VUndefined
             VUndefined VUndefined VUndefined VUndefined VUndefined.

(** [keyof OpMember] *)
Inductive Key : Type :=
| KuniqueName | KdisplayName | Kcallsign | Ktype | Kbolters | Kwire
| KlsoGrade | KcombatDeaths | Kpromotions | Kremarks.

#[global] Instance Key_eq_dec : EqDecision Key.
Proof. solve_decision. Defined.

(** [member[key]] *)
Definition getField (m : OpMember) (k : Key) : JsValue :=
  match k with
  | KuniqueName => uniqueName m
  | KdisplayName => displayName m
  | Kcallsign => callsign m
  | Ktype => type m
  | Kbolters => bolters m
  | Kwire => wire m
  | KlsoGrade => lsoGrade m
  | KcombatDeaths => combatDeaths m
  | Kpromotions => promotions m
  | Kremarks => remarks m
  end.

(** [member[key] = v] *)
Definition setField (m : OpMember) (k : Key) (v : JsValue) : OpMember :=
  match m with
  | mkOpMember u d c t b w l cd p r =>
      match k with
      | KuniqueName => mkOpMember v d c t b w l cd p r
      | KdisplayName => mkOpMember u v c t b w l cd p r
      | Kcallsign => mkOpMember u d v t b w l cd p r
      | Ktype => mkOpMember u d c v b w l cd p r
      | Kbolters => mkOpMember u d c t v w l cd p r
      | Kwire => mkOpMember u d c t b v l cd p r
      | KlsoGrade => mkOpMember u d c t b w v cd p r
      | KcombatDeaths => mkOpMember u d c t b w l v p r
      | Kpromotions => mkOpMember u d c t b w l cd v r
      | Kremarks => mkOpMember u d c t b w l cd p v
      end
  end.

(** The flags hold whatever value the sheet gave them: the cast
    [as boolean] does not convert. *)
Record OpConfig : Type := mkOpConfig {
  countBolters : JsValue;
  countDeaths : JsValue
}.

Definition columNameMap : list (Key * string) :=
  [ (KuniqueName, "Name");
    (Kcallsign, "Callsign");
    (Ktype, "Type");
    (Kbolters, "Bolters");
    (Kwire, "Wire No.");
    (KlsoGrade, "LSO Grade");
    (KcombatDeaths, "Combat Deaths");
    (Kpromotions, "Promotions");
    (Kremarks, "Remarks") ].

(** The keys found, in the order they were assigned. *)
Definition ColumnMap : Type := list (Key * nat).

Definition defaultConfig : OpConfig :=
  {| countBolters := VBool true; countDeaths := VBool true |}.

Inductive Change : Type := NoChange | Passed | Failed.

Definition parseEvent (value : JsValue) (ignoreBecauseOfConfig : bool) : Change :=
  if ignoreBecauseOfConfig then NoChange
  else
    let num := parseInt value in
    if strictEq value VUndefined || strictEq value VNull
       || strictEq value (VStr "") || isNaN num
    then NoChange
    else if gtZero num then Failed
    else Passed.

(** [list.forEach] with a body that can throw: the elements left to
    right, the accumulator threaded through. *)
Fixpoint foldM {A B : Type} (f : A -> B -> Result A) (a : A) (l : list B)
  : Result A :=
  match l with
  | [] => Ok a
  | x :: rest => a' ← f a x; foldM f a' rest
  end.

Definition nl : string := String (ascii_of_nat 10) EmptyString.

(** ** Worksheets

    [GoogleSpreadsheetWorksheet] belongs to the google-spreadsheet
    package.  The parser uses its [title], [hidden], [rowCount] and
    [columnCount] properties and [getCell(row, column).value]: the value
    of a loaded cell is a string, a number, a boolean, or [null] when the
    cell is empty, and [getCell] throws for a coordinate outside the
    sheet.  [grid] holds the values of the cells, row by row; cells it
    does not list are empty. *)

Record Sheet : Type := mkSheet {
  title : string;
  hidden : bool;
  rowCount : nat;
  columnCount : nat;
  grid : list (list JsValue)
}.

Definition cellValue (sheet : Sheet) (row column : nat) : JsValue :=
  match grid sheet !! row with
  | Some cells => default VNull (cells !! column)
  | None => VNull
  end.

Definition getCell (sheet : Sheet) (row column : Z) : Result JsValue :=
  if (row <? 0) || (column <? 0) then Throw (CellOutOfBounds row column)
  else if (Z.of_nat (rowCount sheet) <=? row)
          || (Z.of_nat (columnCount sheet) <=? column)
  then Throw (CellOutOfBounds row column)
  else Ok (cellValue sheet (Z.to_nat row) (Z.to_nat column)).

(** ** [class Op] *)

Module Op.

Record t : Type := mk {
  sheet : option Sheet;
  name : string;
  timeslot : JsValue;
  members : list OpMember;
  config : OpConfig;
  startRow : nat
}.

(** The first loop of [getOpConfig]: the columns of one row, left to
    right, up to the first cell that reads "config". *)
Fixpoint findConfigColumn (sh : Sheet) (row : nat) (columns : list nat)
  : Result (option nat) :=
  match columns with
  | [] => Ok None
  | column :: rest =>
      value ← getCell sh (Z.of_nat row) (Z.of_nat column);
      if truthy value
         && String.eqb (toLowerCase (toString value)) "config"
      then Ok (Some column)
      else findConfigColumn sh row rest
  end.

(** The rows, top to bottom, up to the first row that holds such a
    cell: [(configRow, configColumn)], or [None] for [-1]. *)
Fixpoint findConfig (sh : Sheet) (rows : list nat)
  : Result (option (nat * nat)) :=
  match rows with
  | [] => Ok None
  | row :: rest =>
      found ← findConfigColumn sh row (seq 0 (columnCount sh));
      match found with
      | Some column => Ok (Some (row, column))
      | None => findConfig sh rest
      end
  end.

(** The body of the second loop of [getOpConfig]. *)
Definition readConfigRow (sh : Sheet) (configColumn : nat)
           (cfg : OpConfig) (row : nat) : Result OpConfig :=
  value ← getCell sh (Z.of_nat row) (Z.of_nat configColumn);
  if negb (truthy value) then Ok cfg
  else
    let cellVal := toLowerCase (toString value) in
    cfg1 ← (if String.eqb cellVal "count bolters"
            then flag ← getCell sh (Z.of_nat row) (Z.of_nat configColumn + 1);
                 Ok {| countBolters := flag; countDeaths := countDeaths cfg |}
            else Ok cfg);
    if String.eqb cellVal "count deaths"
    then flag ← getCell sh (Z.of_nat row) (Z.of_nat configColumn + 1);
         Ok {| countBolters := countBolters cfg1; countDeaths := flag |}
    else Ok cfg1.

Definition getOpConfig (sh : Sheet) : Result OpConfig :=
  anchor ← findConfig sh (seq 0 (rowCount sh));
  match anchor with
  | None => Ok defaultConfig
  | Some (configRow, configColumn) =>
      foldM (readConfigRow sh configColumn) defaultConfig
        (seq (configRow + 1) (rowCount sh - (configRow + 1)))
  end.

(** The inner loop of [loadColumnMap]: the first column of the row
    whose trimmed text is [header]. *)
Fixpoint findColumn (sh : Sheet) (row : nat) (header : string)
         (columns : list nat) : Result (option nat) :=
  match columns with
  | [] => Ok None
  | column :: rest =>
      value ← getCell sh (Z.of_nat row) (Z.of_nat column);
      if truthy value && String.eqb (trim (toString value)) header
      then Ok (Some column)
      else findColumn sh row header rest
  end.

Fixpoint loadColumns (sh : Sheet) (row : nat)
         (entries : list (Key * string)) (columnMap : ColumnMap)
  : Result ColumnMap :=
  match entries with
  | [] => Ok columnMap
  | (key, header) :: rest =>
      found ← findColumn sh row header (seq 0 (columnCount sh));
      match found with
      | Some column => loadColumns sh row rest (columnMap ++ [(key, column)])%list
      | None => loadColumns sh row rest columnMap
      end
  end.

Definition loadColumnMap (sh : Sheet) (row : nat) : Result ColumnMap :=
  loadColumns sh row columNameMap [].

Fixpoint readFields (sh : Sheet) (row : nat) (mapping : ColumnMap)
         (member : OpMember) : Result OpMember :=
  match mapping with
  | [] => Ok member
  | (key, column) :: rest =>
      value ← getCell sh (Z.of_nat row) (Z.of_nat column);
      readFields sh row rest (setField member key value)
  end.

Definition parseOpMemberRow (sh : Sheet) (row : nat) (mapping : ColumnMap)
  : Result OpMember :=
  member ← readFields sh row mapping emptyMember;
  if truthy (uniqueName member) then
    let member1 := setField member KdisplayName (uniqueName member) in
    lowered ← callToLowerCase (uniqueName member1);
    Ok (setField member1 KuniqueName (VStr lowered))
  else Ok member.

(** The loop of [load] over the rows below the header; it leaves at the
    first row that has a header two rows further down. *)
Fixpoint loadRows (sh : Sheet) (columnMap : ColumnMap) (rows : list nat)
         (acc : list OpMember) : Result (list OpMember) :=
  match rows with
  | [] => Ok acc
  | row :: rest =>
      stop ← (if (row + 2 <? rowCount sh)%nat
              then value ← getCell sh (Z.of_nat row + 2) 0;
                   Ok (looseEq value (VStr "Name"))
              else Ok false);
      if (stop : bool) then Ok acc
      else
        member ← parseOpMemberRow sh row columnMap;
        loadRows sh columnMap rest (acc ++ [member])%list
  end.

(** [new Op(sheet, timeslot, config, startRow)]; [name] is assigned by
    [load]. *)
Definition new (sh : Sheet) (timeslot : JsValue) (config : OpConfig)
           (startRow : nat) : t :=
  mk (Some sh) "" timeslot [] config startRow.

(** [load()], with [this.sheet] passed as [sh]. *)
Definition load (sh : Sheet) (op : t) : Result t :=
  let name' := title sh ++ " " ++ toString (timeslot op) in
  columnMap ← loadColumnMap sh (startRow op);
  loaded ← loadRows sh columnMap
             (seq (startRow op + 1) (rowCount sh - (startRow op + 1)))
             (members op);
  Ok (mk (sheet op) name' (timeslot op) loaded (config op) (startRow op)).

(** The loop of [fromSheet]. *)
Fixpoint scanRows (sh : Sheet) (opConfig : OpConfig) (rows : list nat)
         (ops : list t) : Result (list t) :=
  match rows with
  | [] => Ok ops
  | row :: rest =>
      value ← getCell sh (Z.of_nat row) 0;
      if looseEq value (VStr "Name") then
        timeSlot ← getCell sh (Z.of_nat row - 1) 0;
        newOp ← load sh (new sh timeSlot opConfig row);
        scanRows sh opConfig rest (ops ++ [newOp])%list
      else scanRows sh opConfig rest ops
  end.

Definition fromSheet (sh : Sheet) : Result (list t) :=
  opConfig ← getOpConfig sh;
  scanRows sh opConfig (seq 0 (rowCount sh)) [].

Definition hasMember (op : t) (name : JsValue) : bool :=
  existsb (fun member => looseEq (uniqueName member) name) (members op).

Definition getMember (op : t) (name : JsValue) : option OpMember :=
  List.find (fun member => looseEq (uniqueName member) name) (members op).

End Op.

(** ** [class GoogleSheetParser] *)

Record OverallMember : Type := mkOverallMember {
  history : string;
  fiveOpsWithoutDeath : Z;
  fiveOpsWithoutBolter : Z
}.

Record SheetParseResult : Type := mkSheetParseResult {
  result_members : gmap string OverallMember;
  result_achievementHistory : string;
  result_opAchievementLog : string
}.

Module GoogleSheetParser.

(** The fields of an instance: [doc.sheetsByIndex] with the cells
    loaded, [members], [achievementHistory] and [opAchievementLog].
    A throw ends the run; the fields it leaves behind are not
    modelled. *)
Record t : Type := mk {
  sheetsByIndex : list Sheet;
  members : gmap string OverallMember;
  achievementHistory : string;
  opAchievementLog : gmap string string
}.

(** [new GoogleSheetParser(...)] followed by [init()]. *)
Definition new (sheets : list Sheet) : t := mk sheets ∅ "" ∅.

Definition set_members (self : t) (m : gmap string OverallMember) : t :=
  mk (sheetsByIndex self) m (achievementHistory self) (opAchievementLog self).

Definition set_achievementHistory (self : t) (h : string) : t :=
  mk (sheetsByIndex self) (members self) h (opAchievementLog self).

Definition set_opAchievementLog (self : t) (l : gmap string string) : t :=
  mk (sheetsByIndex self) (members self) (achievementHistory self) l.

(** [this.members[memberName]], about to be read or written through:
    a key that is absent gives [undefined], whose fields cannot be
    reached. *)
Definition memberOf (self : t) (memberName : JsValue) : Result OverallMember :=
  match members self !! toString memberName with
  | Some m => Ok m
  | None => Throw (TypeError "Cannot read properties of undefined")
  end.

(** [this.members[memberName] = m].  The key [__proto__], for which
    the assignment replaces the prototype of [members] and creates no
    property, is outside the model. *)
Definition putMember (self : t) (memberName : JsValue) (m : OverallMember) : t :=
  set_members self (<[toString memberName := m]> (members self)).

(** [this.opAchievementLog[opName] += text] *)
Definition appendOpLog (self : t) (opName text : string) : t :=
  set_opAchievementLog self
    (<[opName := default "undefined" (opAchievementLog self !! opName) ++ text]>
       (opAchievementLog self)).

(** [log(message)] *)
Definition log (self : t) (memberName : JsValue) (message : string) : Result t :=
  m ← memberOf self memberName;
  Ok (putMember self memberName
        (mkOverallMember (history m ++ message ++ nl)
                         (fiveOpsWithoutDeath m) (fiveOpsWithoutBolter m))).

(** The body of [if (opsWithoutDeath >= 5)], but for the two local
    variables. *)
Definition awardWithoutDeath (self : t) (memberName : JsValue) (op : Op.t)
           (member : OpMember) : Result t :=
  let self1 :=
    set_achievementHistory self
      (achievementHistory self ++ "After " ++ Op.name op ++ ", "
         ++ toString (displayName member) ++ " has not died in 5 ops!" ++ nl) in
  m ← memberOf self1 memberName;
  let self2 :=
    putMember self1 memberName
      (mkOverallMember (history m) (fiveOpsWithoutDeath m)
                       (fiveOpsWithoutBolter m + 1)) in
  m2 ← memberOf self2 memberName;
  Ok (appendOpLog self2 (Op.name op)
        ("[FIVE OPS WITHOUT DEATH] " ++ toString (displayName member)
           ++ ". They now have this award "
           ++ toString (VNum (fiveOpsWithoutBolter m2)) ++ " times" ++ nl)).

(** The body of [if (opsWithoutBolter >= 5)], but for the two local
    variables. *)
Definition awardWithoutBolter (self : t) (memberName : JsValue) (op : Op.t)
           (member : OpMember) : Result t :=
  let self1 :=
    set_achievementHistory self
      (achievementHistory self ++ "After " ++ Op.name op ++ ", "
         ++ toString (displayName member) ++ " has not boltered in 5 ops!" ++ nl) in
  m ← memberOf self1 memberName;
  let self2 :=
    putMember self1 memberName
      (mkOverallMember (history m) (fiveOpsWithoutDeath m + 1)
                       (fiveOpsWithoutBolter m)) in
  m2 ← memberOf self2 memberName;
  Ok (appendOpLog self2 (Op.name op)
        ("[FIVE OPS WITHOUT BOLTER] " ++ toString (displayName member)
           ++ ". They now have this award "
           ++ toString (VNum (fiveOpsWithoutDeath m2)) ++ " times" ++ nl)).

(** [value ?? "N/A"] inside a template literal *)
Definition orNA (value : JsValue) : string :=
  match value with
  | VUndefined | VNull => "N/A"
  | _ => toString value
  end.

(** The body of [ops.forEach] in [parseMember]; the accumulator holds
    the instance and the locals [opsWithoutDeath] and
    [opsWithoutBolter]. *)
Definition parseMemberOp (memberName : JsValue) (acc : t * Z * Z) (op : Op.t)
  : Result (t * Z * Z) :=
  let '(self, opsWithoutDeath, opsWithoutBolter) := acc in
  match Op.getMember op memberName with
  | None => Ok acc
  | Some member =>
      let opName := Op.name op in
      let deathResult :=
        parseEvent (combatDeaths member)
                   (negb (truthy (countDeaths (Op.config op)))) in
      let '(opsWithoutDeath1, deathLog) :=
        match deathResult with
        | Failed =>
            (0, "Died " ++ toString (combatDeaths member) ++ " times")
        | Passed =>
            (opsWithoutDeath + 1,
             "Did not die (" ++ toString (combatDeaths member) ++ ")")
        | NoChange =>
            (opsWithoutDeath,
             "No logged death (" ++ toString (combatDeaths member) ++ ")")
        end in
      let bolterResult :=
        parseEvent (bolters member)
                   (negb (truthy (countBolters (Op.config op)))) in
      let '(opsWithoutBolter1, bolterLog) :=
        match bolterResult with
        | Failed =>
            (0, "Boltered " ++ toString (bolters member) ++ " times")
        | Passed =>
            (opsWithoutBolter + 1,
             "Did not bolter (" ++ toString (bolters member) ++ ")")
        | NoChange =>
            (opsWithoutBolter, "No trap (" ++ toString (bolters member) ++ ")")
        end in
      '(self1, opsWithoutDeath2, achievements1) ←
        (if 5 <=? opsWithoutDeath1
         then self' ← awardWithoutDeath self memberName op member;
              Ok (self', 0, "[FIVE OPS WITHOUT DEATH] ")
         else Ok (self, opsWithoutDeath1, ""));
      '(self2, opsWithoutBolter2, achievements2) ←
        (if 5 <=? opsWithoutBolter1
         then self' ← awardWithoutBolter self1 memberName op member;
              Ok (self', 0, achievements1 ++ "[FIVE OPS WITHOUT BOLTER]")
         else Ok (self1, opsWithoutBolter1, achievements1));
      self3 ← log self2 memberName
                (opName ++ ": " ++ deathLog ++ " " ++ bolterLog
                   ++ " Wire: " ++ orNA (wire member)
                   ++ " Remarks: " ++ orNA (remarks member)
                   ++ " " ++ achievements2);
      Ok (self3, opsWithoutDeath2, opsWithoutBolter2)
  end.

Definition parseMember (self : t) (memberName : JsValue) (ops : list Op.t)
  : Result t :=
  let self0 := putMember self memberName (mkOverallMember "" 0 0) in
  '(self', _, _) ← foldM (parseMemberOp memberName) (self0, 0, 0) ops;
  Ok self'.

Definition nonOpSheets : list string := ["Operations Record"; "Awards Record"].

(** [nonOpSheets.includes(title)] *)
Definition includes (l : list string) (s : string) : bool :=
  existsb (String.eqb s) l.

(** The body of the loop over [doc.sheetsByIndex]. *)
Definition loadSheet (ops : list Op.t) (sh : Sheet) : Result (list Op.t) :=
  if negb (hidden sh) && negb (includes nonOpSheets (title sh))
  then newOps ← Op.fromSheet sh; Ok (ops ++ newOps)%list
  else Ok ops.

(** [Set.prototype.add]; a [Set] keeps its elements in the order they
    were first added. *)
Definition setAdd (set : list JsValue) (v : JsValue) : list JsValue :=
  if existsb (JsValue_eqb v) set then set else (set ++ [v])%list.

(** The body of the first [ops.forEach] of [run]. *)
Definition registerOp (acc : list JsValue * t) (op : Op.t) : list JsValue * t :=
  let '(names, self) := acc in
  (fold_left setAdd (map uniqueName (Op.members op)) names,
   set_opAchievementLog self
     (<[Op.name op := "------ " ++ Op.name op ++ " ------" ++ nl]>
        (opAchievementLog self))).

(** The body of the last [ops.forEach] of [run]. *)
Definition stripOp (op : Op.t) : Op.t :=
  Op.mk None (Op.name op) (Op.timeslot op)
        (List.filter (fun m => negb (looseEq (uniqueName m) VNull)) (Op.members op))
        (Op.config op) (Op.startRow op).

(** [run()].  The first component is the value the promise resolves
    to, [None] for [undefined]; the last is the array that is written
    to [ops.json].  The statements after [return;] are never reached
    and are left out. *)
Definition run (self : t) : Result (option SheetParseResult * t * list Op.t) :=
  ops ← foldM loadSheet [] (sheetsByIndex self);
  let '(names, self1) := fold_left registerOp ops ([], self) in
  self2 ← foldM (fun s member => parseMember s member ops) self1 names;
  let ops' := map stripOp ops in
  Ok (None, self2, ops').

End GoogleSheetParser.

(** ** Views used by the statements below *)

(** The two achievements, and the bookkeeping [parseMember] keeps for
    each of them. *)
Inductive AwardKind : Type := NoDeathStreak | NoBolterStreak.

(** The classification of a pilot's result in one op, as [parseMember]
    computes it; a pilot absent from the op is left alone, like
    [NoChange]. *)
Definition changeOf (kind : AwardKind) (memberName : JsValue) (op : Op.t) : Change :=
  match Op.getMember op memberName with
  | None => NoChange
  | Some member =>
      match kind with
      | NoDeathStreak =>
          parseEvent (combatDeaths member)
                     (negb (truthy (countDeaths (Op.config op))))
      | NoBolterStreak =>
          parseEvent (bolters member)
                     (negb (truthy (countBolters (Op.config op))))
      end
  end.

(** The rolling counter of a kind among the locals of [parseMember]. *)
Definition counterOf (kind : AwardKind) (acc : GoogleSheetParser.t * Z * Z) : Z :=
  match kind with
  | NoDeathStreak => snd (fst acc)
  | NoBolterStreak => snd acc
  end.

(** The field of [OverallMember] that [parseMember] increments when it
    hands out an award of a kind. *)
Definition awardCounter (kind : AwardKind) (m : OverallMember) : Z :=
  match kind with
  | NoDeathStreak => fiveOpsWithoutBolter m
  | NoBolterStreak => fiveOpsWithoutDeath m
  end.

(** How many awards of a kind the instance has recorded for a pilot. *)
Definition awardsOf (kind : AwardKind) (self : GoogleSheetParser.t)
           (memberName : JsValue) : Z :=
  match GoogleSheetParser.members self !! toString memberName with
  | Some m => awardCounter kind m
  | None => 0
  end.

Definition Change_eqb (x y : Change) : bool :=
  match x, y with
  | NoChange, NoChange => true
  | Passed, Passed => true
  | Failed, Failed => true
  | _, _ => false
  end.

(** How many classifications of a list are [c]. *)
Definition countChange (c : Change) (l : list Change) : nat :=
  List.length (List.filter (fun x => Change_eqb x c) l).

(** A rolling counter after the classification of an op, before the
    threshold is looked at. *)
Definition bump (change : Change) (counter : Z) : Z :=
  match change with
  | Failed => 0
  | Passed => counter + 1
  | NoChange => counter
  end.

(** The line an award adds to [achievementHistory]. *)
Definition awardLine (kind : AwardKind) (op : Op.t) (member : OpMember) : string :=
  "After " ++ Op.name op ++ ", " ++ toString (displayName member)
    ++ match kind with
       | NoDeathStreak => " has not died in 5 ops!"
       | NoBolterStreak => " has not boltered in 5 ops!"
       end ++ nl.

(** What one op, a whole replay of a pilot, and a whole run add to
    [achievementHistory]. *)
Definition opHistory (memberName : JsValue) (counters : Z * Z) (op : Op.t) : string :=
  match Op.getMember op memberName with
  | None => ""
  | Some member =>
      (if 5 <=? bump (changeOf NoDeathStreak memberName op) (fst counters)
       then awardLine NoDeathStreak op member else "")
      ++ (if 5 <=? bump (changeOf NoBolterStreak memberName op) (snd counters)
          then awardLine NoBolterStreak op member else "")
  end.

Definition nextCounters (memberName : JsValue) (counters : Z * Z) (op : Op.t) : Z * Z :=
  let d := bump (changeOf NoDeathStreak memberName op) (fst counters) in
  let b := bump (changeOf NoBolterStreak memberName op) (snd counters) in
  (if 5 <=? d then 0 else d, if 5 <=? b then 0 else b).

Fixpoint memberHistory (memberName : JsValue) (counters : Z * Z) (ops : list Op.t)
  : string :=
  match ops with
  | [] => ""
  | op :: rest =>
      opHistory memberName counters op
        ++ memberHistory memberName (nextCounters memberName counters op) rest
  end.

Fixpoint runHistory (names : list JsValue) (ops : list Op.t) : string :=
  match names with
  | [] => ""
  | memberName :: rest => memberHistory memberName (0, 0) ops ++ runHistory rest ops
  end.

(** ** The achievement events of a replay *)

(** What [parseMember] emits when a rolling counter reaches 5: the
    name of the op, the display name of the pilot as the template
    literals print it, the kind of the award, and the award count the
    line of the op log quotes. *)
Record AchievementEvent : Type := mkAchievementEvent {
  blockName : string;
  participantDisplayName : string;
  eventKind : AwardKind;
  awardOccurrenceCount : Z
}.

Definition AwardKind_eqb (x y : AwardKind) : bool :=
  match x, y with
  | NoDeathStreak, NoDeathStreak => true
  | NoBolterStreak, NoBolterStreak => true
  | _, _ => false
  end.

(** The line an event adds to [achievementHistory]. *)
Definition historyLine (e : AchievementEvent) : string :=
  "After " ++ blockName e ++ ", " ++ participantDisplayName e
    ++ match eventKind e with
       | NoDeathStreak => " has not died in 5 ops!"
       | NoBolterStreak => " has not boltered in 5 ops!"
       end ++ nl.

(** The line an event adds to the entry of its op in
    [opAchievementLog]. *)
Definition logLine (e : AchievementEvent) : string :=
  match eventKind e with
  | NoDeathStreak => "[FIVE OPS WITHOUT DEATH] "
  | NoBolterStreak => "[FIVE OPS WITHOUT BOLTER] "
  end ++ participantDisplayName e ++ ". They now have this award "
    ++ toString (VNum (awardOccurrenceCount e)) ++ " times" ++ nl.

(** [achievementHistory] and [opAchievementLog] after a list of events
    was emitted, one [+=] per event and in their order. *)
Definition historyAfter (events : list AchievementEvent) (h : string) : string :=
  fold_left (fun h e => h ++ historyLine e) events h.

Definition logAfter (events : list AchievementEvent) (L : gmap string string)
  : gmap string string :=
  fold_left (fun L e =>
               <[blockName e := default "undefined" (L !! blockName e) ++ logLine e]> L)
            events L.

(** The component of a kind in a pair that lists the death streak
    first, and the award fields of a record as such a pair. *)
Definition ofKind (kind : AwardKind) (p : Z * Z) : Z :=
  match kind with
  | NoDeathStreak => fst p
  | NoBolterStreak => snd p
  end.

Definition talliesOf (m : OverallMember) : Z * Z :=
  (awardCounter NoDeathStreak m, awardCounter NoBolterStreak m).

(** The events of one op, for a pilot whose rolling counters are
    [counters] and whose award fields are [tallies] when the op is
    reached: the death streak is looked at first. *)
Definition opEvents (memberName : JsValue) (counters tallies : Z * Z) (op : Op.t)
  : list AchievementEvent :=
  match Op.getMember op memberName with
  | None => []
  | Some member =>
      ((if 5 <=? bump (changeOf NoDeathStreak memberName op) (fst counters)
        then [mkAchievementEvent (Op.name op) (toString (displayName member))
                                 NoDeathStreak (fst tallies + 1)]
        else [])
       ++ (if 5 <=? bump (changeOf NoBolterStreak memberName op) (snd counters)
           then [mkAchievementEvent (Op.name op) (toString (displayName member))
                                    NoBolterStreak (snd tallies + 1)]
           else []))%list
  end.

Definition nextTallies (memberName : JsValue) (counters tallies : Z * Z) (op : Op.t)
  : Z * Z :=
  (fst tallies
   + (if 5 <=? bump (changeOf NoDeathStreak memberName op) (fst counters)
      then 1 else 0),
   snd tallies
   + (if 5 <=? bump (changeOf NoBolterStreak memberName op) (snd counters)
      then 1 else 0)).

(** The events of a whole replay, in the order they are emitted. *)
Fixpoint replayEvents (memberName : JsValue) (counters tallies : Z * Z)
         (ops : list Op.t) : list AchievementEvent :=
  match ops with
  | [] => []
  | op :: rest =>
      (opEvents memberName counters tallies op
       ++ replayEvents memberName (nextCounters memberName counters op)
                       (nextTallies memberName counters tallies op) rest)%list
  end.

Definition eventsOfKind (kind : AwardKind) (events : list AchievementEvent)
  : list AchievementEvent :=
  List.filter (fun e => AwardKind_eqb (eventKind e) kind) events.

(** The cells of a sheet in row-major order, and the first of them
    whose value passes a test. *)
Definition cellsRowMajor (sh : Sheet) : list (nat * nat) :=
  flat_map (fun row => map (fun column => (row, column)) (seq 0 (columnCount sh)))
           (seq 0 (rowCount sh)).

Definition firstCell (test : JsValue -> bool) (sh : Sheet) : option (nat * nat) :=
  List.find (fun cell => test (cellValue sh (fst cell) (snd cell)))
            (cellsRowMajor sh).

(** A cell that is not empty and whose lower-cased text is [text]: the
    test [getOpConfig] applies to find the anchor and the keys. *)
Definition readsAs (text : string) (value : JsValue) : bool :=
  truthy value && String.eqb (toLowerCase (toString value)) text.

(** The anchor test in the words of the specification: the lower-cased
    and trimmed text of the cell is "config". *)
Definition readsAsTrimmed (text : string) (value : JsValue) : bool :=
  truthy value && String.eqb (trim (toLowerCase (toString value))) text.

(** The value next to the last cell that reads as [key] in column
    [column], among the rows below [row]. *)
Definition flagBelow (sh : Sheet) (row column : nat) (key : string)
  : option JsValue :=
  match List.find (fun r => readsAs key (cellValue sh r column))
                  (rev (seq (row + 1) (rowCount sh - (row + 1)))) with
  | Some r => Some (cellValue sh r (column + 1))
  | None => None
  end.

(** The config the specification describes for an anchor at
    [(row, column)]. *)
Definition configBelow (sh : Sheet) (row column : nat) : OpConfig :=
  {| countBolters := default (VBool true) (flagBelow sh row column "count bolters");
     countDeaths := default (VBool true) (flagBelow sh row column "count deaths") |}.

(** The digits of a decimal numeral, most significant first. *)
Fixpoint uintDigits (u : Decimal.uint) : list Z :=
  match u with
  | Decimal.Nil => []
  | Decimal.D0 l => 0 :: uintDigits l
  | Decimal.D1 l => 1 :: uintDigits l
  | Decimal.D2 l => 2 :: uintDigits l
  | Decimal.D3 l => 3 :: uintDigits l
  | Decimal.D4 l => 4 :: uintDigits l
  | Decimal.D5 l => 5 :: uintDigits l
  | Decimal.D6 l => 6 :: uintDigits l
  | Decimal.D7 l => 7 :: uintDigits l
  | Decimal.D8 l => 8 :: uintDigits l
  | Decimal.D9 l => 9 :: uintDigits l
  end.

(** What a step of [parseMember] guarantees about the instance:
    the pilot keeps a record, the sheets are the same, and
    [achievementHistory] has grown by [added]. *)
Definition stepsTo (memberName : JsValue) (self self' : GoogleSheetParser.t)
           (m' : OverallMember) (added : string) : Prop :=
  GoogleSheetParser.members self' !! toString memberName = Some m'
  /\ GoogleSheetParser.sheetsByIndex self' = GoogleSheetParser.sheetsByIndex self
  /\ GoogleSheetParser.achievementHistory self'
     = GoogleSheetParser.achievementHistory self ++ added.

(** The pilots of a list of ops, in the order [run] meets them. *)
Definition pilotsOf (ops : list Op.t) (names : list JsValue) : list JsValue :=
  fold_left (fun names op =>
               fold_left GoogleSheetParser.setAdd (map uniqueName (Op.members op)) names)
            ops names.

(** The identity key of a record is empty: missing, or the empty
    string. *)
Definition emptyIdentity (member : OpMember) : bool :=
  match uniqueName member with
  | VUndefined | VNull => true
  | VStr s => String.eqb s ""
  | _ => false
  end.

(** ** Three statements in the words of the specification *)

(** The final filter as the specification words it: after a run that
    completes, no op holds a member whose identity key is empty. *)
Definition noEmptyIdentityAfterRun (self : GoogleSheetParser.t) : Prop :=
  forall result self' ops op member,
    GoogleSheetParser.run self = Ok (result, self', ops) ->
    In op ops -> In member (Op.members op) ->
    emptyIdentity member = false.

(** The identity key as the specification words it: for a row with a
    non-empty name it is the lower-cased, trimmed name, and the display
    name is the name as written. *)
Definition identityKeyLoweredAndTrimmed (sh : Sheet) (row : nat)
           (mapping : ColumnMap) : Prop :=
  forall c s member,
    In (KuniqueName, c) mapping ->
    cellValue sh row c = VStr s -> s <> "" ->
    Op.parseOpMemberRow sh row mapping = Ok member ->
    uniqueName member = VStr (trim (toLowerCase s))
    /\ displayName member = VStr s.

(** The config block as the specification words it: the anchor is the
    first cell whose lower-cased, trimmed text is "config"; without an
    anchor the config is the default, with one every row below it is
    scanned and the last row that reads as a key gives the flag its
    value. *)
Definition configResolvedAsSpecified (sh : Sheet) : Prop :=
  match firstCell (readsAsTrimmed "config") sh with
  | None => Op.getOpConfig sh = Ok defaultConfig
  | Some (row, column) => Op.getOpConfig sh = Ok (configBelow sh row column)
  end.

(** ** Sample sheets and ops *)

Definition oneOpSheet : Sheet :=
  mkSheet "Week1" false 3 2
    [ [VStr "1900Z"];
      [VStr "Name"; VStr "Combat Deaths"];
      [VStr "Maverick"; VNum 0] ].

Definition emptyNameSheet : Sheet :=
  mkSheet "Week1" false 3 1
    [ [VStr "1900Z"];
      [VStr "Name"];
      [VStr ""] ].

Definition namedRowSheet : Sheet :=
  mkSheet "Week1" false 4 1
    [ [VStr "1900Z"];
      [VStr "Name"];
      [VStr "Maverick"];
      [VNull] ].

Definition headerFirstSheet : Sheet :=
  mkSheet "Week1" false 2 2
    [ [VStr "Name"; VStr "Combat Deaths"];
      [VStr "Maverick"; VNum 0] ].

Definition paddedNameSheet : Sheet :=
  mkSheet "Week1" false 3 1
    [ [VStr "1900Z"];
      [VStr "Name"];
      [VStr " Maverick "] ].

Definition spacedConfigSheet : Sheet :=
  mkSheet "Week1" false 2 2
    [ [VStr " Config"; VNull];
      [VStr "Count Bolters"; VBool false] ].

Definition configSheet : Sheet :=
  mkSheet "Week1" false 4 3
    [ [VStr "1900Z"; VStr "Config"; VNull];
      [VStr "Name"; VStr "Count Bolters"; VBool true];
      [VStr "Maverick"; VStr "count deaths"; VBool false];
      [VNull; VStr "COUNT BOLTERS"; VBool false] ].

(** A sheet with five ops; in each of them Maverick has no combat death
    and one bolter. *)
Definition opBlock (timeslot : string) : list (list JsValue) :=
  [ [VStr timeslot];
    [VStr "Name"; VStr "Combat Deaths"; VStr "Bolters"];
    [VStr "Maverick"; VNum 0; VNum 1];
    [] ].

Definition fiveOpsSheet : Sheet :=
  mkSheet "Week1" false 20 3
    (opBlock "1900Z" ++ opBlock "2000Z" ++ opBlock "2100Z"
       ++ opBlock "2200Z" ++ opBlock "2300Z")%list.

Definition fiveOps : list Op.t :=
  match Op.fromSheet fiveOpsSheet with
  | Ok ops => ops
  | Throw _ => []
  end.

Definition deadlyOp : Op.t :=
  Op.mk None "Week2 1900Z" (VStr "1900Z")
        [mkOpMember (VStr "maverick") (VStr "Maverick") VUndefined VUndefined
                    (VNum 0) VUndefined VUndefined (VNum 2) VUndefined VUndefined]
        defaultConfig 1.

(** ** Views used by the further properties *)

(** [list.map] with a body that can throw. *)
Fixpoint mapM {A B : Type} (f : A -> Result B) (l : list A) : Result (list B) :=
  match l with
  | [] => Ok []
  | x :: rest => y ← f x; ys ← mapM f rest; Ok (y :: ys)
  end.

(** The test [loadColumnMap] applies to a header cell. *)
Definition headerMatches (header : string) (value : JsValue) : bool :=
  truthy value && String.eqb (trim (toString value)) header.

(** For each key of [columNameMap], in order, the first column of the
    row whose cell matches the header of the key, when there is one. *)
Definition columnsFound (sh : Sheet) (row : nat) : ColumnMap :=
  flat_map (fun entry : Key * string =>
              match List.find (fun column =>
                                 headerMatches (snd entry) (cellValue sh row column))
                              (seq 0 (columnCount sh)) with
              | Some column => [(fst entry, column)]
              | None => []
              end)
           columNameMap.

(** The rows of column 0 that read "Name". *)
Definition isHeaderRow (sh : Sheet) (row : nat) : bool :=
  looseEq (cellValue sh row 0) (VStr "Name").

Definition headerRows (sh : Sheet) : list nat :=
  List.filter (isHeaderRow sh) (seq 0 (rowCount sh)).

(** The look-ahead of [load]: a header two rows below [row]. *)
Definition stopsAt (sh : Sheet) (row : nat) : bool :=
  (row + 2 <? rowCount sh)%nat && isHeaderRow sh (row + 2).

(** The rows of a list up to the first one that passes a test. *)
Fixpoint rowsBefore (stop : nat -> bool) (rows : list nat) : list nat :=
  match rows with
  | [] => []
  | row :: rest => if stop row then [] else row :: rowsBefore stop rest
  end.

(** The rows [load] reads as members for a header in row [startRow]. *)
Definition memberRows (sh : Sheet) (startRow : nat) : list nat :=
  rowsBefore (stopsAt sh) (seq (startRow + 1) (rowCount sh - (startRow + 1))).

(** A cell that holds a text or counts as empty. *)
Definition textOrEmpty (value : JsValue) : bool :=
  match value with
  | VStr _ => true
  | _ => negb (truthy value)
  end.

(** A cell that reads as one of the two keys of the config block. *)
Definition readsAsKey (value : JsValue) : bool :=
  readsAs "count bolters" value || readsAs "count deaths" value.

(** The sheets [run] loads ops from. *)
Definition isOpSheet (sh : Sheet) : bool :=
  negb (hidden sh)
  && negb (GoogleSheetParser.includes GoogleSheetParser.nonOpSheets (title sh)).

(** The line [run] starts the log of an op with. *)
Definition opHeader (opName : string) : string :=
  "------ " ++ opName ++ " ------" ++ nl.

(** Assignments [map[key] = value], in order. *)
Definition insertAll {V : Type} (l : list (string * V)) (m : gmap string V)
  : gmap string V :=
  fold_left (fun acc kv => <[fst kv := snd kv]> acc) l m.

(** A value that is neither [null] nor [undefined]. *)
Definition notNullish (value : JsValue) : bool :=
  match value with
  | VUndefined | VNull => false
  | _ => true
  end.

(** A name that is a text or is missing ([null] or [undefined]), and
    an op all of whose members have such a name. *)
Definition textOrMissing (value : JsValue) : bool :=
  match value with
  | VStr _ | VNull | VUndefined => true
  | _ => false
  end.

Definition namesAreTexts (op : Op.t) : bool :=
  forallb (fun member => textOrMissing (uniqueName member)) (Op.members op).

(** Two such names are the same when they are the same text or are
    both missing: what [==] answers for them, no conversion to a number
    being involved. *)
Definition sameName (a b : JsValue) : bool :=
  match a, b with
  | VStr x, VStr y => String.eqb x y
  | (VNull | VUndefined), (VNull | VUndefined) => true
  | _, _ => false
  end.

(** No member of the op has the name. *)
Definition absentFrom (name : JsValue) (op : Op.t) : bool :=
  forallb (fun member => negb (sameName (uniqueName member) name)) (Op.members op).

(** The flag of the config that switches a kind of award off. *)
Definition flagOf (kind : AwardKind) (config : OpConfig) : JsValue :=
  match kind with
  | NoDeathStreak => countDeaths config
  | NoBolterStreak => countBolters config
  end.

Definition numberedNameSheet : Sheet :=
  mkSheet "Week1" false 3 1
    [ [VStr "1900Z"];
      [VStr "Name"];
      [VNum 42] ].

Definition tenOps : list Op.t := (fiveOps ++ fiveOps)%list.

Definition uncountedOp : Op.t :=
  Op.mk None "Week3 1900Z" (VStr "1900Z")
        [mkOpMember (VStr "maverick") (VStr "Maverick") VUndefined VUndefined
                    (VNum 0) VUndefined VUndefined (VNum 0) VUndefined VUndefined]
        {| countBolters := VBool false; countDeaths := VBool true |} 1.

(** A log that has only grown: every entry of [L] is still there with
    text added at its end, and no key outside [names] has appeared. *)
Definition logExtends (names : list string) (L L' : gmap string string) : Prop :=
  (forall k v, L !! k = Some v -> exists x, L' !! k = Some (v ++ x))
  /\ (forall k, L !! k = None -> ~ In k names -> L' !! k = None).

(** The header entries [run] writes into the log, one per op. *)
Definition opHeaders (ops : list Op.t) : list (string * string) :=
  map (fun op => (Op.name op, opHeader (Op.name op))) ops.

(** ** Basic facts *)

Lemma getCell_inside (sh : Sheet) (row column : nat) :
  (row < rowCount sh)%nat -> (column < columnCount sh)%nat ->
  getCell sh (Z.of_nat row) (Z.of_nat column)
  = Ok (cellValue sh row column).
Proof.
  intros Hr Hc. unfold getCell.
  replace (Z.of_nat row <? 0) with false by (symmetry; apply Z.ltb_ge; lia).
  replace (Z.of_nat column <? 0) with false by (symmetry; apply Z.ltb_ge; lia).
  replace (Z.of_nat (rowCount sh) <=? Z.of_nat row) with false
    by (symmetry; apply Z.leb_gt; lia).
  replace (Z.of_nat (columnCount sh) <=? Z.of_nat column) with false
    by (symmetry; apply Z.leb_gt; lia).
  simpl. now rewrite !Nat2Z.id.
Qed.

Lemma getCell_negative_row (sh : Sheet) (row column : Z) :
  row < 0 -> getCell sh row column = Throw (CellOutOfBounds row column).
Proof.
  intros H. unfold getCell.
  replace (row <? 0) with true by (symmetry; apply Z.ltb_lt; lia).
  reflexivity.
Qed.

Lemma foldM_app {A B : Type} (f : A -> B -> Result A) (l1 l2 : list B) (a : A) :
  foldM f a (l1 ++ l2)%list = (a' ← foldM f a l1; foldM f a' l2).
Proof.
  revert a. induction l1 as [|x l1 IH]; intros a; simpl; [reflexivity|].
  destruct (f a x) as [a'|e]; simpl; [apply IH | reflexivity].
Qed.

Lemma bind_Ok_inv {A B : Type} (r : Result A) (f : A -> Result B) (b : B) :
  (a ← r; f a) = Ok b -> exists a, r = Ok a /\ f a = Ok b.
Proof. destruct r as [a|e]; simpl; [eauto | discriminate]. Qed.

Lemma seq_below (start len : nat) (bound : nat) :
  (start + len <= bound)%nat ->
  Forall (fun i => (i < bound)%nat) (seq start len).
Proof.
  intros H. apply Forall_forall. intros i Hi.
  apply list_elem_of_In, in_seq in Hi. lia.
Qed.

Lemma String_eqb_true (s t : string) : String.eqb s t = true -> s = t.
Proof. apply String.eqb_eq. Qed.

(** ** Classification of a raw value *)

Lemma parseInt_missing :
  parseInt VUndefined = None /\ parseInt VNull = None
  /\ parseInt (VStr "") = None.
Proof. repeat split; reflexivity. Qed.

Lemma radixDigits_uint (u : Decimal.uint) :
  radixDigits 10 (NilEmpty.string_of_uint u) = uintDigits u.
Proof.
  induction u as [|u IH|u IH|u IH|u IH|u IH|u IH|u IH|u IH|u IH|u IH];
    [reflexivity|..];
    cbn [NilEmpty.string_of_uint uintDigits]; rewrite <- IH; reflexivity.
Qed.

Lemma digitsValue_acc (u : Decimal.uint) :
  forall acc : positive,
    fold_left (fun a d => a * 10 + d) (uintDigits u) (Z.pos acc)
    = Z.pos (Pos.of_uint_acc u acc).
Proof.
  induction u as [|u IH|u IH|u IH|u IH|u IH|u IH|u IH|u IH|u IH|u IH];
    intros acc; [reflexivity|..];
    cbn [uintDigits fold_left Pos.of_uint_acc]; rewrite <- IH; f_equal; lia.
Qed.

Lemma digitsValue_uint (u : Decimal.uint) :
  digitsValue 10 (uintDigits u) = Z.of_uint u.
Proof.
  unfold digitsValue, Z.of_uint.
  induction u as [|u IH|u IH|u IH|u IH|u IH|u IH|u IH|u IH|u IH|u IH];
    [reflexivity | exact IH |..];
    cbn [uintDigits fold_left Pos.of_uint]; apply digitsValue_acc.
Qed.

(** [parseInt] reads back a decimal numeral, with or without a minus
    sign. *)
Lemma parseIntString_uint (u : Decimal.uint) :
  u <> Decimal.Nil ->
  parseIntString (NilEmpty.string_of_uint u) = Some (Z.of_uint u)
  /\ parseIntString (String "-" (NilEmpty.string_of_uint u)) = Some (- Z.of_uint u).
Proof.
  intros Hu.
  assert (H : parseIntString (NilEmpty.string_of_uint u)
              = match radixDigits 10 (NilEmpty.string_of_uint u) with
                | [] => None
                | ds => Some (1 * digitsValue 10 ds)
                end
              /\ parseIntString (String "-" (NilEmpty.string_of_uint u))
                 = match radixDigits 10 (NilEmpty.string_of_uint u) with
                   | [] => None
                   | ds => Some (-1 * digitsValue 10 ds)
                   end).
  { destruct u as [|u|u|u|u|u|u|u|u|u|u]; try (split; reflexivity).
    destruct u as [|u|u|u|u|u|u|u|u|u|u]; split; reflexivity. }
  destruct H as [H1 H2]. rewrite H1, H2, radixDigits_uint.
  rewrite <- digitsValue_uint.
  destruct u; try contradiction; cbn [uintDigits]; split; f_equal; lia.
Qed.

(** A number cell parses to its own value. *)
Lemma parseInt_number (n : Z) : parseInt (VNum n) = Some n.
Proof.
  unfold parseInt, toString, Z.to_int.
  destruct n as [|p|p]; [reflexivity|..];
    cbn [NilZero.string_of_int NilZero.string_of_uint];
    pose proof (Unsigned.to_uint_nonnil p) as Hnil;
    pose proof (DecimalPos.Unsigned.of_to p) as Hof;
    destruct (parseIntString_uint (Pos.to_uint p) Hnil) as [H1 H2];
    unfold Z.of_uint in H1, H2; rewrite Hof in H1, H2.
  - destruct (Pos.to_uint p); try contradiction; exact H1.
  - destruct (Pos.to_uint p); try contradiction; exact H2.
Qed.

(** C4.  [parseEvent] gives [NoChange] whenever the category is disabled
    by the config, whatever the raw value (a raw "3" included);
    otherwise [NoChange] when the raw value is missing, empty or does not
    parse to an integer, [Failed] when the parsed integer is above 0,
    and [Passed] when it is 0 or below.  A number cell parses to itself:
    it is [Failed] above 0 and [Passed] otherwise. *)
Theorem parseEvent_classifies (value : JsValue) (ignoreBecauseOfConfig : bool)
        (n : Z) :
  parseEvent value ignoreBecauseOfConfig
  = (if ignoreBecauseOfConfig then NoChange
     else match parseInt value with
          | None => NoChange
          | Some parsed => if 0 <? parsed then Failed else Passed
          end)
  /\ parseEvent value true = NoChange
  /\ parseEvent (VStr "3") true = NoChange
  /\ parseEvent VUndefined false = NoChange
  /\ parseEvent VNull false = NoChange
  /\ parseEvent (VStr "") false = NoChange
  /\ parseEvent (VStr "abc") false = NoChange
  /\ parseEvent (VStr "3") false = Failed
  /\ parseEvent (VStr "0") false = Passed
  /\ parseEvent (VStr "-2") false = Passed
  /\ parseEvent (VNum n) false = (if 0 <? n then Failed else Passed).
Proof.
  assert (Hgen : forall v,
             parseEvent v false
             = match parseInt v with
               | None => NoChange
               | Some parsed => if 0 <? parsed then Failed else Passed
               end).
  { intros v. unfold parseEvent.
    destruct v as [| |b|k|s]; try reflexivity.
    - cbn [strictEq JsValue_eqb orb]. destruct (parseInt (VBool b)); reflexivity.
    - cbn [strictEq JsValue_eqb orb]. destruct (parseInt (VNum k)); reflexivity.
    - cbn [strictEq JsValue_eqb orb]. destruct (String.eqb s "") eqn:E.
      + apply String_eqb_true in E. subst s. reflexivity.
      + destruct (parseInt (VStr s)); reflexivity. }
  split; [destruct ignoreBecauseOfConfig; [reflexivity | apply Hgen]|].
  do 9 (split; [reflexivity|]).
  rewrite Hgen, parseInt_number. reflexivity.
Qed.

(** ** The value [run] resolves to *)

(** C2.  Whatever the sheets, a run that completes resolves to
    [undefined]: the [return;] that follows the writing of [ops.json]
    leaves before the result record is built. *)
Theorem run_returns_undefined (self : GoogleSheetParser.t)
        (result : option SheetParseResult) (self' : GoogleSheetParser.t)
        (ops : list Op.t) :
  GoogleSheetParser.run self = Ok (result, self', ops) -> result = None.
Proof.
  unfold GoogleSheetParser.run. intros H.
  apply bind_Ok_inv in H as (ops0 & _ & H).
  destruct (fold_left GoogleSheetParser.registerOp ops0 ([], self)) as [names self1].
  apply bind_Ok_inv in H as (self2 & _ & H).
  congruence.
Qed.

Lemma run_returns_undefined_witness :
  exists result self' ops,
    GoogleSheetParser.run (GoogleSheetParser.new [oneOpSheet])
    = Ok (result, self', ops)
    /\ result = None.
Proof.
  do 3 eexists. split; [vm_compute; reflexivity|].
  eapply (run_returns_undefined (GoogleSheetParser.new [oneOpSheet])).
  vm_compute. reflexivity.
Defined.

(** ** The final filter of [run] *)

(** C5, as stated, fails: a row whose name cell holds the empty string
    stays in the op after the filter, which only drops [null] and
    [undefined]. *)
Lemma run_keeps_empty_name :
  ~ noEmptyIdentityAfterRun (GoogleSheetParser.new [emptyNameSheet]).
Proof.
  intros H.
  assert (E : exists self' op member,
             GoogleSheetParser.run (GoogleSheetParser.new [emptyNameSheet])
             = Ok (None, self', [op])
             /\ Op.members op = [member] /\ emptyIdentity member = true).
  { do 3 eexists. split; [vm_compute; reflexivity|].
    split; reflexivity. }
  destruct E as (self' & op & member & Hrun & Hmem & Hempty).
  specialize (H _ _ _ op member Hrun (or_introl eq_refl)).
  rewrite Hmem in H. specialize (H (or_introl eq_refl)). congruence.
Qed.

Lemma looseEq_null_false (v : JsValue) :
  looseEq v VNull = false -> v <> VNull /\ v <> VUndefined.
Proof. destruct v; simpl; intros H; split; congruence. Qed.

(** C5, amended.  After a run that completes, no op holds a member
    whose [uniqueName] is [null] or [undefined]. *)
Theorem run_filters_missing_names (self : GoogleSheetParser.t)
        (result : option SheetParseResult) (self' : GoogleSheetParser.t)
        (ops : list Op.t) (op : Op.t) (member : OpMember) :
  GoogleSheetParser.run self = Ok (result, self', ops) ->
  In op ops -> In member (Op.members op) ->
  uniqueName member <> VNull /\ uniqueName member <> VUndefined.
Proof.
  unfold GoogleSheetParser.run. intros H Hop Hm.
  apply bind_Ok_inv in H as (ops0 & _ & H).
  destruct (fold_left GoogleSheetParser.registerOp ops0 ([], self)) as [names self1].
  apply bind_Ok_inv in H as (self2 & _ & H).
  injection H as _ _ <-.
  apply in_map_iff in Hop as (op0 & <- & _).
  simpl in Hm. apply filter_In in Hm as [_ Hm].
  apply looseEq_null_false. now apply negb_true_iff in Hm.
Qed.

Lemma run_filters_missing_names_witness :
  exists self' op member,
    GoogleSheetParser.run (GoogleSheetParser.new [namedRowSheet])
    = Ok (None, self', [op])
    /\ Op.members op = [member]
    /\ uniqueName member <> VNull /\ uniqueName member <> VUndefined.
Proof.
  do 3 eexists. split; [vm_compute; reflexivity|]. split; [reflexivity|].
  eapply (run_filters_missing_names (GoogleSheetParser.new [namedRowSheet]));
    [vm_compute; reflexivity | left; reflexivity | left; reflexivity].
Defined.

(** ** Block discovery reads the cell above a header *)

(** C10.  When the first cell of the sheet reads "Name", [fromSheet]
    asks for the cell at row -1 and [getCell] throws: the read of the
    timeslot above a header has no guard for a header in row 0. *)
Theorem fromSheet_header_in_row_0 (sh : Sheet) (cfg : OpConfig) :
  (0 < rowCount sh)%nat -> (0 < columnCount sh)%nat ->
  cellValue sh 0 0 = VStr "Name" ->
  Op.getOpConfig sh = Ok cfg ->
  Op.fromSheet sh = Throw (CellOutOfBounds (-1) 0).
Proof.
  intros Hr Hc Hname Hcfg. unfold Op.fromSheet. rewrite Hcfg. simpl.
  pose proof (getCell_inside sh 0 0 Hr Hc) as Hcell.
  change (Z.of_nat 0) with 0 in Hcell.
  destruct (rowCount sh) as [|n]; [lia|].
  cbn [seq Op.scanRows]. change (Z.of_nat 0) with 0.
  rewrite Hcell, Hname. cbn [mbind Result_bind looseEq String.eqb].
  reflexivity.
Qed.

Lemma fromSheet_header_in_row_0_witness :
  Op.fromSheet headerFirstSheet = Throw (CellOutOfBounds (-1) 0).
Proof.
  apply (fromSheet_header_in_row_0 headerFirstSheet defaultConfig);
    [simpl; lia | simpl; lia | reflexivity | reflexivity].
Defined.

(** ** The identity key of a member row *)

Lemma getField_setField_eq (m : OpMember) (k : Key) (v : JsValue) :
  getField (setField m k v) k = v.
Proof. destruct m, k; reflexivity. Qed.

Lemma getField_setField_ne (m : OpMember) (k k' : Key) (v : JsValue) :
  k <> k' -> getField (setField m k v) k' = getField m k'.
Proof. destruct m, k, k'; intros H; try reflexivity; congruence. Qed.

(** [readFields] cannot throw on a row and on columns inside the sheet;
    it leaves alone the fields the mapping does not list. *)
Lemma readFields_inside (sh : Sheet) (row : nat) (mapping : ColumnMap) :
  (row < rowCount sh)%nat ->
  Forall (fun entry => (snd entry < columnCount sh)%nat) mapping ->
  forall member, exists member',
    Op.readFields sh row mapping member = Ok member'
    /\ (forall k, ~ In k (map fst mapping) ->
                  getField member' k = getField member k).
Proof.
  intros Hrow. induction mapping as [|[k c] rest IH]; intros Hcols member.
  - exists member. split; [reflexivity | auto].
  - apply Forall_cons in Hcols as [Hc Hrest]. simpl in Hc.
    cbn [Op.readFields]. rewrite (getCell_inside sh row c Hrow Hc).
    cbn [mbind Result_bind].
    destruct (IH Hrest (setField member k (cellValue sh row c)))
      as (member' & Hread & Hother).
    exists member'. split; [exact Hread|].
    intros k' Hk'. simpl in Hk'.
    rewrite Hother by tauto.
    apply getField_setField_ne. tauto.
Qed.

(** A key listed once in the mapping gets the value of its cell. *)
Lemma readFields_lookup (sh : Sheet) (row : nat) (mapping : ColumnMap) :
  (row < rowCount sh)%nat ->
  Forall (fun entry => (snd entry < columnCount sh)%nat) mapping ->
  NoDup (map fst mapping) ->
  forall member member' k c,
    Op.readFields sh row mapping member = Ok member' ->
    In (k, c) mapping ->
    getField member' k = cellValue sh row c.
Proof.
  intros Hrow. induction mapping as [|[k0 c0] rest IH];
    intros Hcols Hnodup member member' k c Hread Hin; [destruct Hin|].
  apply Forall_cons in Hcols as [Hc Hrest]. simpl in Hc.
  simpl in Hnodup. apply NoDup_cons in Hnodup as [Hfresh Hnodup].
  cbn [Op.readFields] in Hread.
  rewrite (getCell_inside sh row c0 Hrow Hc) in Hread.
  cbn [mbind Result_bind] in Hread.
  destruct Hin as [Heq|Hin].
  - injection Heq as -> ->.
    destruct (readFields_inside sh row rest Hrow Hrest
                (setField member k (cellValue sh row c)))
      as (member'' & Hread' & Hother).
    rewrite Hread in Hread'. injection Hread' as <-.
    rewrite Hother.
    + apply getField_setField_eq.
    + intros Hk. apply Hfresh. now apply list_elem_of_In.
  - eapply IH; eauto.
Qed.

(** C6, as stated, fails: [parseOpMemberRow] lower-cases the name and
    does not trim it. *)
Lemma parseOpMemberRow_keeps_spaces :
  ~ identityKeyLoweredAndTrimmed paddedNameSheet 2 [(KuniqueName, 0%nat)].
Proof.
  intros H.
  destruct (H 0%nat " Maverick " _ (or_introl eq_refl) eq_refl
              ltac:(discriminate) eq_refl) as [Hkey _].
  vm_compute in Hkey. discriminate Hkey.
Qed.

(** For a row and columns inside the sheet, a name cell that holds a
    non-empty text is lower-cased into [uniqueName] and copied into
    [displayName]. *)
Lemma parseOpMemberRow_lowered (sh : Sheet) (row : nat)
      (mapping : ColumnMap) (c : nat) (s : string) :
  (row < rowCount sh)%nat ->
  Forall (fun entry => (snd entry < columnCount sh)%nat) mapping ->
  NoDup (map fst mapping) ->
  In (KuniqueName, c) mapping ->
  cellValue sh row c = VStr s -> s <> "" ->
  exists member,
    Op.parseOpMemberRow sh row mapping = Ok member
    /\ uniqueName member = VStr (toLowerCase s)
    /\ displayName member = VStr s.
Proof.
  intros Hrow Hcols Hnodup Hin Hcell Hs.
  destruct (readFields_inside sh row mapping Hrow Hcols emptyMember)
    as (raw & Hread & _).
  pose proof (readFields_lookup sh row mapping Hrow Hcols Hnodup
                _ _ _ _ Hread Hin) as Hname.
  simpl in Hname. rewrite Hcell in Hname.
  unfold Op.parseOpMemberRow. rewrite Hread. cbn [mbind Result_bind].
  rewrite Hname. cbn [truthy].
  destruct (String.eqb s "") eqn:E; [apply String_eqb_true in E; contradiction|].
  cbn [negb].
  destruct raw as [u d cs t b w l cd p r]. simpl in Hname. subst u.
  eexists. split; [reflexivity|]. split; reflexivity.
Qed.

(** The inner loop of [loadColumnMap] does not throw on a row inside the
    sheet and only returns columns it was given. *)
Lemma findColumn_inside (sh : Sheet) (row : nat) (header : string)
      (columns : list nat) :
  (row < rowCount sh)%nat ->
  Forall (fun column => (column < columnCount sh)%nat) columns ->
  exists found,
    Op.findColumn sh row header columns = Ok found
    /\ (forall column, found = Some column -> (column < columnCount sh)%nat).
Proof.
  intros Hrow. induction columns as [|c rest IH]; intros Hcols.
  - exists None. split; [reflexivity | discriminate].
  - apply Forall_cons in Hcols as [Hc Hrest].
    cbn [Op.findColumn]. rewrite (getCell_inside sh row c Hrow Hc).
    cbn [mbind Result_bind].
    destruct (truthy (cellValue sh row c)
              && String.eqb (trim (toString (cellValue sh row c))) header).
    + exists (Some c). split; [reflexivity|]. now intros column [= <-].
    + exact (IH Hrest).
Qed.

(** [loadColumnMap] adds, in the order of [columNameMap], the keys whose
    header it finds, each with a column inside the sheet. *)
Lemma loadColumns_found (sh : Sheet) (row : nat) (entries : list (Key * string)) :
  (row < rowCount sh)%nat ->
  forall columnMap : ColumnMap,
  exists found,
    Op.loadColumns sh row entries columnMap = Ok (columnMap ++ found)%list
    /\ Forall (fun entry => (snd entry < columnCount sh)%nat) found
    /\ sublist (map fst found) (map fst entries).
Proof.
  intros Hrow. induction entries as [|[key header] rest IH]; intros columnMap.
  - exists []. rewrite app_nil_r. split; [reflexivity|].
    split; constructor.
  - destruct (findColumn_inside sh row header (seq 0 (columnCount sh)) Hrow)
      as (found & E & Hfound); [apply seq_below; lia|].
    cbn [Op.loadColumns]. rewrite E. cbn [mbind Result_bind].
    destruct found as [column|].
    + destruct (IH (columnMap ++ [(key, column)])%list) as (more & E' & Hin & Hsub).
      exists ((key, column) :: more). rewrite E', <- app_assoc.
      split; [reflexivity|]. split.
      * constructor; [exact (Hfound column eq_refl) | exact Hin].
      * cbn [map fst]. now constructor.
    + destruct (IH columnMap) as (more & E' & Hin & Hsub).
      exists more. split; [exact E'|]. split; [exact Hin|].
      cbn [map fst]. now constructor.
Qed.

Lemma loadColumnMap_wellformed (sh : Sheet) (row : nat) :
  (row < rowCount sh)%nat ->
  exists mapping,
    Op.loadColumnMap sh row = Ok mapping
    /\ Forall (fun entry => (snd entry < columnCount sh)%nat) mapping
    /\ NoDup (map fst mapping).
Proof.
  intros Hrow. unfold Op.loadColumnMap.
  destruct (loadColumns_found sh row columNameMap Hrow []) as (found & E & Hin & Hsub).
  exists found. split; [exact E|]. split; [exact Hin|].
  eapply sublist_NoDup; [|exact Hsub].
  cbn. repeat (constructor;
               [rewrite ?elem_of_cons, elem_of_nil; intuition discriminate|]).
  constructor.
Qed.

(** C6, amended.  With the column map [loadColumnMap] builds from a
    header row, for a row whose name cell holds a non-empty text,
    [parseOpMemberRow] sets [uniqueName] to the lower-cased text, spaces
    included, and [displayName] to the text as written. *)
Theorem parseOpMemberRow_identity (sh : Sheet) (header row : nat)
        (mapping : ColumnMap) (c : nat) (s : string) :
  (header < rowCount sh)%nat -> (row < rowCount sh)%nat ->
  Op.loadColumnMap sh header = Ok mapping ->
  In (KuniqueName, c) mapping ->
  cellValue sh row c = VStr s -> s <> "" ->
  exists member,
    Op.parseOpMemberRow sh row mapping = Ok member
    /\ uniqueName member = VStr (toLowerCase s)
    /\ displayName member = VStr s.
Proof.
  intros Hheader Hrow Hmap Hin Hcell Hs.
  destruct (loadColumnMap_wellformed sh header Hheader)
    as (mapping' & E & Hcols & Hnodup).
  rewrite Hmap in E. injection E as <-.
  exact (parseOpMemberRow_lowered sh row mapping c s Hrow Hcols Hnodup
           Hin Hcell Hs).
Qed.

Lemma parseOpMemberRow_identity_witness :
  exists member,
    Op.parseOpMemberRow paddedNameSheet 2 [(KuniqueName, 0%nat)] = Ok member
    /\ uniqueName member = VStr " maverick "
    /\ displayName member = VStr " Maverick ".
Proof.
  apply (parseOpMemberRow_identity paddedNameSheet 1 2
           [(KuniqueName, 0%nat)] 0 " Maverick ").
  - simpl; lia.
  - simpl; lia.
  - reflexivity.
  - left; reflexivity.
  - reflexivity.
  - discriminate.
Defined.

(** ** The config block of a sheet *)

Lemma find_app_first {A : Type} (P : A -> bool) (l1 l2 : list A) :
  List.find P (l1 ++ l2)%list
  = match List.find P l1 with
    | Some x => Some x
    | None => List.find P l2
    end.
Proof.
  induction l1 as [|x l1 IH]; simpl; [reflexivity|].
  destruct (P x); [reflexivity | exact IH].
Qed.

Lemma find_map_pair (test : nat * nat -> bool) (row : nat) (columns : list nat) :
  List.find test (map (fun column => (row, column)) columns)
  = option_map (fun column => (row, column))
               (List.find (fun column => test (row, column)) columns).
Proof.
  induction columns as [|c rest IH]; simpl; [reflexivity|].
  destruct (test (row, c)); [reflexivity | exact IH].
Qed.

Lemma find_none_weaken {A : Type} (P Q : A -> bool) (l : list A) :
  (forall x, Q x = true -> P x = true) ->
  List.find P l = None -> List.find Q l = None.
Proof.
  intros HPQ. induction l as [|x l IH]; simpl; [reflexivity|].
  destruct (P x) eqn:EP; [discriminate|].
  destruct (Q x) eqn:EQ; [|exact IH].
  apply HPQ in EQ. congruence.
Qed.

(** The inner loop of the anchor search returns the first column of
    the row that reads "config". *)
Lemma findConfigColumn_find (sh : Sheet) (row : nat) (columns : list nat) :
  (row < rowCount sh)%nat ->
  Forall (fun column => (column < columnCount sh)%nat) columns ->
  Op.findConfigColumn sh row columns
  = Ok (List.find (fun column => readsAs "config" (cellValue sh row column))
                  columns).
Proof.
  intros Hrow. induction columns as [|c rest IH]; intros Hcols; [reflexivity|].
  apply Forall_cons in Hcols as [Hc Hrest].
  cbn [Op.findConfigColumn List.find].
  rewrite (getCell_inside sh row c Hrow Hc). cbn [mbind Result_bind].
  unfold readsAs at 1.
  destruct (truthy (cellValue sh row c)
            && String.eqb (toLowerCase (toString (cellValue sh row c))) "config");
    [reflexivity | exact (IH Hrest)].
Qed.

(** The anchor search returns the first cell, in row-major order, that
    reads "config". *)
Lemma findConfig_firstCell_rows (sh : Sheet) (rows : list nat) :
  Forall (fun row => (row < rowCount sh)%nat) rows ->
  Op.findConfig sh rows
  = Ok (List.find (fun cell => readsAs "config" (cellValue sh (fst cell) (snd cell)))
                  (flat_map (fun row => map (fun column => (row, column))
                                            (seq 0 (columnCount sh)))
                            rows)).
Proof.
  induction rows as [|row rest IH]; intros Hrows; [reflexivity|].
  apply Forall_cons in Hrows as [Hrow Hrest].
  cbn [Op.findConfig flat_map].
  rewrite (findConfigColumn_find sh row _ Hrow)
    by (apply seq_below; lia).
  cbn [mbind Result_bind].
  rewrite find_app_first, find_map_pair. cbn [fst snd].
  destruct (List.find (fun column => readsAs "config" (cellValue sh row column))
                      (seq 0 (columnCount sh))) as [c|];
    [reflexivity | exact (IH Hrest)].
Qed.

Lemma findConfig_firstCell (sh : Sheet) :
  Op.findConfig sh (seq 0 (rowCount sh)) = Ok (firstCell (readsAs "config") sh).
Proof.
  unfold firstCell, cellsRowMajor.
  apply findConfig_firstCell_rows, seq_below. lia.
Qed.

(** One row of the key scan: a row that reads as a key replaces the
    flag of that key by the value next to it, any other row changes
    nothing. *)
Lemma readConfigRow_inside (sh : Sheet) (column : nat) (cfg : OpConfig) (row : nat) :
  (row < rowCount sh)%nat -> (column + 1 < columnCount sh)%nat ->
  Op.readConfigRow sh column cfg row
  = Ok {| countBolters :=
            if readsAs "count bolters" (cellValue sh row column)
            then cellValue sh row (column + 1) else countBolters cfg;
          countDeaths :=
            if readsAs "count deaths" (cellValue sh row column)
            then cellValue sh row (column + 1) else countDeaths cfg |}.
Proof.
  intros Hrow Hcol. unfold Op.readConfigRow.
  rewrite (getCell_inside sh row column Hrow) by lia.
  replace (Z.of_nat column + 1) with (Z.of_nat (column + 1)) by lia.
  rewrite (getCell_inside sh row (column + 1) Hrow Hcol).
  cbn [mbind Result_bind]. unfold readsAs.
  destruct (truthy (cellValue sh row column)); cbn [negb andb];
    [|destruct cfg; reflexivity].
  destruct (String.eqb (toLowerCase (toString (cellValue sh row column)))
                       "count bolters") eqn:Eb;
    destruct (String.eqb (toLowerCase (toString (cellValue sh row column)))
                         "count deaths") eqn:Ed;
    cbn [mbind Result_bind countBolters countDeaths];
    try (destruct cfg; reflexivity).
Qed.

(** The key scan over a range of rows: for each key the last row that
    reads as the key wins. *)
Lemma readConfigRows_last (sh : Sheet) (column : nat) (cfg : OpConfig)
      (rows : list nat) :
  Forall (fun row => (row < rowCount sh)%nat) rows ->
  (column + 1 < columnCount sh)%nat ->
  foldM (Op.readConfigRow sh column) cfg rows
  = Ok {| countBolters :=
            match List.find (fun r => readsAs "count bolters" (cellValue sh r column))
                            (rev rows) with
            | Some r => cellValue sh r (column + 1)
            | None => countBolters cfg
            end;
          countDeaths :=
            match List.find (fun r => readsAs "count deaths" (cellValue sh r column))
                            (rev rows) with
            | Some r => cellValue sh r (column + 1)
            | None => countDeaths cfg
            end |}.
Proof.
  intros Hrows Hcol. induction rows as [|row rest IH] using rev_ind.
  - destruct cfg; reflexivity.
  - apply Forall_app in Hrows as [Hrest Hrow].
    apply Forall_cons in Hrow as [Hrow _].
    rewrite foldM_app, (IH Hrest). cbn [mbind Result_bind foldM].
    rewrite (readConfigRow_inside sh column _ row Hrow Hcol).
    cbn [mbind Result_bind countBolters countDeaths].
    rewrite rev_app_distr. cbn [rev app List.find].
    destruct (readsAs "count bolters" (cellValue sh row column));
      destruct (readsAs "count deaths" (cellValue sh row column)); reflexivity.
Qed.

Lemma readsAs_trimmed_config (value : JsValue) :
  readsAs "config" value = true -> readsAsTrimmed "config" value = true.
Proof.
  unfold readsAs, readsAsTrimmed. intros H.
  apply andb_true_iff in H as [Ht He]. rewrite Ht. cbn [andb].
  apply String_eqb_true in He. rewrite He. reflexivity.
Qed.

(** C7, as stated, fails: [getOpConfig] does not trim, so a cell that
    reads " Config" is no anchor and the keys below it are not read. *)
Lemma getOpConfig_untrimmed_anchor :
  ~ configResolvedAsSpecified spacedConfigSheet.
Proof.
  unfold configResolvedAsSpecified. vm_compute. discriminate.
Qed.

(** C7, amended.  A sheet without a cell whose lower-cased text is
    "config" (in particular one without a cell whose lower-cased, trimmed
    text is "config") gets the default config.  Otherwise the anchor is
    the first such cell in row-major order; every row below it, down to
    the last row of the sheet, is scanned, and when the column to the
    right of the anchor lies inside the sheet, each flag gets the value
    next to the last row that reads as its key, or keeps its default. *)
Theorem getOpConfig_resolves (sh : Sheet) :
  (firstCell (readsAsTrimmed "config") sh = None ->
   Op.getOpConfig sh = Ok defaultConfig)
  /\ (firstCell (readsAs "config") sh = None ->
      Op.getOpConfig sh = Ok defaultConfig)
  /\ (forall row column,
        firstCell (readsAs "config") sh = Some (row, column) ->
        (column + 1 < columnCount sh)%nat ->
        Op.getOpConfig sh = Ok (configBelow sh row column)).
Proof.
  assert (Hnone : firstCell (readsAs "config") sh = None ->
                  Op.getOpConfig sh = Ok defaultConfig).
  { intros H. unfold Op.getOpConfig. rewrite findConfig_firstCell, H.
    reflexivity. }
  split; [|split; [exact Hnone|]].
  - intros H. apply Hnone. unfold firstCell in *.
    eapply find_none_weaken; [|exact H].
    intros cell. apply readsAs_trimmed_config.
  - intros row column H Hcol. unfold Op.getOpConfig.
    rewrite findConfig_firstCell, H. cbn [mbind Result_bind].
    rewrite readConfigRows_last; [| | exact Hcol].
    { unfold configBelow, flagBelow.
      destruct (List.find _ _); destruct (List.find _ _); reflexivity. }
    apply seq_below.
    unfold firstCell in H. apply find_some in H as [Hin _].
    unfold cellsRowMajor in Hin. apply in_flat_map in Hin as (r & Hr & Hin).
    apply in_map_iff in Hin as (c & Heq & _). injection Heq as <- _.
    apply in_seq in Hr. lia.
Qed.

Lemma getOpConfig_resolves_witness :
  Op.getOpConfig configSheet
  = Ok {| countBolters := VBool false; countDeaths := VBool false |}
  /\ Op.getOpConfig oneOpSheet = Ok defaultConfig.
Proof.
  split.
  - apply (proj2 (proj2 (getOpConfig_resolves configSheet)) 0%nat 1%nat);
      [reflexivity | simpl; lia].
  - apply (proj1 (getOpConfig_resolves oneOpSheet)). reflexivity.
Defined.

(** ** The streak engine *)

Lemma string_app_assoc (a b c : string) : (a ++ b) ++ c = a ++ (b ++ c).
Proof.
  induction a as [|x a IH]; [reflexivity|].
  change (String x ((a ++ b) ++ c) = String x (a ++ (b ++ c))).
  now rewrite IH.
Qed.

Lemma string_app_nil_r (a : string) : a ++ "" = a.
Proof.
  induction a as [|x a IH]; [reflexivity|].
  change (String x (a ++ "") = String x a). now rewrite IH.
Qed.

Section OnePilot.

Variable memberName : JsValue.

Lemma awardWithoutDeath_ok (self : GoogleSheetParser.t) (op : Op.t)
      (member : OpMember) (m : OverallMember) :
  GoogleSheetParser.members self !! toString memberName = Some m ->
  exists self',
    GoogleSheetParser.awardWithoutDeath self memberName op member = Ok self'
    /\ stepsTo memberName self self'
         (mkOverallMember (history m) (fiveOpsWithoutDeath m)
                          (fiveOpsWithoutBolter m + 1))
         (awardLine NoDeathStreak op member).
Proof.
  intros Hm. unfold GoogleSheetParser.awardWithoutDeath,
    GoogleSheetParser.memberOf. cbn. rewrite Hm. cbn.
  rewrite lookup_insert_eq. cbn. eexists. split; [reflexivity|].
  unfold stepsTo. cbn. rewrite lookup_insert_eq. repeat split.
Qed.

Lemma awardWithoutBolter_ok (self : GoogleSheetParser.t) (op : Op.t)
      (member : OpMember) (m : OverallMember) :
  GoogleSheetParser.members self !! toString memberName = Some m ->
  exists self',
    GoogleSheetParser.awardWithoutBolter self memberName op member = Ok self'
    /\ stepsTo memberName self self'
         (mkOverallMember (history m) (fiveOpsWithoutDeath m + 1)
                          (fiveOpsWithoutBolter m))
         (awardLine NoBolterStreak op member).
Proof.
  intros Hm. unfold GoogleSheetParser.awardWithoutBolter,
    GoogleSheetParser.memberOf. cbn. rewrite Hm. cbn.
  rewrite lookup_insert_eq. cbn. eexists. split; [reflexivity|].
  unfold stepsTo. cbn. rewrite lookup_insert_eq. repeat split.
Qed.

Lemma log_ok (self : GoogleSheetParser.t) (message : string)
      (m : OverallMember) :
  GoogleSheetParser.members self !! toString memberName = Some m ->
  exists self',
    GoogleSheetParser.log self memberName message = Ok self'
    /\ stepsTo memberName self self'
         (mkOverallMember (history m ++ message ++ nl)
                          (fiveOpsWithoutDeath m) (fiveOpsWithoutBolter m))
         "".
Proof.
  intros Hm. unfold GoogleSheetParser.log, GoogleSheetParser.memberOf.
  rewrite Hm. cbn. eexists. split; [reflexivity|].
  unfold stepsTo. cbn. rewrite lookup_insert_eq, string_app_nil_r.
  repeat split.
Qed.

Lemma stepsTo_trans (s1 s2 s3 : GoogleSheetParser.t) (m2 m3 : OverallMember)
      (a b : string) :
  stepsTo memberName s1 s2 m2 a -> stepsTo memberName s2 s3 m3 b -> stepsTo memberName s1 s3 m3 (a ++ b).
Proof.
  intros (_ & Hs & Hh) (Hm & Hs' & Hh'). repeat split; [exact Hm | congruence |].
  rewrite Hh', Hh. apply string_app_assoc.
Qed.

Lemma stepsTo_refl (self : GoogleSheetParser.t) (m : OverallMember) :
  GoogleSheetParser.members self !! toString memberName = Some m ->
  stepsTo memberName self self m "".
Proof.
  intros Hm. repeat split; [exact Hm|]. now rewrite string_app_nil_r.
Qed.

(** One op of the replay, for a pilot who has a record and whose
    counters are below the threshold: the step does not throw, the
    counters follow the classification of the op and fall back to 0
    when they reach 5, and each counter that reaches 5 adds one to the
    award field of its kind. *)
Lemma parseMemberOp_step (self : GoogleSheetParser.t) (c b : Z) (op : Op.t)
      (m : OverallMember) :
  GoogleSheetParser.members self !! toString memberName = Some m ->
  c <= 4 -> b <= 4 ->
  exists self' m',
    GoogleSheetParser.parseMemberOp memberName (self, c, b) op
    = Ok (self', fst (nextCounters memberName (c, b) op),
          snd (nextCounters memberName (c, b) op))
    /\ stepsTo memberName self self' m' (opHistory memberName (c, b) op)
    /\ awardCounter NoDeathStreak m'
       = awardCounter NoDeathStreak m
         + (if 5 <=? bump (changeOf NoDeathStreak memberName op) c then 1 else 0)
    /\ awardCounter NoBolterStreak m'
       = awardCounter NoBolterStreak m
         + (if 5 <=? bump (changeOf NoBolterStreak memberName op) b then 1 else 0).
Proof.
  intros Hm Hc Hb.
  unfold GoogleSheetParser.parseMemberOp, nextCounters, opHistory, changeOf.
  destruct (Op.getMember op memberName) as [member|]; cbn [fst snd bump].
  2:{ exists self, m.
      replace (5 <=? c) with false by (symmetry; apply Z.leb_gt; lia).
      replace (5 <=? b) with false by (symmetry; apply Z.leb_gt; lia).
      split; [reflexivity|]. split; [now apply stepsTo_refl|].
      split; lia. }
  set (dres := parseEvent (combatDeaths member) _).
  set (bres := parseEvent (bolters member) _).
  assert (Hdeath :
    forall c1, c1 = bump dres c ->
    exists s1 m1,
      (if 5 <=? c1
       then self' ← GoogleSheetParser.awardWithoutDeath self memberName op member;
            Ok (self', 0, "[FIVE OPS WITHOUT DEATH] ")
       else Ok (self, c1, ""))
      = Ok (s1, (if 5 <=? c1 then 0 else c1),
            (if 5 <=? c1 then "[FIVE OPS WITHOUT DEATH] " else ""))
      /\ stepsTo memberName self s1 m1
           (if 5 <=? c1 then awardLine NoDeathStreak op member else "")
      /\ fiveOpsWithoutBolter m1
         = fiveOpsWithoutBolter m + (if 5 <=? c1 then 1 else 0)
      /\ fiveOpsWithoutDeath m1 = fiveOpsWithoutDeath m).
  { intros c1 _. destruct (5 <=? c1).
    - destruct (awardWithoutDeath_ok self op member m Hm) as (s1 & E & Hs).
      rewrite E. cbn. exists s1. eexists. split; [reflexivity|].
      split; [exact Hs|]. split; reflexivity.
    - exists self, m. split; [reflexivity|].
      split; [now apply stepsTo_refl|]. split; [lia | reflexivity]. }
  assert (Hbolter :
    forall (s1 : GoogleSheetParser.t) (m1 : OverallMember) (a1 : string) b1,
    GoogleSheetParser.members s1 !! toString memberName = Some m1 ->
    exists s2 m2 a2,
      (if 5 <=? b1
       then self' ← GoogleSheetParser.awardWithoutBolter s1 memberName op member;
            Ok (self', 0, a1 ++ "[FIVE OPS WITHOUT BOLTER]")
       else Ok (s1, b1, a1))
      = Ok (s2, (if 5 <=? b1 then 0 else b1), a2)
      /\ stepsTo memberName s1 s2 m2
           (if 5 <=? b1 then awardLine NoBolterStreak op member else "")
      /\ fiveOpsWithoutDeath m2
         = fiveOpsWithoutDeath m1 + (if 5 <=? b1 then 1 else 0)
      /\ fiveOpsWithoutBolter m2 = fiveOpsWithoutBolter m1).
  { intros s1 m1 a1 b1 Hm1. destruct (5 <=? b1).
    - destruct (awardWithoutBolter_ok s1 op member m1 Hm1) as (s2 & E & Hs).
      rewrite E. cbn. exists s2. do 2 eexists. split; [reflexivity|].
      split; [exact Hs|]. split; reflexivity.
    - exists s1, m1, a1. split; [reflexivity|].
      split; [now apply stepsTo_refl|]. split; [lia | reflexivity]. }
  assert (Hshape :
    forall (c1 b1 : Z) (dl bl : string),
    c1 = bump dres c -> b1 = bump bres b ->
    exists self' m',
      ('(self1, opsWithoutDeath2, achievements1) ←
         (if 5 <=? c1
          then self' ← GoogleSheetParser.awardWithoutDeath self memberName op member;
               Ok (self', 0, "[FIVE OPS WITHOUT DEATH] ")
          else Ok (self, c1, ""));
       '(self2, opsWithoutBolter2, achievements2) ←
         (if 5 <=? b1
          then self' ← GoogleSheetParser.awardWithoutBolter self1 memberName op member;
               Ok (self', 0, achievements1 ++ "[FIVE OPS WITHOUT BOLTER]")
          else Ok (self1, b1, achievements1));
       self3 ← GoogleSheetParser.log self2 memberName
                 (Op.name op ++ ": " ++ dl ++ " " ++ bl
                    ++ " Wire: " ++ GoogleSheetParser.orNA (wire member)
                    ++ " Remarks: " ++ GoogleSheetParser.orNA (remarks member)
                    ++ " " ++ achievements2);
       Ok (self3, opsWithoutDeath2, opsWithoutBolter2))
      = Ok (self', (if 5 <=? c1 then 0 else c1), (if 5 <=? b1 then 0 else b1))
      /\ stepsTo memberName self self' m'
           ((if 5 <=? c1 then awardLine NoDeathStreak op member else "")
              ++ (if 5 <=? b1 then awardLine NoBolterStreak op member else ""))
      /\ fiveOpsWithoutBolter m'
         = fiveOpsWithoutBolter m + (if 5 <=? c1 then 1 else 0)
      /\ fiveOpsWithoutDeath m'
         = fiveOpsWithoutDeath m + (if 5 <=? b1 then 1 else 0)).
  { intros c1 b1 dl bl Hc1 Hb1.
    destruct (Hdeath c1 Hc1) as (s1 & m1 & E1 & Hs1 & Hwb1 & Hwd1).
    rewrite E1. cbn [mbind Result_bind].
    destruct (Hbolter s1 m1 (if 5 <=? c1 then "[FIVE OPS WITHOUT DEATH] " else "")
                      b1 (proj1 Hs1))
      as (s2 & m2 & a2 & E2 & Hs2 & Hwd2 & Hwb2).
    rewrite E2. cbn [mbind Result_bind].
    destruct (log_ok s2 (Op.name op ++ ": " ++ dl ++ " " ++ bl
                    ++ " Wire: " ++ GoogleSheetParser.orNA (wire member)
                    ++ " Remarks: " ++ GoogleSheetParser.orNA (remarks member)
                    ++ " " ++ a2) m2 (proj1 Hs2))
      as (s3 & E3 & Hs3).
    rewrite E3. cbn [mbind Result_bind].
    exists s3. eexists. split; [reflexivity|].
    split.
    - pose proof (stepsTo_trans _ _ _ _ _ _ _
                    (stepsTo_trans _ _ _ _ _ _ _ Hs1 Hs2) Hs3) as H.
      rewrite string_app_nil_r in H. exact H.
    - cbn. split; congruence. }
  unfold awardCounter.
  destruct dres; destruct bres; cbn [bump]; apply Hshape; reflexivity.
Qed.

End OnePilot.

Lemma nextCounters_bounds (memberName : JsValue) (c b : Z) (op : Op.t) :
  0 <= c <= 4 -> 0 <= b <= 4 ->
  0 <= fst (nextCounters memberName (c, b) op) <= 4
  /\ 0 <= snd (nextCounters memberName (c, b) op) <= 4.
Proof.
  intros Hc Hb. unfold nextCounters. cbn [fst snd].
  split.
  - destruct (changeOf NoDeathStreak memberName op); cbn [bump];
      match goal with |- context [5 <=? ?x] =>
        destruct (Z.leb_spec 5 x) end; lia.
  - destruct (changeOf NoBolterStreak memberName op); cbn [bump];
      match goal with |- context [5 <=? ?x] =>
        destruct (Z.leb_spec 5 x) end; lia.
Qed.

(** The whole replay of a pilot who has a record: it does not throw,
    the counters end between 0 and 4, and [achievementHistory] grows by
    [memberHistory]. *)
Lemma replay_ok (memberName : JsValue) (ops : list Op.t) :
  forall (self : GoogleSheetParser.t) (c b : Z) (m : OverallMember),
    GoogleSheetParser.members self !! toString memberName = Some m ->
    0 <= c <= 4 -> 0 <= b <= 4 ->
    exists self' m' c' b',
      foldM (GoogleSheetParser.parseMemberOp memberName) (self, c, b) ops
      = Ok (self', c', b')
      /\ stepsTo memberName self self' m' (memberHistory memberName (c, b) ops)
      /\ 0 <= c' <= 4 /\ 0 <= b' <= 4.
Proof.
  induction ops as [|op rest IH]; intros self c b m Hm Hc Hb.
  - exists self, m, c, b. split; [reflexivity|].
    split; [now apply stepsTo_refl|]. split; assumption.
  - destruct (parseMemberOp_step memberName self c b op m Hm)
      as (s1 & m1 & E & Hs & _); [lia | lia |].
    destruct (nextCounters_bounds memberName c b op Hc Hb) as [Hc1 Hb1].
    destruct (IH s1 _ _ m1 (proj1 Hs) Hc1 Hb1)
      as (s2 & m2 & c2 & b2 & E2 & Hs2 & Hc2 & Hb2).
    exists s2, m2, c2, b2. cbn [foldM]. rewrite E. cbn [mbind Result_bind].
    split; [|split; [|split; assumption]].
    + exact E2.
    + cbn [memberHistory]. eapply stepsTo_trans; [exact Hs|].
      rewrite (surjective_pairing (nextCounters memberName (c, b) op)).
      exact Hs2.
Qed.

(** C9.  [parseMember] starts both rolling counters at 0; after each op
    of the replay (that is, after every prefix of the ops) the replay
    has not thrown and both counters lie between 0 and 4. *)
Theorem counters_stay_below_threshold (self : GoogleSheetParser.t)
        (memberName : JsValue) (ops : list Op.t) (n : nat) :
  exists self' opsWithoutDeath opsWithoutBolter,
    foldM (GoogleSheetParser.parseMemberOp memberName)
          (GoogleSheetParser.putMember self memberName (mkOverallMember "" 0 0),
           0, 0)
          (firstn n ops)
    = Ok (self', opsWithoutDeath, opsWithoutBolter)
    /\ 0 <= opsWithoutDeath <= 4
    /\ 0 <= opsWithoutBolter <= 4.
Proof.
  destruct (replay_ok memberName (firstn n ops)
              (GoogleSheetParser.putMember self memberName (mkOverallMember "" 0 0))
              0 0 (mkOverallMember "" 0 0))
    as (self' & m' & c' & b' & E & _ & Hc & Hb); [| lia | lia |].
  - cbn. apply lookup_insert_eq.
  - exists self', c', b'. auto.
Qed.

(** ** Five passes, one award *)

Lemma counterOf_next (kind : AwardKind) (memberName : JsValue)
      (self self' : GoogleSheetParser.t) (c b : Z) (op : Op.t) :
  counterOf kind (self', fst (nextCounters memberName (c, b) op),
                  snd (nextCounters memberName (c, b) op))
  = let d := bump (changeOf kind memberName op) (counterOf kind (self, c, b)) in
    if 5 <=? d then 0 else d.
Proof. destruct kind; reflexivity. Qed.

(** One op, seen from one kind of award. *)
Lemma parseMemberOp_kind (kind : AwardKind) (memberName : JsValue)
      (self : GoogleSheetParser.t) (c b : Z) (op : Op.t) (m : OverallMember) :
  GoogleSheetParser.members self !! toString memberName = Some m ->
  0 <= c <= 4 -> 0 <= b <= 4 ->
  exists self' c' b' m',
    GoogleSheetParser.parseMemberOp memberName (self, c, b) op = Ok (self', c', b')
    /\ GoogleSheetParser.members self' !! toString memberName = Some m'
    /\ 0 <= c' <= 4 /\ 0 <= b' <= 4
    /\ counterOf kind (self', c', b')
       = (let d := bump (changeOf kind memberName op) (counterOf kind (self, c, b)) in
          if 5 <=? d then 0 else d)
    /\ awardCounter kind m'
       = awardCounter kind m
         + (if 5 <=? bump (changeOf kind memberName op) (counterOf kind (self, c, b))
            then 1 else 0).
Proof.
  intros Hm Hc Hb.
  destruct (parseMemberOp_step memberName self c b op m Hm)
    as (s1 & m1 & E & Hs & Hd & Hbo); [lia | lia |].
  destruct (nextCounters_bounds memberName c b op Hc Hb) as [Hc1 Hb1].
  exists s1, (fst (nextCounters memberName (c, b) op)),
    (snd (nextCounters memberName (c, b) op)), m1.
  split; [exact E|]. split; [exact (proj1 Hs)|].
  split; [exact Hc1|]. split; [exact Hb1|].
  split; [apply counterOf_next|].
  destruct kind; assumption.
Qed.

Lemma counterOf_bounds (kind : AwardKind) (self : GoogleSheetParser.t) (c b : Z) :
  0 <= c <= 4 -> 0 <= b <= 4 -> 0 <= counterOf kind (self, c, b) <= 4.
Proof. destruct kind; cbn; auto. Qed.

Lemma countChange_cons (c x : Change) (l : list Change) :
  countChange c (x :: l)
  = ((if Change_eqb x c then 1 else 0) + countChange c l)%nat.
Proof.
  unfold countChange. cbn [List.filter]. destruct (Change_eqb x c); reflexivity.
Qed.

(** A stretch of ops without a [Failed] classification and with [p]
    [Passed] ones, entered with the counter at [c0]: the counter ends at
    [(c0 + p) mod 5] and the stretch hands out [(c0 + p) / 5] awards. *)
Lemma passes_accumulate (kind : AwardKind) (memberName : JsValue)
      (ops : list Op.t) :
  forall (self : GoogleSheetParser.t) (c b : Z) (m : OverallMember),
    GoogleSheetParser.members self !! toString memberName = Some m ->
    0 <= c <= 4 -> 0 <= b <= 4 ->
    countChange Failed (map (changeOf kind memberName) ops) = 0%nat ->
    exists self' c' b' m',
      foldM (GoogleSheetParser.parseMemberOp memberName) (self, c, b) ops
      = Ok (self', c', b')
      /\ GoogleSheetParser.members self' !! toString memberName = Some m'
      /\ (let total :=
            counterOf kind (self, c, b)
            + Z.of_nat (countChange Passed (map (changeOf kind memberName) ops)) in
          counterOf kind (self', c', b') = total mod 5
          /\ awardCounter kind m' = awardCounter kind m + total / 5).
Proof.
  induction ops as [|op rest IH]; intros self c b m Hm Hc Hb Hfail.
  - exists self, c, b, m. split; [reflexivity|]. split; [exact Hm|].
    pose proof (counterOf_bounds kind self c b Hc Hb) as Hk.
    cbn [map]. change (countChange Passed []) with 0%nat.
    cbv zeta. split; Z.div_mod_to_equations; lia.
  - destruct (parseMemberOp_kind kind memberName self c b op m Hm Hc Hb)
      as (s1 & c1 & b1 & m1 & E & Hm1 & Hc1 & Hb1 & Hk1 & Ha1).
    pose proof (counterOf_bounds kind self c b Hc Hb) as Hk.
    cbn [foldM]. rewrite E. cbn [mbind Result_bind].
    cbn [map] in Hfail |- *.
    rewrite countChange_cons in Hfail |- *.
    cbv zeta in Hk1 |- *.
    set (p := countChange Passed (map (changeOf kind memberName) rest)) in *.
    destruct (changeOf kind memberName op) eqn:Ech;
      cbn [bump Change_eqb] in Hk1, Ha1, Hfail |- *;
      try discriminate Hfail.
    + (* NoChange *)
      replace (5 <=? counterOf kind (self, c, b)) with false in Hk1, Ha1
        by (symmetry; apply Z.leb_gt; lia).
      destruct (IH s1 c1 b1 m1 Hm1 Hc1 Hb1 Hfail) as
        (s2 & c2 & b2 & m2 & E2 & Hm2 & Hk2 & Ha2).
      exists s2, c2, b2, m2. split; [exact E2|]. split; [exact Hm2|].
      fold p in Hk2, Ha2. rewrite Hk1 in Hk2, Ha2.
      replace (counterOf kind (self, c, b) + Z.of_nat (0 + p))
        with (counterOf kind (self, c, b) + Z.of_nat p) by lia.
      split; [exact Hk2 | lia].
    + (* Passed *)
      destruct (IH s1 c1 b1 m1 Hm1 Hc1 Hb1 Hfail) as
        (s2 & c2 & b2 & m2 & E2 & Hm2 & Hk2 & Ha2).
      exists s2, c2, b2, m2. split; [exact E2|]. split; [exact Hm2|].
      fold p in Hk2, Ha2. rewrite Hk1 in Hk2, Ha2.
      rewrite Hk2, Ha2, Ha1.
      destruct (5 <=? counterOf kind (self, c, b) + 1) eqn:E5;
        [apply Z.leb_le in E5 | apply Z.leb_gt in E5];
        split; Z.div_mod_to_equations; lia.
Qed.

(** ** The events a replay emits *)

Lemma historyAfter_app (l1 l2 : list AchievementEvent) (h : string) :
  historyAfter (l1 ++ l2) h = historyAfter l2 (historyAfter l1 h).
Proof. apply fold_left_app. Qed.

Lemma logAfter_app (l1 l2 : list AchievementEvent) (L : gmap string string) :
  logAfter (l1 ++ l2) L = logAfter l2 (logAfter l1 L).
Proof. apply fold_left_app. Qed.

(** The award for five ops without death emits one event: a line of
    [achievementHistory], a line in the entry of the op in
    [opAchievementLog], and one more in [fiveOpsWithoutBolter], which is
    the count the log line quotes. *)
Lemma awardWithoutDeath_trace (memberName : JsValue) (self : GoogleSheetParser.t)
      (op : Op.t) (member : OpMember) (m : OverallMember) :
  GoogleSheetParser.members self !! toString memberName = Some m ->
  exists self',
    GoogleSheetParser.awardWithoutDeath self memberName op member = Ok self'
    /\ GoogleSheetParser.members self' !! toString memberName
       = Some (mkOverallMember (history m) (fiveOpsWithoutDeath m)
                               (fiveOpsWithoutBolter m + 1))
    /\ GoogleSheetParser.achievementHistory self'
       = historyAfter
           [mkAchievementEvent (Op.name op) (toString (displayName member))
                               NoDeathStreak (fiveOpsWithoutBolter m + 1)]
           (GoogleSheetParser.achievementHistory self)
    /\ GoogleSheetParser.opAchievementLog self'
       = logAfter
           [mkAchievementEvent (Op.name op) (toString (displayName member))
                               NoDeathStreak (fiveOpsWithoutBolter m + 1)]
           (GoogleSheetParser.opAchievementLog self).
Proof.
  intros Hm. unfold GoogleSheetParser.awardWithoutDeath,
    GoogleSheetParser.memberOf. cbn. rewrite Hm. cbn.
  rewrite lookup_insert_eq. cbn. eexists. split; [reflexivity|].
  cbn. rewrite lookup_insert_eq. repeat split.
Qed.

Lemma awardWithoutBolter_trace (memberName : JsValue) (self : GoogleSheetParser.t)
      (op : Op.t) (member : OpMember) (m : OverallMember) :
  GoogleSheetParser.members self !! toString memberName = Some m ->
  exists self',
    GoogleSheetParser.awardWithoutBolter self memberName op member = Ok self'
    /\ GoogleSheetParser.members self' !! toString memberName
       = Some (mkOverallMember (history m) (fiveOpsWithoutDeath m + 1)
                               (fiveOpsWithoutBolter m))
    /\ GoogleSheetParser.achievementHistory self'
       = historyAfter
           [mkAchievementEvent (Op.name op) (toString (displayName member))
                               NoBolterStreak (fiveOpsWithoutDeath m + 1)]
           (GoogleSheetParser.achievementHistory self)
    /\ GoogleSheetParser.opAchievementLog self'
       = logAfter
           [mkAchievementEvent (Op.name op) (toString (displayName member))
                               NoBolterStreak (fiveOpsWithoutDeath m + 1)]
           (GoogleSheetParser.opAchievementLog self).
Proof.
  intros Hm. unfold GoogleSheetParser.awardWithoutBolter,
    GoogleSheetParser.memberOf. cbn. rewrite Hm. cbn.
  rewrite lookup_insert_eq. cbn. eexists. split; [reflexivity|].
  cbn. rewrite lookup_insert_eq. repeat split.
Qed.

(** [log] writes to the record of the pilot alone. *)
Lemma log_trace (memberName : JsValue) (self : GoogleSheetParser.t)
      (message : string) (m : OverallMember) :
  GoogleSheetParser.members self !! toString memberName = Some m ->
  exists self',
    GoogleSheetParser.log self memberName message = Ok self'
    /\ GoogleSheetParser.achievementHistory self'
       = GoogleSheetParser.achievementHistory self
    /\ GoogleSheetParser.opAchievementLog self'
       = GoogleSheetParser.opAchievementLog self.
Proof.
  intros Hm. unfold GoogleSheetParser.log, GoogleSheetParser.memberOf.
  rewrite Hm. cbn. eexists. split; [reflexivity|]. split; reflexivity.
Qed.

(** One op of the replay writes to [achievementHistory] and to
    [opAchievementLog] what the events of the op say, and nothing
    else. *)
Lemma parseMemberOp_trace (memberName : JsValue) (self : GoogleSheetParser.t)
      (c b : Z) (op : Op.t) (m : OverallMember) :
  GoogleSheetParser.members self !! toString memberName = Some m ->
  c <= 4 -> b <= 4 ->
  exists self',
    GoogleSheetParser.parseMemberOp memberName (self, c, b) op
    = Ok (self', fst (nextCounters memberName (c, b) op),
          snd (nextCounters memberName (c, b) op))
    /\ GoogleSheetParser.achievementHistory self'
       = historyAfter (opEvents memberName (c, b) (talliesOf m) op)
                      (GoogleSheetParser.achievementHistory self)
    /\ GoogleSheetParser.opAchievementLog self'
       = logAfter (opEvents memberName (c, b) (talliesOf m) op)
                  (GoogleSheetParser.opAchievementLog self).
Proof.
  intros Hm Hc Hb.
  unfold GoogleSheetParser.parseMemberOp, nextCounters, opEvents, changeOf, talliesOf.
  destruct (Op.getMember op memberName) as [member|]; cbn [fst snd bump awardCounter].
  2:{ exists self.
      replace (5 <=? c) with false by (symmetry; apply Z.leb_gt; lia).
      replace (5 <=? b) with false by (symmetry; apply Z.leb_gt; lia).
      repeat split. }
  set (dres := parseEvent (combatDeaths member) _).
  set (bres := parseEvent (bolters member) _).
  set (dev := mkAchievementEvent (Op.name op) (toString (displayName member))
                                 NoDeathStreak (fiveOpsWithoutBolter m + 1)).
  set (bev := mkAchievementEvent (Op.name op) (toString (displayName member))
                                 NoBolterStreak (fiveOpsWithoutDeath m + 1)).
  assert (Hshape :
    forall (c1 b1 : Z) (dl bl : string),
    exists self',
      ('(self1, opsWithoutDeath2, achievements1) ←
         (if 5 <=? c1
          then self' ← GoogleSheetParser.awardWithoutDeath self memberName op member;
               Ok (self', 0, "[FIVE OPS WITHOUT DEATH] ")
          else Ok (self, c1, ""));
       '(self2, opsWithoutBolter2, achievements2) ←
         (if 5 <=? b1
          then self' ← GoogleSheetParser.awardWithoutBolter self1 memberName op member;
               Ok (self', 0, achievements1 ++ "[FIVE OPS WITHOUT BOLTER]")
          else Ok (self1, b1, achievements1));
       self3 ← GoogleSheetParser.log self2 memberName
                 (Op.name op ++ ": " ++ dl ++ " " ++ bl
                    ++ " Wire: " ++ GoogleSheetParser.orNA (wire member)
                    ++ " Remarks: " ++ GoogleSheetParser.orNA (remarks member)
                    ++ " " ++ achievements2);
       Ok (self3, opsWithoutDeath2, opsWithoutBolter2))
      = Ok (self', (if 5 <=? c1 then 0 else c1), (if 5 <=? b1 then 0 else b1))
      /\ GoogleSheetParser.achievementHistory self'
         = historyAfter ((if 5 <=? c1 then [dev] else [])
                           ++ (if 5 <=? b1 then [bev] else []))%list
                        (GoogleSheetParser.achievementHistory self)
      /\ GoogleSheetParser.opAchievementLog self'
         = logAfter ((if 5 <=? c1 then [dev] else [])
                       ++ (if 5 <=? b1 then [bev] else []))%list
                    (GoogleSheetParser.opAchievementLog self)).
  { intros c1 b1 dl bl.
    assert (Hdeath :
      exists s1 m1 a1,
        (if 5 <=? c1
         then self' ← GoogleSheetParser.awardWithoutDeath self memberName op member;
              Ok (self', 0, "[FIVE OPS WITHOUT DEATH] ")
         else Ok (self, c1, ""))
        = Ok (s1, (if 5 <=? c1 then 0 else c1), a1)
        /\ GoogleSheetParser.members s1 !! toString memberName = Some m1
        /\ fiveOpsWithoutDeath m1 = fiveOpsWithoutDeath m
        /\ GoogleSheetParser.achievementHistory s1
           = historyAfter (if 5 <=? c1 then [dev] else [])
                          (GoogleSheetParser.achievementHistory self)
        /\ GoogleSheetParser.opAchievementLog s1
           = logAfter (if 5 <=? c1 then [dev] else [])
                      (GoogleSheetParser.opAchievementLog self)).
    { destruct (5 <=? c1).
      - destruct (awardWithoutDeath_trace memberName self op member m Hm)
          as (s1 & E & Hm1 & Hh & Hl).
        rewrite E. cbn. exists s1. do 2 eexists. split; [reflexivity|].
        split; [exact Hm1|]. split; [reflexivity|]. split; assumption.
      - exists self, m. eexists. split; [reflexivity|].
        split; [exact Hm|]. repeat split. }
    destruct Hdeath as (s1 & m1 & a1 & E1 & Hm1 & Hwd1 & Hh1 & Hl1).
    rewrite E1. cbn [mbind Result_bind].
    assert (Hbolter :
      exists s2 m2 a2,
        (if 5 <=? b1
         then self' ← GoogleSheetParser.awardWithoutBolter s1 memberName op member;
              Ok (self', 0, a1 ++ "[FIVE OPS WITHOUT BOLTER]")
         else Ok (s1, b1, a1))
        = Ok (s2, (if 5 <=? b1 then 0 else b1), a2)
        /\ GoogleSheetParser.members s2 !! toString memberName = Some m2
        /\ GoogleSheetParser.achievementHistory s2
           = historyAfter (if 5 <=? b1 then [bev] else [])
                          (GoogleSheetParser.achievementHistory s1)
        /\ GoogleSheetParser.opAchievementLog s2
           = logAfter (if 5 <=? b1 then [bev] else [])
                      (GoogleSheetParser.opAchievementLog s1)).
    { destruct (5 <=? b1).
      - destruct (awardWithoutBolter_trace memberName s1 op member m1 Hm1)
          as (s2 & E & Hm2 & Hh & Hl).
        rewrite E. cbn. exists s2. do 2 eexists. split; [reflexivity|].
        split; [exact Hm2|]. unfold bev. rewrite <- Hwd1. split; assumption.
      - exists s1, m1. eexists. split; [reflexivity|].
        split; [exact Hm1|]. repeat split. }
    destruct Hbolter as (s2 & m2 & a2 & E2 & Hm2 & Hh2 & Hl2).
    rewrite E2. cbn [mbind Result_bind].
    destruct (log_trace memberName s2
                (Op.name op ++ ": " ++ dl ++ " " ++ bl
                    ++ " Wire: " ++ GoogleSheetParser.orNA (wire member)
                    ++ " Remarks: " ++ GoogleSheetParser.orNA (remarks member)
                    ++ " " ++ a2) m2 Hm2)
      as (s3 & E3 & Hh3 & Hl3).
    rewrite E3. cbn [mbind Result_bind].
    exists s3. split; [reflexivity|].
    rewrite historyAfter_app, logAfter_app. split; congruence. }
  destruct dres; destruct bres; cbn [bump]; apply Hshape.
Qed.

(** The whole replay of a pilot who has a record writes to
    [achievementHistory] and to [opAchievementLog] what its events say,
    in their order. *)
Lemma replay_trace (memberName : JsValue) (ops : list Op.t) :
  forall (self : GoogleSheetParser.t) (c b : Z) (m : OverallMember),
    GoogleSheetParser.members self !! toString memberName = Some m ->
    0 <= c <= 4 -> 0 <= b <= 4 ->
    exists self' c' b',
      foldM (GoogleSheetParser.parseMemberOp memberName) (self, c, b) ops
      = Ok (self', c', b')
      /\ GoogleSheetParser.achievementHistory self'
         = historyAfter (replayEvents memberName (c, b) (talliesOf m) ops)
                        (GoogleSheetParser.achievementHistory self)
      /\ GoogleSheetParser.opAchievementLog self'
         = logAfter (replayEvents memberName (c, b) (talliesOf m) ops)
                    (GoogleSheetParser.opAchievementLog self).
Proof.
  induction ops as [|op rest IH]; intros self c b m Hm Hc Hb.
  - exists self, c, b. repeat split.
  - destruct (parseMemberOp_step memberName self c b op m Hm)
      as (s1 & m1 & E & Hs & Hd & Hbo); [lia | lia |].
    destruct (parseMemberOp_trace memberName self c b op m Hm)
      as (s1' & E' & Hh & Hl); [lia | lia |].
    rewrite E in E'. injection E' as <-.
    destruct (nextCounters_bounds memberName c b op Hc Hb) as [Hc1 Hb1].
    destruct (IH s1 _ _ m1 (proj1 Hs) Hc1 Hb1) as (s2 & c2 & b2 & E2 & Hh2 & Hl2).
    exists s2, c2, b2. cbn [foldM]. rewrite E. cbn [mbind Result_bind].
    split; [exact E2|].
    assert (Ht : talliesOf m1 = nextTallies memberName (c, b) (talliesOf m) op).
    { unfold talliesOf, nextTallies. cbn [fst snd]. now rewrite Hd, Hbo. }
    rewrite Ht, <- surjective_pairing in Hh2, Hl2.
    cbn [replayEvents]. rewrite historyAfter_app, logAfter_app.
    split; congruence.
Qed.

Lemma ofKind_counterOf (kind : AwardKind) (self : GoogleSheetParser.t) (c b : Z) :
  ofKind kind (c, b) = counterOf kind (self, c, b).
Proof. destruct kind; reflexivity. Qed.

Lemma eventsOfKind_app (kind : AwardKind) (l1 l2 : list AchievementEvent) :
  eventsOfKind kind (l1 ++ l2) = (eventsOfKind kind l1 ++ eventsOfKind kind l2)%list.
Proof. apply List.filter_app. Qed.

(** One op, seen from one kind of award: an event of that kind is
    emitted exactly when the counter of the kind reaches 5, and then it
    quotes one more than the award field held. *)
Lemma opEvents_kind (kind : AwardKind) (memberName : JsValue)
      (counters tallies : Z * Z) (op : Op.t) :
  fst counters <= 4 -> snd counters <= 4 ->
  let d := bump (changeOf kind memberName op) (ofKind kind counters) in
  ofKind kind (nextCounters memberName counters op) = (if 5 <=? d then 0 else d)
  /\ ofKind kind (nextTallies memberName counters tallies op)
     = ofKind kind tallies + (if 5 <=? d then 1 else 0)
  /\ (5 <= d ->
      exists e,
        eventsOfKind kind (opEvents memberName counters tallies op) = [e]
        /\ eventKind e = kind
        /\ blockName e = Op.name op
        /\ awardOccurrenceCount e = ofKind kind tallies + 1)
  /\ (d < 5 -> eventsOfKind kind (opEvents memberName counters tallies op) = []).
Proof.
  intros Hc Hb d. subst d.
  split; [destruct kind; reflexivity|].
  split; [destruct kind; reflexivity|].
  unfold opEvents, changeOf.
  destruct (Op.getMember op memberName) as [member|].
  2:{ cbn [bump]. split; [|reflexivity]. destruct kind; cbn [ofKind]; lia. }
  rewrite eventsOfKind_app.
  destruct kind; cbn [ofKind].
  - destruct (5 <=? bump (parseEvent (bolters member) _) (snd counters));
      (split; intros H5;
       [apply Z.leb_le in H5 | apply Z.leb_gt in H5]; rewrite H5;
       [eexists; repeat split | reflexivity]).
  - destruct (5 <=? bump (parseEvent (combatDeaths member) _) (fst counters));
      (split; intros H5;
       [apply Z.leb_le in H5 | apply Z.leb_gt in H5]; rewrite H5;
       [eexists; repeat split | reflexivity]).
Qed.

(** A stretch without a [Failed] classification that does not bring
    the counter to 5 emits no event of the kind. *)
Lemma quiet_stretch (kind : AwardKind) (memberName : JsValue) (ops : list Op.t) :
  forall counters tallies : Z * Z,
    0 <= fst counters <= 4 -> 0 <= snd counters <= 4 ->
    countChange Failed (map (changeOf kind memberName) ops) = 0%nat ->
    ofKind kind counters
    + Z.of_nat (countChange Passed (map (changeOf kind memberName) ops)) < 5 ->
    eventsOfKind kind (replayEvents memberName counters tallies ops) = [].
Proof.
  induction ops as [|op rest IH]; intros counters tallies Hc Hb Hfail Hlt;
    [reflexivity|].
  cbn [replayEvents]. rewrite eventsOfKind_app.
  destruct (opEvents_kind kind memberName counters tallies op)
    as (Hk & _ & _ & Hnone); [lia | lia |].
  assert (Hnext : 0 <= fst (nextCounters memberName counters op) <= 4
                  /\ 0 <= snd (nextCounters memberName counters op) <= 4)
    by (destruct counters; now apply nextCounters_bounds).
  cbn [map] in Hfail, Hlt. rewrite countChange_cons in Hfail, Hlt.
  cbv zeta in Hk, Hnone.
  assert (Hkind : 0 <= ofKind kind counters <= 4) by (destruct kind; cbn; lia).
  destruct (changeOf kind memberName op);
    cbn [bump Change_eqb] in Hk, Hnone, Hfail, Hlt; try discriminate Hfail.
  - rewrite Hnone by lia.
    replace (5 <=? ofKind kind counters) with false in Hk
      by (symmetry; apply Z.leb_gt; lia).
    apply IH; try tauto. rewrite Hk. lia.
  - rewrite Hnone by lia.
    replace (5 <=? ofKind kind counters + 1) with false in Hk
      by (symmetry; apply Z.leb_gt; lia).
    apply IH; try tauto. rewrite Hk. lia.
Qed.

(** A stretch without a [Failed] classification that brings the
    counter to 5 once emits one event of the kind. *)
Lemma one_event_stretch (kind : AwardKind) (memberName : JsValue) (ops : list Op.t) :
  forall counters tallies : Z * Z,
    0 <= fst counters <= 4 -> 0 <= snd counters <= 4 ->
    countChange Failed (map (changeOf kind memberName) ops) = 0%nat ->
    5 <= ofKind kind counters
         + Z.of_nat (countChange Passed (map (changeOf kind memberName) ops)) < 10 ->
    exists e,
      eventsOfKind kind (replayEvents memberName counters tallies ops) = [e]
      /\ eventKind e = kind
      /\ awardOccurrenceCount e = ofKind kind tallies + 1.
Proof.
  induction ops as [|op rest IH]; intros counters tallies Hc Hb Hfail Hlt.
  - assert (Hkind : 0 <= ofKind kind counters <= 4) by (destruct kind; cbn; lia).
    cbn [map] in Hlt. change (countChange Passed []) with 0%nat in Hlt. lia.
  - cbn [replayEvents]. rewrite eventsOfKind_app.
    destruct (opEvents_kind kind memberName counters tallies op)
      as (Hk & Ht & Hone & Hnone); [lia | lia |].
    assert (Hnext : 0 <= fst (nextCounters memberName counters op) <= 4
                    /\ 0 <= snd (nextCounters memberName counters op) <= 4)
      by (destruct counters; now apply nextCounters_bounds).
    cbn [map] in Hfail, Hlt. rewrite countChange_cons in Hfail, Hlt.
    cbv zeta in Hk, Ht, Hone, Hnone.
    assert (Hkind : 0 <= ofKind kind counters <= 4) by (destruct kind; cbn; lia).
    destruct (changeOf kind memberName op);
      cbn [bump Change_eqb] in Hk, Ht, Hone, Hnone, Hfail, Hlt;
      try discriminate Hfail.
    + rewrite Hnone by lia.
      replace (5 <=? ofKind kind counters) with false in Hk, Ht
        by (symmetry; apply Z.leb_gt; lia).
      destruct (IH (nextCounters memberName counters op)
                   (nextTallies memberName counters tallies op))
        as (e & He & Hkd & Hcount); try tauto; [rewrite Hk; lia|].
      exists e. split; [exact He|]. split; [exact Hkd|]. rewrite Hcount, Ht. lia.
    + destruct (5 <=? ofKind kind counters + 1) eqn:E5;
        [apply Z.leb_le in E5 | apply Z.leb_gt in E5].
      * destruct (Hone E5) as (e & He & Hkd & _ & Hcount).
        rewrite He, quiet_stretch; try tauto; [|rewrite Hk; lia].
        exists e. repeat split; assumption.
      * rewrite Hnone by lia.
        destruct (IH (nextCounters memberName counters op)
                     (nextTallies memberName counters tallies op))
          as (e & He & Hkd & Hcount); try tauto; [rewrite Hk; lia|].
        exists e. split; [exact He|]. split; [exact Hkd|]. rewrite Hcount, Ht. lia.
Qed.

(** C3.  For either kind of award and a pilot who has a record: a
    stretch of ops with five [Passed] classifications and no [Failed]
    one emits exactly one event of that kind and leaves the rolling
    counter where it was, at 0 for a counter that entered the stretch at
    0 (it was reset when it reached 5).  The event is emitted into both
    sinks: [achievementHistory] and [opAchievementLog] end as the events
    of the stretch say, one line each per event, and among these events
    exactly one is of the kind; it quotes one more than the award count
    the record held, and the award count of the record has grown by
    one.  An op classified [Failed] puts the counter at 0, from 4 as
    from any other value, leaves the award count alone, and writes no
    event of that kind to either sink. *)
Theorem five_passes_one_award (kind : AwardKind) (memberName : JsValue)
        (self : GoogleSheetParser.t) (c b : Z) (m : OverallMember) :
  GoogleSheetParser.members self !! toString memberName = Some m ->
  0 <= c <= 4 -> 0 <= b <= 4 ->
  (forall ops,
      countChange Failed (map (changeOf kind memberName) ops) = 0%nat ->
      countChange Passed (map (changeOf kind memberName) ops) = 5%nat ->
      exists self' c' b' e,
        foldM (GoogleSheetParser.parseMemberOp memberName) (self, c, b) ops
        = Ok (self', c', b')
        /\ awardsOf kind self' memberName = awardsOf kind self memberName + 1
        /\ counterOf kind (self', c', b') = counterOf kind (self, c, b)
        /\ (counterOf kind (self, c, b) = 0 -> counterOf kind (self', c', b') = 0)
        /\ eventsOfKind kind (replayEvents memberName (c, b) (talliesOf m) ops) = [e]
        /\ eventKind e = kind
        /\ awardOccurrenceCount e = awardsOf kind self memberName + 1
        /\ GoogleSheetParser.achievementHistory self'
           = historyAfter (replayEvents memberName (c, b) (talliesOf m) ops)
                          (GoogleSheetParser.achievementHistory self)
        /\ GoogleSheetParser.opAchievementLog self'
           = logAfter (replayEvents memberName (c, b) (talliesOf m) ops)
                      (GoogleSheetParser.opAchievementLog self))
  /\ (forall op,
        changeOf kind memberName op = Failed ->
        exists self' c' b',
          GoogleSheetParser.parseMemberOp memberName (self, c, b) op
          = Ok (self', c', b')
          /\ counterOf kind (self', c', b') = 0
          /\ awardsOf kind self' memberName = awardsOf kind self memberName
          /\ eventsOfKind kind (opEvents memberName (c, b) (talliesOf m) op) = []
          /\ GoogleSheetParser.achievementHistory self'
             = historyAfter (opEvents memberName (c, b) (talliesOf m) op)
                            (GoogleSheetParser.achievementHistory self)
          /\ GoogleSheetParser.opAchievementLog self'
             = logAfter (opEvents memberName (c, b) (talliesOf m) op)
                        (GoogleSheetParser.opAchievementLog self)).
Proof.
  intros Hm Hc Hb.
  pose proof (counterOf_bounds kind self c b Hc Hb) as Hk.
  split.
  - intros ops Hfail Hpass.
    destruct (passes_accumulate kind memberName ops self c b m Hm Hc Hb Hfail)
      as (s2 & c2 & b2 & m2 & E & Hm2 & Hk2 & Ha2).
    destruct (replay_trace memberName ops self c b m Hm Hc Hb)
      as (s2' & c2' & b2' & E' & Hh & Hl).
    rewrite E in E'. injection E' as <- <- <-.
    destruct (one_event_stretch kind memberName ops (c, b) (talliesOf m))
      as (e & He & Hkd & Hcount); [exact Hc | exact Hb | exact Hfail | |].
    { rewrite Hpass, (ofKind_counterOf kind self). lia. }
    rewrite Hpass in Hk2, Ha2.
    exists s2, c2, b2, e. split; [exact E|].
    unfold awardsOf. rewrite Hm, Hm2.
    assert (Hcount' : counterOf kind (s2, c2, b2) = counterOf kind (self, c, b))
      by (rewrite Hk2; Z.div_mod_to_equations; lia).
    split; [rewrite Ha2; Z.div_mod_to_equations; lia|].
    split; [exact Hcount'|]. split; [intros H0; now rewrite Hcount'|].
    split; [exact He|]. split; [exact Hkd|].
    split; [rewrite Hcount; destruct kind; reflexivity|].
    split; assumption.
  - intros op Hfailed.
    destruct (parseMemberOp_kind kind memberName self c b op m Hm Hc Hb)
      as (s1 & c1 & b1 & m1 & E & Hm1 & _ & _ & Hk1 & Ha1).
    destruct (parseMemberOp_trace memberName self c b op m Hm)
      as (s1' & E' & Hh & Hl); [lia | lia |].
    rewrite E in E'. injection E' as <- _ _.
    destruct (opEvents_kind kind memberName (c, b) (talliesOf m) op)
      as (_ & _ & _ & Hnone); [cbn; lia | cbn; lia |].
    rewrite Hfailed in Hk1, Ha1, Hnone. cbn [bump] in Hk1, Ha1, Hnone.
    exists s1, c1, b1. split; [exact E|].
    unfold awardsOf. rewrite Hm, Hm1.
    change (5 <=? 0) with false in Hk1, Ha1. cbv zeta iota in Hk1, Ha1, Hnone.
    split; [exact Hk1|]. split; [lia|].
    split; [apply Hnone; lia|]. split; assumption.
Qed.

Lemma five_passes_one_award_witness :
  let start :=
    GoogleSheetParser.putMember (GoogleSheetParser.new [fiveOpsSheet])
      (VStr "maverick") (mkOverallMember "" 0 0) in
  (exists self' c' b' e,
      foldM (GoogleSheetParser.parseMemberOp (VStr "maverick")) (start, 0, 0) fiveOps
      = Ok (self', c', b')
      /\ awardsOf NoDeathStreak self' (VStr "maverick") = 0 + 1
      /\ c' = 0
      /\ (0 = 0 -> c' = 0)
      /\ eventsOfKind NoDeathStreak
           (replayEvents (VStr "maverick") (0, 0) (0, 0) fiveOps) = [e]
      /\ eventKind e = NoDeathStreak
      /\ awardOccurrenceCount e = 0 + 1
      /\ GoogleSheetParser.achievementHistory self'
         = historyAfter (replayEvents (VStr "maverick") (0, 0) (0, 0) fiveOps) ""
      /\ GoogleSheetParser.opAchievementLog self'
         = logAfter (replayEvents (VStr "maverick") (0, 0) (0, 0) fiveOps) ∅)
  /\ (exists self' c' b',
         GoogleSheetParser.parseMemberOp (VStr "maverick") (start, 4, 0) deadlyOp
         = Ok (self', c', b')
         /\ c' = 0
         /\ awardsOf NoDeathStreak self' (VStr "maverick") = 0
         /\ eventsOfKind NoDeathStreak
              (opEvents (VStr "maverick") (4, 0) (0, 0) deadlyOp) = []
         /\ GoogleSheetParser.achievementHistory self'
            = historyAfter (opEvents (VStr "maverick") (4, 0) (0, 0) deadlyOp) ""
         /\ GoogleSheetParser.opAchievementLog self'
            = logAfter (opEvents (VStr "maverick") (4, 0) (0, 0) deadlyOp) ∅).
Proof.
  intros start. split.
  - apply (proj1 (five_passes_one_award NoDeathStreak (VStr "maverick")
                    start 0 0 (mkOverallMember "" 0 0)
                    ltac:(apply lookup_insert_eq) ltac:(lia) ltac:(lia)) fiveOps);
      vm_compute; reflexivity.
  - apply (proj2 (five_passes_one_award NoDeathStreak (VStr "maverick")
                    start 4 0 (mkOverallMember "" 0 0)
                    ltac:(apply lookup_insert_eq) ltac:(lia) ltac:(lia)) deadlyOp).
    vm_compute; reflexivity.
Defined.

(** ** The award counters of a pilot *)

(** The award for five ops without death leaves [fiveOpsWithoutDeath]
    alone and adds one to [fiveOpsWithoutBolter]. *)
Lemma awardWithoutDeath_counts_bolter (self self' : GoogleSheetParser.t)
      (memberName : JsValue) (op : Op.t) (member : OpMember) (m : OverallMember) :
  GoogleSheetParser.members self !! toString memberName = Some m ->
  GoogleSheetParser.awardWithoutDeath self memberName op member = Ok self' ->
  exists m',
    GoogleSheetParser.members self' !! toString memberName = Some m'
    /\ fiveOpsWithoutDeath m' = fiveOpsWithoutDeath m
    /\ fiveOpsWithoutBolter m' = fiveOpsWithoutBolter m + 1.
Proof.
  intros Hm E.
  destruct (awardWithoutDeath_ok memberName self op member m Hm)
    as (s1 & E1 & Hs & _).
  rewrite E in E1. injection E1 as <-.
  eexists. split; [exact Hs|]. split; reflexivity.
Qed.

(** C1.  Maverick flies five ops without a combat death and bolters in
    each of them.  The run hands out one award for five ops without
    death, and counts it in [fiveOpsWithoutBolter]: the record ends with
    no award without death and one award without bolter. *)
Theorem death_award_counted_as_bolter_award :
  exists self' ops m,
    GoogleSheetParser.run (GoogleSheetParser.new [fiveOpsSheet])
    = Ok (None, self', ops)
    /\ GoogleSheetParser.achievementHistory self'
       = "After Week1 2300Z, Maverick has not died in 5 ops!" ++ nl
    /\ GoogleSheetParser.opAchievementLog self' !! "Week1 2300Z"
       = Some ("------ Week1 2300Z ------" ++ nl
               ++ "[FIVE OPS WITHOUT DEATH] Maverick. They now have this award 1 times"
               ++ nl)
    /\ GoogleSheetParser.members self' !! "maverick" = Some m
    /\ fiveOpsWithoutDeath m = 0
    /\ fiveOpsWithoutBolter m = 1.
Proof.
  do 3 eexists. split; [vm_compute; reflexivity|].
  split; [vm_compute; reflexivity|].
  split; [vm_compute; reflexivity|].
  split; [vm_compute; reflexivity|].
  split; reflexivity.
Qed.

(** ** Running twice *)

Lemma registerOps_keeps (ops : list Op.t) :
  forall (names : list JsValue) (self : GoogleSheetParser.t),
    fst (fold_left GoogleSheetParser.registerOp ops (names, self))
    = pilotsOf ops names
    /\ GoogleSheetParser.sheetsByIndex
         (snd (fold_left GoogleSheetParser.registerOp ops (names, self)))
       = GoogleSheetParser.sheetsByIndex self
    /\ GoogleSheetParser.achievementHistory
         (snd (fold_left GoogleSheetParser.registerOp ops (names, self)))
       = GoogleSheetParser.achievementHistory self.
Proof.
  induction ops as [|op rest IH]; intros names self; [repeat split|].
  cbn [fold_left GoogleSheetParser.registerOp].
  destruct (IH (fold_left GoogleSheetParser.setAdd
                          (map uniqueName (Op.members op)) names)
               (GoogleSheetParser.set_opAchievementLog self
                  (<[Op.name op := "------ " ++ Op.name op ++ " ------" ++ nl]>
                     (GoogleSheetParser.opAchievementLog self))))
    as (Hn & Hs & Hh).
  repeat split; assumption.
Qed.

(** [parseMember] does not throw; it adds to [achievementHistory] the
    lines of the pilot and nothing else. *)
Lemma parseMember_ok (self : GoogleSheetParser.t) (memberName : JsValue)
      (ops : list Op.t) :
  exists self',
    GoogleSheetParser.parseMember self memberName ops = Ok self'
    /\ GoogleSheetParser.sheetsByIndex self' = GoogleSheetParser.sheetsByIndex self
    /\ GoogleSheetParser.achievementHistory self'
       = GoogleSheetParser.achievementHistory self
           ++ memberHistory memberName (0, 0) ops.
Proof.
  unfold GoogleSheetParser.parseMember.
  destruct (replay_ok memberName ops
              (GoogleSheetParser.putMember self memberName (mkOverallMember "" 0 0))
              0 0 (mkOverallMember "" 0 0))
    as (self' & m' & c' & b' & E & (_ & Hs & Hh) & _); [| lia | lia |].
  - cbn. apply lookup_insert_eq.
  - rewrite E. cbn [mbind Result_bind]. exists self'.
    split; [reflexivity|]. split; [exact Hs | exact Hh].
Qed.

Lemma parseMembers_ok (ops : list Op.t) (names : list JsValue) :
  forall self : GoogleSheetParser.t,
  exists self',
    foldM (fun s member => GoogleSheetParser.parseMember s member ops) self names
    = Ok self'
    /\ GoogleSheetParser.sheetsByIndex self' = GoogleSheetParser.sheetsByIndex self
    /\ GoogleSheetParser.achievementHistory self'
       = GoogleSheetParser.achievementHistory self ++ runHistory names ops.
Proof.
  induction names as [|memberName rest IH]; intros self.
  - exists self. split; [reflexivity|]. split; [reflexivity|].
    cbn [runHistory]. now rewrite string_app_nil_r.
  - destruct (parseMember_ok self memberName ops) as (s1 & E1 & Hs1 & Hh1).
    destruct (IH s1) as (s2 & E2 & Hs2 & Hh2).
    exists s2. cbn [foldM]. rewrite E1. cbn [mbind Result_bind].
    split; [exact E2|]. split; [congruence|].
    cbn [runHistory]. rewrite Hh2, Hh1. apply string_app_assoc.
Qed.

(** What [run] does, given the ops it loads from the sheets: it
    completes unless the loading throws, keeps the sheets, and adds
    [runHistory] to [achievementHistory]. *)
Lemma run_history (self : GoogleSheetParser.t) (ops : list Op.t) :
  foldM GoogleSheetParser.loadSheet [] (GoogleSheetParser.sheetsByIndex self)
  = Ok ops ->
  exists self',
    GoogleSheetParser.run self = Ok (None, self', map GoogleSheetParser.stripOp ops)
    /\ GoogleSheetParser.sheetsByIndex self' = GoogleSheetParser.sheetsByIndex self
    /\ GoogleSheetParser.achievementHistory self'
       = GoogleSheetParser.achievementHistory self
           ++ runHistory (pilotsOf ops []) ops.
Proof.
  intros Hload. unfold GoogleSheetParser.run. rewrite Hload.
  cbn [mbind Result_bind].
  destruct (registerOps_keeps ops [] self) as (Hn & Hs & Hh).
  destruct (fold_left GoogleSheetParser.registerOp ops ([], self))
    as [names self1]. cbn [fst snd] in Hn, Hs, Hh.
  destruct (parseMembers_ok ops names self1) as (self2 & E & Hs2 & Hh2).
  rewrite E. cbn [mbind Result_bind]. exists self2.
  split; [reflexivity|]. split; [congruence|].
  rewrite Hh2, Hh, Hn. reflexivity.
Qed.

(** C8.  A second [run] on the same instance and the same sheets
    completes like the first and writes the same ops, but it appends to
    the [achievementHistory] the first run left: after a first run on a
    new instance, the history of the second run is the history of the
    first one twice over. *)
Theorem second_run_repeats_history (sheets : list Sheet)
        (result : option SheetParseResult) (self1 : GoogleSheetParser.t)
        (ops1 : list Op.t) :
  GoogleSheetParser.run (GoogleSheetParser.new sheets) = Ok (result, self1, ops1) ->
  exists self2,
    GoogleSheetParser.run self1 = Ok (None, self2, ops1)
    /\ GoogleSheetParser.achievementHistory self2
       = GoogleSheetParser.achievementHistory self1
           ++ GoogleSheetParser.achievementHistory self1.
Proof.
  intros Hrun.
  destruct (foldM GoogleSheetParser.loadSheet [] sheets) as [ops|e] eqn:Hload.
  2:{ unfold GoogleSheetParser.run in Hrun. cbn in Hrun. rewrite Hload in Hrun.
      discriminate Hrun. }
  destruct (run_history (GoogleSheetParser.new sheets) ops Hload)
    as (s1 & E1 & Hs1 & Hh1).
  rewrite Hrun in E1. injection E1 as _ <- ->.
  cbn in Hs1, Hh1.
  assert (Hload1 : foldM GoogleSheetParser.loadSheet []
                         (GoogleSheetParser.sheetsByIndex self1) = Ok ops)
    by (rewrite Hs1; exact Hload).
  destruct (run_history self1 ops Hload1) as (s2 & E2 & _ & Hh2).
  exists s2. split; [exact E2|].
  rewrite Hh2. f_equal. rewrite Hh1. reflexivity.
Qed.

Lemma second_run_repeats_history_witness :
  exists self1 ops1 self2,
    GoogleSheetParser.run (GoogleSheetParser.new [fiveOpsSheet])
    = Ok (None, self1, ops1)
    /\ GoogleSheetParser.run self1 = Ok (None, self2, ops1)
    /\ GoogleSheetParser.achievementHistory self1
       = "After Week1 2300Z, Maverick has not died in 5 ops!" ++ nl
    /\ GoogleSheetParser.achievementHistory self2
       = GoogleSheetParser.achievementHistory self1
           ++ GoogleSheetParser.achievementHistory self1
    /\ GoogleSheetParser.achievementHistory self2
       <> GoogleSheetParser.achievementHistory self1.
Proof.
  assert (E : exists self1 ops1,
             GoogleSheetParser.run (GoogleSheetParser.new [fiveOpsSheet])
             = Ok (None, self1, ops1)
             /\ GoogleSheetParser.achievementHistory self1
                = "After Week1 2300Z, Maverick has not died in 5 ops!" ++ nl).
  { do 2 eexists. split; vm_compute; reflexivity. }
  destruct E as (self1 & ops1 & Hrun & Hh1).
  destruct (second_run_repeats_history [fiveOpsSheet] None self1 ops1 Hrun)
    as (self2 & Hrun2 & Hh2).
  exists self1, ops1, self2.
  split; [exact Hrun|]. split; [exact Hrun2|]. split; [exact Hh1|].
  split; [exact Hh2|].
  rewrite Hh2, Hh1. vm_compute. discriminate.
Defined.


(** * Further properties of the parser *)

(** ** The column map *)

Lemma findColumn_find (sh : Sheet) (row : nat) (header : string)
      (columns : list nat) :
  (row < rowCount sh)%nat ->
  Forall (fun column => (column < columnCount sh)%nat) columns ->
  Op.findColumn sh row header columns
  = Ok (List.find (fun column => headerMatches header (cellValue sh row column))
                  columns).
Proof.
  intros Hrow. induction columns as [|c rest IH]; intros Hcols; [reflexivity|].
  apply Forall_cons in Hcols as [Hc Hrest].
  cbn [Op.findColumn List.find].
  rewrite (getCell_inside sh row c Hrow Hc). cbn [mbind Result_bind].
  unfold headerMatches at 1.
  destruct (truthy (cellValue sh row c)
            && String.eqb (trim (toString (cellValue sh row c))) header);
    [reflexivity | exact (IH Hrest)].
Qed.

Lemma loadColumns_flat (sh : Sheet) (row : nat) (entries : list (Key * string)) :
  (row < rowCount sh)%nat ->
  forall columnMap : ColumnMap,
    Op.loadColumns sh row entries columnMap
    = Ok (columnMap
            ++ flat_map (fun entry : Key * string =>
                           match List.find
                                   (fun column =>
                                      headerMatches (snd entry) (cellValue sh row column))
                                   (seq 0 (columnCount sh)) with
                           | Some column => [(fst entry, column)]
                           | None => []
                           end)
                        entries)%list.
Proof.
  intros Hrow. induction entries as [|[key header] rest IH]; intros columnMap.
  - cbn. now rewrite app_nil_r.
  - cbn [Op.loadColumns flat_map fst snd].
    rewrite (findColumn_find sh row header _ Hrow) by (apply seq_below; lia).
    cbn [mbind Result_bind].
    destruct (List.find _ _) as [column|].
    + rewrite IH, <- app_assoc. reflexivity.
    + rewrite IH. reflexivity.
Qed.

Lemma loadColumnMap_first_match_eq (sh : Sheet) (row : nat) :
  (row < rowCount sh)%nat ->
  Op.loadColumnMap sh row = Ok (columnsFound sh row).
Proof.
  intros Hrow. unfold Op.loadColumnMap, columnsFound.
  now rewrite (loadColumns_flat sh row columNameMap Hrow []).
Qed.

(** X1.  For a header row inside the sheet [loadColumnMap] does not
    throw.  It maps each key of [columNameMap], in the order of that
    table, to the first column of the row whose trimmed text is the
    header of the key, and leaves out the keys that have no such
    column. *)
Theorem loadColumnMap_first_match (sh : Sheet) (row : nat) :
  (row < rowCount sh)%nat ->
  Op.loadColumnMap sh row = Ok (columnsFound sh row).
Proof. apply loadColumnMap_first_match_eq. Qed.

Lemma loadColumnMap_first_match_witness :
  Op.loadColumnMap fiveOpsSheet 1
  = Ok [(KuniqueName, 0%nat); (Kbolters, 2%nat); (KcombatDeaths, 1%nat)].
Proof.
  apply (loadColumnMap_first_match fiveOpsSheet 1). simpl. lia.
Defined.

(** ** The member rows of an op *)

Lemma lookahead_inside (sh : Sheet) (row : nat) :
  (0 < columnCount sh)%nat -> (row + 2 < rowCount sh)%nat ->
  getCell sh (Z.of_nat row + 2) 0 = Ok (cellValue sh (row + 2) 0).
Proof.
  intros Hc Hr.
  replace (Z.of_nat row + 2) with (Z.of_nat (row + 2)) by lia.
  change 0 with (Z.of_nat 0).
  now apply getCell_inside.
Qed.

(** The loop of [load] reads the rows up to the first one that has a
    header two rows below, and appends their records. *)
Lemma loadRows_before (sh : Sheet) (columnMap : ColumnMap) (rows : list nat) :
  (0 < columnCount sh)%nat ->
  forall acc : list OpMember,
    Op.loadRows sh columnMap rows acc
    = (loaded ← mapM (fun row => Op.parseOpMemberRow sh row columnMap)
                     (rowsBefore (stopsAt sh) rows);
       Ok (acc ++ loaded)%list).
Proof.
  intros Hc. induction rows as [|row rest IH]; intros acc.
  - cbn. now rewrite app_nil_r.
  - cbn [Op.loadRows rowsBefore]. unfold stopsAt at 1, isHeaderRow.
    destruct (row + 2 <? rowCount sh)%nat eqn:Hlook.
    + apply Nat.ltb_lt in Hlook. rewrite (lookahead_inside sh row Hc Hlook).
      cbn [mbind Result_bind andb].
      destruct (looseEq (cellValue sh (row + 2) 0) (VStr "Name")).
      * cbn. now rewrite app_nil_r.
      * cbn [mapM mbind Result_bind].
        destruct (Op.parseOpMemberRow sh row columnMap) as [member|e];
          cbn [mbind Result_bind]; [|reflexivity].
        rewrite IH.
        destruct (mapM _ (rowsBefore (stopsAt sh) rest)) as [loaded|e];
          cbn [mbind Result_bind]; [|reflexivity].
        now rewrite <- app_assoc.
    + cbn [mbind Result_bind andb mapM].
      destruct (Op.parseOpMemberRow sh row columnMap) as [member|e];
        cbn [mbind Result_bind]; [|reflexivity].
      rewrite IH.
      destruct (mapM _ (rowsBefore (stopsAt sh) rest)) as [loaded|e];
        cbn [mbind Result_bind]; [|reflexivity].
      now rewrite <- app_assoc.
Qed.

Lemma load_reads_rows_before_next_header_eq (sh : Sheet) (timeslot : JsValue)
      (config : OpConfig) (startRow : nat) :
  (0 < columnCount sh)%nat -> (startRow < rowCount sh)%nat ->
  Op.load sh (Op.new sh timeslot config startRow)
  = (loaded ← mapM (fun row => Op.parseOpMemberRow sh row (columnsFound sh startRow))
                   (memberRows sh startRow);
     Ok (Op.mk (Some sh) (title sh ++ " " ++ toString timeslot) timeslot
               loaded config startRow)).
Proof.
  intros Hc Hrow. unfold Op.load, Op.new. cbn [Op.startRow Op.timeslot Op.members
    Op.sheet Op.config].
  rewrite (loadColumnMap_first_match_eq sh startRow Hrow). cbn [mbind Result_bind].
  rewrite (loadRows_before sh _ _ Hc). unfold memberRows.
  destruct (mapM _ _) as [loaded|e]; reflexivity.
Qed.

(** X2.  [load] gives the op its name, the sheet title and the timeslot
    joined by a space, and reads as members the rows below the header up
    to, and not including, the first row that has a header two rows
    further down, or up to the end of the sheet; it throws exactly when
    reading one of these rows throws. *)
Theorem load_reads_rows_before_next_header (sh : Sheet) (timeslot : JsValue)
        (config : OpConfig) (startRow : nat) :
  (0 < columnCount sh)%nat -> (startRow < rowCount sh)%nat ->
  Op.load sh (Op.new sh timeslot config startRow)
  = (loaded ← mapM (fun row => Op.parseOpMemberRow sh row (columnsFound sh startRow))
                   (memberRows sh startRow);
     Ok (Op.mk (Some sh) (title sh ++ " " ++ toString timeslot) timeslot
               loaded config startRow)).
Proof. apply load_reads_rows_before_next_header_eq. Qed.

Lemma load_reads_rows_before_next_header_witness :
  memberRows fiveOpsSheet 1 = [2%nat]
  /\ exists member,
      Op.load fiveOpsSheet (Op.new fiveOpsSheet (VStr "1900Z") defaultConfig 1)
      = Ok (Op.mk (Some fiveOpsSheet) "Week1 1900Z" (VStr "1900Z") [member]
                  defaultConfig 1).
Proof.
  split; [reflexivity|]. eexists.
  rewrite (load_reads_rows_before_next_header fiveOpsSheet (VStr "1900Z")
             defaultConfig 1); [| simpl; lia | simpl; lia].
  vm_compute. reflexivity.
Defined.

(** ** The ops of a sheet *)

Lemma looseEq_Name (value : JsValue) :
  looseEq value (VStr "Name") = true -> value = VStr "Name".
Proof.
  destruct value as [| |b|n|s]; unfold looseEq, toNumber;
    try change (stringToNumber "Name") with (@None Z);
    cbn [numEq]; try discriminate.
  intros H. apply String_eqb_true in H. now subst.
Qed.

Lemma load_shape (sh : Sheet) (timeslot : JsValue) (config : OpConfig)
      (startRow : nat) (op : Op.t) :
  Op.load sh (Op.new sh timeslot config startRow) = Ok op ->
  Op.sheet op = Some sh
  /\ Op.name op = title sh ++ " " ++ toString timeslot
  /\ Op.timeslot op = timeslot
  /\ Op.config op = config
  /\ Op.startRow op = startRow.
Proof.
  unfold Op.load, Op.new. cbn [Op.startRow Op.timeslot Op.members Op.sheet Op.config].
  intros H. apply bind_Ok_inv in H as (columnMap & _ & H).
  apply bind_Ok_inv in H as (loaded & _ & H).
  injection H as <-. repeat split.
Qed.

(** What the loop of [fromSheet] adds to the ops it has. *)
Lemma scanRows_shape (sh : Sheet) (opConfig : OpConfig) (rows : list nat) :
  (0 < columnCount sh)%nat ->
  Forall (fun row => (row < rowCount sh)%nat) rows ->
  forall ops result : list Op.t,
    Op.scanRows sh opConfig rows ops = Ok result ->
    exists added,
      result = (ops ++ added)%list
      /\ map Op.startRow added = List.filter (isHeaderRow sh) rows
      /\ Forall (fun op =>
                   Op.sheet op = Some sh
                   /\ Op.config op = opConfig
                   /\ (0 < Op.startRow op)%nat
                   /\ Op.timeslot op = cellValue sh (Op.startRow op - 1) 0
                   /\ Op.name op = title sh ++ " " ++ toString (Op.timeslot op))
                added.
Proof.
  intros Hc. induction rows as [|row rest IH]; intros Hrows ops result Hscan.
  - injection Hscan as <-. exists []. rewrite app_nil_r.
    split; [reflexivity|]. split; [reflexivity | constructor].
  - apply Forall_cons in Hrows as [Hrow Hrest].
    cbn [Op.scanRows List.filter] in Hscan |- *.
    pose proof (getCell_inside sh row 0 Hrow Hc) as Hcell.
    change (Z.of_nat 0) with 0 in Hcell. rewrite Hcell in Hscan.
    cbn [mbind Result_bind] in Hscan. unfold isHeaderRow at 1.
    destruct (looseEq (cellValue sh row 0) (VStr "Name")) eqn:Hname.
    + apply bind_Ok_inv in Hscan as (timeSlot & Hslot & Hscan).
      apply bind_Ok_inv in Hscan as (newOp & Hload & Hscan).
      destruct (load_shape _ _ _ _ _ Hload) as (Hs & Hn & Ht & Hcfg & Hstart).
      destruct (IH Hrest _ _ Hscan) as (added & -> & Hrows' & Hall).
      exists (newOp :: added). rewrite <- app_assoc.
      split; [reflexivity|]. split; [cbn [map]; now rewrite Hstart, Hrows'|].
      constructor; [|exact Hall].
      assert (Hpos : (0 < row)%nat).
      { destruct row as [|row']; [|lia].
        rewrite getCell_negative_row in Hslot by lia. discriminate Hslot. }
      rewrite Hstart, Ht. repeat split; try assumption.
      replace (Z.of_nat row - 1) with (Z.of_nat (row - 1)) in Hslot by lia.
      change 0 with (Z.of_nat 0) in Hslot.
      rewrite getCell_inside in Hslot by lia. now injection Hslot as <-.
    + exact (IH Hrest _ _ Hscan).
Qed.

(** X3.  When [fromSheet] returns, it has made one op for each row whose
    first cell reads "Name", in the order of the rows; every op carries
    the config of the sheet, has its header below row 0, takes its
    timeslot from the cell above its header and is named by the sheet
    title, a space and the timeslot. *)
Theorem fromSheet_one_op_per_header (sh : Sheet) (ops : list Op.t) :
  (0 < columnCount sh)%nat ->
  Op.fromSheet sh = Ok ops ->
  map Op.startRow ops = headerRows sh
  /\ exists opConfig,
      Op.getOpConfig sh = Ok opConfig
      /\ Forall (fun op =>
                   Op.sheet op = Some sh
                   /\ Op.config op = opConfig
                   /\ (0 < Op.startRow op)%nat
                   /\ Op.timeslot op = cellValue sh (Op.startRow op - 1) 0
                   /\ Op.name op = title sh ++ " " ++ toString (Op.timeslot op))
                ops.
Proof.
  intros Hc Hfrom. unfold Op.fromSheet in Hfrom.
  apply bind_Ok_inv in Hfrom as (opConfig & Hcfg & Hscan).
  destruct (scanRows_shape sh opConfig (seq 0 (rowCount sh)) Hc
              ltac:(apply seq_below; lia) _ _ Hscan)
    as (added & -> & Hrows & Hall).
  split; [exact Hrows|]. exists opConfig. split; [exact Hcfg | exact Hall].
Qed.

Lemma fromSheet_one_op_per_header_witness :
  map Op.startRow fiveOps = [1; 5; 9; 13; 17]%nat
  /\ map Op.name fiveOps
     = ["Week1 1900Z"; "Week1 2000Z"; "Week1 2100Z"; "Week1 2200Z"; "Week1 2300Z"].
Proof.
  destruct (fromSheet_one_op_per_header fiveOpsSheet fiveOps) as [Hrows _];
    [simpl; lia | vm_compute; reflexivity |].
  split; [rewrite Hrows; reflexivity | vm_compute; reflexivity].
Defined.

(** X4.  A sheet with at least one column, with no "Name" in its first
    column and whose config block can be read has no ops: [fromSheet]
    returns the empty list. *)
Theorem fromSheet_without_header (sh : Sheet) (opConfig : OpConfig) :
  (0 < columnCount sh)%nat ->
  headerRows sh = [] ->
  Op.getOpConfig sh = Ok opConfig ->
  Op.fromSheet sh = Ok [].
Proof.
  intros Hc Hnone Hcfg. unfold Op.fromSheet. rewrite Hcfg.
  cbn [mbind Result_bind]. unfold headerRows in Hnone.
  assert (Hgen : forall rows ops,
             Forall (fun row => (row < rowCount sh)%nat) rows ->
             List.filter (isHeaderRow sh) rows = [] ->
             Op.scanRows sh opConfig rows ops = Ok ops).
  { induction rows as [|row rest IH]; intros ops Hrows Hfilter; [reflexivity|].
    apply Forall_cons in Hrows as [Hrow Hrest].
    cbn [Op.scanRows List.filter] in Hfilter |- *.
    pose proof (getCell_inside sh row 0 Hrow Hc) as Hcell.
    change (Z.of_nat 0) with 0 in Hcell. rewrite Hcell.
    cbn [mbind Result_bind]. unfold isHeaderRow in Hfilter at 1.
    destruct (looseEq (cellValue sh row 0) (VStr "Name")); [discriminate|].
    exact (IH ops Hrest Hfilter). }
  apply Hgen; [apply seq_below; lia | exact Hnone].
Qed.

Lemma fromSheet_without_header_witness :
  Op.fromSheet (mkSheet "Notes" false 2 2 [[VStr "Hello"]; [VStr "name"]]) = Ok [].
Proof.
  apply (fromSheet_without_header _ defaultConfig);
    [simpl; lia | reflexivity | reflexivity].
Defined.

(** ** Rows whose name is not a text *)

Lemma columnsFound_keys (sh : Sheet) (row : nat) (key : Key) :
  In key (map fst (columnsFound sh row)) -> In key (map fst columNameMap).
Proof.
  unfold columnsFound. generalize columNameMap as entries.
  induction entries as [|[k header] rest IH]; [intros []|].
  cbn [flat_map fst snd map]. rewrite map_app, in_app_iff.
  intros [H|H]; [left | right; exact (IH H)].
  destruct (List.find _ _); [|destruct H].
  destruct H as [H|[]]. exact H.
Qed.

Lemma columnsFound_name_first (sh : Sheet) (header : nat) :
  (0 < columnCount sh)%nat ->
  isHeaderRow sh header = true ->
  In (KuniqueName, 0%nat) (columnsFound sh header).
Proof.
  intros Hc Hheader. apply looseEq_Name in Hheader.
  unfold columnsFound, columNameMap. cbn [flat_map fst snd].
  destruct (columnCount sh) as [|n]; [lia|].
  cbn [seq List.find]. rewrite Hheader.
  change (headerMatches "Name" (VStr "Name")) with true.
  left. reflexivity.
Qed.

(** With the column map of a header row, the fields of a row are read
    without a throw; the name is the first cell of the row and no
    display name is set yet. *)
Lemma readFields_under_header (sh : Sheet) (header row : nat) :
  (0 < columnCount sh)%nat ->
  (header < rowCount sh)%nat -> (row < rowCount sh)%nat ->
  isHeaderRow sh header = true ->
  exists raw,
    Op.readFields sh row (columnsFound sh header) emptyMember = Ok raw
    /\ uniqueName raw = cellValue sh row 0
    /\ displayName raw = VUndefined.
Proof.
  intros Hc Hheader Hrow Hname.
  destruct (loadColumnMap_wellformed sh header Hheader)
    as (mapping & E & Hcols & Hnodup).
  rewrite (loadColumnMap_first_match_eq sh header Hheader) in E.
  injection E as <-.
  destruct (readFields_inside sh row _ Hrow Hcols emptyMember)
    as (raw & Hread & Hother).
  exists raw. split; [exact Hread|]. split.
  - exact (readFields_lookup sh row _ Hrow Hcols Hnodup _ _ KuniqueName 0%nat
             Hread (columnsFound_name_first sh header Hc Hname)).
  - apply (Hother KdisplayName). intros Hin.
    apply columnsFound_keys in Hin. cbn in Hin.
    repeat (destruct Hin as [Hin|Hin]; [discriminate Hin|]). exact Hin.
Qed.

(** X5.  Under a header row, a row whose first cell is empty ([null],
    the empty text, 0 or [false]) is read without a throw: the record
    keeps that value as [uniqueName] and gets no [displayName]. *)
Theorem parseOpMemberRow_empty_name (sh : Sheet) (header row : nat) :
  (0 < columnCount sh)%nat ->
  (header < rowCount sh)%nat -> (row < rowCount sh)%nat ->
  isHeaderRow sh header = true ->
  truthy (cellValue sh row 0) = false ->
  exists member,
    Op.parseOpMemberRow sh row (columnsFound sh header) = Ok member
    /\ uniqueName member = cellValue sh row 0
    /\ displayName member = VUndefined.
Proof.
  intros Hc Hheader Hrow Hname Hempty.
  destruct (readFields_under_header sh header row Hc Hheader Hrow Hname)
    as (raw & Hread & Hu & Hd).
  exists raw. unfold Op.parseOpMemberRow. rewrite Hread.
  cbn [mbind Result_bind]. rewrite Hu, Hempty. repeat split; assumption.
Qed.

Lemma parseOpMemberRow_empty_name_witness :
  exists member,
    Op.parseOpMemberRow namedRowSheet 3 (columnsFound namedRowSheet 1) = Ok member
    /\ uniqueName member = VNull
    /\ displayName member = VUndefined.
Proof.
  apply (parseOpMemberRow_empty_name namedRowSheet 1 3);
    [simpl; lia | simpl; lia | simpl; lia | reflexivity | reflexivity].
Defined.

(** X6.  Under a header row, a row whose first cell holds a number other
    than 0 or the boolean [true] makes [parseOpMemberRow] throw a
    TypeError: the value has no [toLowerCase]. *)
Theorem parseOpMemberRow_name_not_text (sh : Sheet) (header row : nat) :
  (0 < columnCount sh)%nat ->
  (header < rowCount sh)%nat -> (row < rowCount sh)%nat ->
  isHeaderRow sh header = true ->
  textOrEmpty (cellValue sh row 0) = false ->
  Op.parseOpMemberRow sh row (columnsFound sh header)
  = Throw (TypeError "toLowerCase is not a function").
Proof.
  intros Hc Hheader Hrow Hname Hbad.
  destruct (readFields_under_header sh header row Hc Hheader Hrow Hname)
    as (raw & Hread & Hu & Hd).
  unfold Op.parseOpMemberRow. rewrite Hread. cbn [mbind Result_bind].
  destruct raw as [u d cs t b w l cd p r]. cbn in Hu. subst u.
  cbn [uniqueName setField].
  destruct (cellValue sh row 0) as [| |x|n|s]; cbn in Hbad; try discriminate.
  - apply negb_false_iff in Hbad. cbn [truthy]. rewrite Hbad. reflexivity.
  - apply negb_false_iff in Hbad. cbn [truthy] in Hbad |- *. rewrite Hbad.
    reflexivity.
Qed.

Lemma parseOpMemberRow_name_not_text_witness :
  Op.parseOpMemberRow numberedNameSheet 2 (columnsFound numberedNameSheet 1)
  = Throw (TypeError "toLowerCase is not a function").
Proof.
  apply (parseOpMemberRow_name_not_text numberedNameSheet 1 2);
    [simpl; lia | simpl; lia | simpl; lia | reflexivity | reflexivity].
Defined.

(** ** When block discovery returns *)

Lemma mapM_ok {A B : Type} (f : A -> Result B) (l : list A) :
  Forall (fun x => exists y, f x = Ok y) l -> exists ys, mapM f l = Ok ys.
Proof.
  induction l as [|x rest IH]; intros H; [exists []; reflexivity|].
  apply Forall_cons in H as [[y Hy] Hrest]. destruct (IH Hrest) as [ys Hys].
  exists (y :: ys). cbn [mapM]. rewrite Hy. cbn [mbind Result_bind].
  rewrite Hys. reflexivity.
Qed.

Lemma rowsBefore_In (stop : nat -> bool) (rows : list nat) (row : nat) :
  In row (rowsBefore stop rows) -> In row rows.
Proof.
  induction rows as [|r rest IH]; [intros []|].
  cbn [rowsBefore]. destruct (stop r); [intros []|].
  intros [H|H]; [left; exact H | right; exact (IH H)].
Qed.

Lemma parseOpMemberRow_text_or_empty (sh : Sheet) (header row : nat) :
  (0 < columnCount sh)%nat ->
  (header < rowCount sh)%nat -> (row < rowCount sh)%nat ->
  isHeaderRow sh header = true ->
  textOrEmpty (cellValue sh row 0) = true ->
  exists member, Op.parseOpMemberRow sh row (columnsFound sh header) = Ok member.
Proof.
  intros Hc Hheader Hrow Hname Hok.
  destruct (truthy (cellValue sh row 0)) eqn:Htruthy.
  - destruct (readFields_under_header sh header row Hc Hheader Hrow Hname)
      as (raw & Hread & Hu & Hd).
    unfold Op.parseOpMemberRow. rewrite Hread. cbn [mbind Result_bind].
    rewrite Hu, Htruthy.
    destruct raw as [u d cs t b w l cd p r]. cbn in Hu. subst u.
    cbn [uniqueName setField].
    destruct (cellValue sh row 0) as [| |x|n|s]; unfold textOrEmpty in Hok;
      try (rewrite Htruthy in Hok; discriminate Hok).
    eexists. reflexivity.
  - destruct (readFields_under_header sh header row Hc Hheader Hrow Hname)
      as (raw & Hread & Hu & Hd).
    exists raw. unfold Op.parseOpMemberRow. rewrite Hread.
    cbn [mbind Result_bind]. now rewrite Hu, Htruthy.
Qed.

(** X7.  [fromSheet] returns a list of ops, without a throw, for every
    sheet that has at least one column, whose first cell does not read
    "Name", whose first column holds only texts and empty cells, and
    whose config block can be read. *)
Theorem fromSheet_returns (sh : Sheet) (opConfig : OpConfig) :
  (0 < columnCount sh)%nat ->
  isHeaderRow sh 0 = false ->
  (forall row, (row < rowCount sh)%nat -> textOrEmpty (cellValue sh row 0) = true) ->
  Op.getOpConfig sh = Ok opConfig ->
  exists ops, Op.fromSheet sh = Ok ops.
Proof.
  intros Hc Hfirst Htext Hcfg. unfold Op.fromSheet. rewrite Hcfg.
  cbn [mbind Result_bind].
  assert (Hgen : forall rows ops,
             Forall (fun row => (row < rowCount sh)%nat) rows ->
             exists result, Op.scanRows sh opConfig rows ops = Ok result).
  { induction rows as [|row rest IH]; intros ops Hrows; [exists ops; reflexivity|].
    apply Forall_cons in Hrows as [Hrow Hrest].
    cbn [Op.scanRows].
    pose proof (getCell_inside sh row 0 Hrow Hc) as Hcell.
    change (Z.of_nat 0) with 0 in Hcell. rewrite Hcell.
    cbn [mbind Result_bind].
    destruct (looseEq (cellValue sh row 0) (VStr "Name")) eqn:Hname;
      [|exact (IH ops Hrest)].
    assert (Hpos : (0 < row)%nat).
    { destruct row as [|row']; [|lia].
      unfold isHeaderRow in Hfirst. congruence. }
    replace (Z.of_nat row - 1) with (Z.of_nat (row - 1)) by lia.
    change 0 with (Z.of_nat 0).
    rewrite getCell_inside by lia. cbn [mbind Result_bind].
    rewrite (load_reads_rows_before_next_header_eq sh _ opConfig row Hc Hrow).
    destruct (mapM_ok (fun r => Op.parseOpMemberRow sh r (columnsFound sh row))
                      (memberRows sh row)) as [loaded Hloaded].
    { apply Forall_forall. intros r Hr. apply list_elem_of_In in Hr.
      apply rowsBefore_In, in_seq in Hr.
      apply (parseOpMemberRow_text_or_empty sh row r Hc Hrow); [lia | exact Hname|].
      apply Htext. lia. }
    rewrite Hloaded. cbn [mbind Result_bind]. apply IH. exact Hrest. }
  apply Hgen, seq_below. lia.
Qed.

Lemma fromSheet_returns_witness :
  exists ops, Op.fromSheet fiveOpsSheet = Ok ops.
Proof.
  apply (fromSheet_returns fiveOpsSheet defaultConfig);
    [simpl; lia | reflexivity | | reflexivity].
  intros row Hrow. simpl in Hrow.
  do 20 (destruct row as [|row]; [reflexivity|]). lia.
Defined.

(** ** A config block in the last column *)

Lemma getCell_right_of_sheet (sh : Sheet) (row column : nat) :
  (columnCount sh <= column + 1)%nat ->
  getCell sh (Z.of_nat row) (Z.of_nat column + 1)
  = Throw (CellOutOfBounds (Z.of_nat row) (Z.of_nat column + 1)).
Proof.
  intros H. unfold getCell.
  destruct ((Z.of_nat row <? 0) || (Z.of_nat column + 1 <? 0)); [reflexivity|].
  replace (Z.of_nat (columnCount sh) <=? Z.of_nat column + 1) with true
    by (symmetry; apply Z.leb_le; lia).
  now rewrite orb_true_r.
Qed.

Lemma readConfigRow_last_column (sh : Sheet) (column : nat) (cfg : OpConfig)
      (row : nat) :
  (row < rowCount sh)%nat -> (column < columnCount sh)%nat ->
  (columnCount sh <= column + 1)%nat ->
  Op.readConfigRow sh column cfg row
  = if readsAsKey (cellValue sh row column)
    then Throw (CellOutOfBounds (Z.of_nat row) (Z.of_nat column + 1))
    else Ok cfg.
Proof.
  intros Hrow Hcol Hlast. unfold Op.readConfigRow, readsAsKey, readsAs.
  rewrite (getCell_inside sh row column Hrow Hcol).
  rewrite (getCell_right_of_sheet sh row column Hlast).
  cbn [mbind Result_bind].
  destruct (truthy (cellValue sh row column)); cbn [negb andb orb]; [|reflexivity].
  destruct (String.eqb _ "count bolters"); cbn [mbind Result_bind orb];
    [reflexivity|].
  destruct (String.eqb _ "count deaths"); reflexivity.
Qed.

Lemma readConfigRows_last_column (sh : Sheet) (column : nat) (rows : list nat) :
  Forall (fun row => (row < rowCount sh)%nat) rows ->
  (column < columnCount sh)%nat -> (columnCount sh <= column + 1)%nat ->
  forall cfg,
    foldM (Op.readConfigRow sh column) cfg rows
    = match List.find (fun row => readsAsKey (cellValue sh row column)) rows with
      | Some row => Throw (CellOutOfBounds (Z.of_nat row) (Z.of_nat column + 1))
      | None => Ok cfg
      end.
Proof.
  intros Hrows Hcol Hlast. induction rows as [|row rest IH]; intros cfg;
    [reflexivity|].
  apply Forall_cons in Hrows as [Hrow Hrest].
  cbn [foldM List.find].
  rewrite (readConfigRow_last_column sh column cfg row Hrow Hcol Hlast).
  destruct (readsAsKey (cellValue sh row column)); cbn [mbind Result_bind];
    [reflexivity | exact (IH Hrest cfg)].
Qed.

Lemma firstCell_inside (test : JsValue -> bool) (sh : Sheet) (row column : nat) :
  firstCell test sh = Some (row, column) ->
  (row < rowCount sh)%nat /\ (column < columnCount sh)%nat
  /\ test (cellValue sh row column) = true.
Proof.
  unfold firstCell. intros H. apply find_some in H as [Hin Htest].
  unfold cellsRowMajor in Hin. apply in_flat_map in Hin as (r & Hr & Hin).
  apply in_map_iff in Hin as (c & Heq & Hc). injection Heq as <- <-.
  apply in_seq in Hr. apply in_seq in Hc. repeat split; [lia | lia | exact Htest].
Qed.

(** X8.  When the cell that reads "config" lies in the last column of the
    sheet, [getOpConfig] returns the default config if no cell below it
    reads as one of the two keys, and otherwise throws at the first such
    row, on the read of the cell right of the key, outside the sheet. *)
Theorem getOpConfig_anchor_in_last_column (sh : Sheet) (row column : nat) :
  firstCell (readsAs "config") sh = Some (row, column) ->
  (column + 1 = columnCount sh)%nat ->
  Op.getOpConfig sh
  = match List.find (fun r => readsAsKey (cellValue sh r column))
                    (seq (row + 1) (rowCount sh - (row + 1))) with
    | Some r => Throw (CellOutOfBounds (Z.of_nat r) (Z.of_nat column + 1))
    | None => Ok defaultConfig
    end.
Proof.
  intros Hanchor Hlast.
  destruct (firstCell_inside _ _ _ _ Hanchor) as (Hrow & Hcol & _).
  unfold Op.getOpConfig. rewrite findConfig_firstCell, Hanchor.
  cbn [mbind Result_bind].
  apply readConfigRows_last_column; [apply seq_below; lia | exact Hcol | lia].
Qed.

Lemma getOpConfig_anchor_in_last_column_witness :
  Op.getOpConfig (mkSheet "Week1" false 3 1
                    [[VStr "Config"]; [VStr "1900Z"]; [VStr "Count Deaths"]])
  = Throw (CellOutOfBounds 2 1)
  /\ Op.getOpConfig (mkSheet "Week1" false 2 1 [[VStr "Config"]; [VStr "1900Z"]])
     = Ok defaultConfig.
Proof.
  split.
  - rewrite (getOpConfig_anchor_in_last_column _ 0 0); reflexivity.
  - rewrite (getOpConfig_anchor_in_last_column _ 0 0); reflexivity.
Defined.

(** ** Sheets that give no ops *)

Lemma loadSheet_skips (sheets : list Sheet) :
  forall ops,
    foldM GoogleSheetParser.loadSheet ops sheets
    = foldM GoogleSheetParser.loadSheet ops (List.filter isOpSheet sheets).
Proof.
  induction sheets as [|sh rest IH]; intros ops; [reflexivity|].
  cbn [foldM List.filter].
  assert (Hload : GoogleSheetParser.loadSheet ops sh
                  = if isOpSheet sh
                    then newOps ← Op.fromSheet sh; Ok (ops ++ newOps)%list
                    else Ok ops) by reflexivity.
  destruct (isOpSheet sh).
  - cbn [foldM]. rewrite Hload.
    destruct (Op.fromSheet sh) as [newOps|e]; cbn [mbind Result_bind];
      [apply IH | reflexivity].
  - rewrite Hload. cbn [mbind Result_bind]. apply IH.
Qed.

(** X9.  The loop of [run] over the sheets takes no op from a sheet
    that is hidden or is titled "Operations Record" or "Awards Record":
    [fromSheet] is run on the other sheets alone, whatever it would
    return or throw on the sheets left out (their cells are loaded all
    the same, which is not part of the model).  When every sheet is of
    that kind, [run] completes, leaves the instance as it was and writes
    no op. *)
Theorem run_skips_record_sheets (self : GoogleSheetParser.t) :
  (forall ops,
      foldM GoogleSheetParser.loadSheet ops (GoogleSheetParser.sheetsByIndex self)
      = foldM GoogleSheetParser.loadSheet ops
              (List.filter isOpSheet (GoogleSheetParser.sheetsByIndex self)))
  /\ (List.filter isOpSheet (GoogleSheetParser.sheetsByIndex self) = [] ->
      GoogleSheetParser.run self = Ok (None, self, [])).
Proof.
  split; [apply loadSheet_skips|].
  intros Hnone. unfold GoogleSheetParser.run.
  rewrite loadSheet_skips, Hnone. reflexivity.
Qed.

Lemma run_skips_record_sheets_witness :
  let self :=
    GoogleSheetParser.new
      [ mkSheet "Awards Record" false 1 1 [[VStr "Name"]];
        mkSheet "Week0" true 1 1 [[VStr "Name"]] ] in
  GoogleSheetParser.run self = Ok (None, self, []).
Proof.
  intros self. apply (proj2 (run_skips_record_sheets self)). reflexivity.
Defined.

(** ** Looking a pilot up *)

Lemma looseEq_sameName (a b : JsValue) :
  textOrMissing a = true -> textOrMissing b = true ->
  looseEq a b = sameName a b.
Proof. destruct a, b; intros Ha Hb; try discriminate; reflexivity. Qed.

(** X10.  Among names that are texts or missing, [getMember] returns
    the first member of the op that has the name: the members before
    it have another name; and it returns nothing exactly when no member
    has the name.  [hasMember] is true exactly when [getMember] returns
    a member. *)
Theorem hasMember_iff_getMember (op : Op.t) (name : JsValue) :
  textOrMissing name = true ->
  namesAreTexts op = true ->
  match Op.getMember op name with
  | Some member =>
      Op.hasMember op name = true
      /\ sameName (uniqueName member) name = true
      /\ exists before after,
           Op.members op = (before ++ member :: after)%list
           /\ Forall (fun other => sameName (uniqueName other) name = false) before
  | None =>
      Op.hasMember op name = false
      /\ Forall (fun member => sameName (uniqueName member) name = false)
                (Op.members op)
  end.
Proof.
  unfold Op.getMember, Op.hasMember, namesAreTexts. intros Hname.
  induction (Op.members op) as [|m rest IH]; intros Htexts;
    [split; [reflexivity | constructor]|].
  cbn [forallb] in Htexts. apply andb_prop in Htexts as [Hm Hrest].
  cbn [List.find existsb].
  rewrite (looseEq_sameName _ _ Hm Hname).
  destruct (sameName (uniqueName m) name) eqn:E.
  - split; [reflexivity|]. split; [exact E|].
    exists [], rest. split; [reflexivity | constructor].
  - cbn [orb]. specialize (IH Hrest).
    destruct (List.find _ rest) as [member|].
    + destruct IH as (H1 & H2 & before & after & H3 & H4).
      split; [exact H1|]. split; [exact H2|].
      exists (m :: before), after. split; [now rewrite H3|].
      constructor; assumption.
    + destruct IH as (H1 & H2). split; [exact H1|].
      constructor; assumption.
Qed.

Lemma hasMember_iff_getMember_witness :
  let op :=
    Op.mk None "Week1 1900Z" (VStr "1900Z")
          [setField emptyMember KuniqueName (VStr "goose");
           setField (setField emptyMember KuniqueName (VStr "maverick"))
                    KdisplayName (VStr "Maverick");
           setField (setField emptyMember KuniqueName (VStr "maverick"))
                    KdisplayName (VStr "MAVERICK")]
          defaultConfig 1 in
  match Op.getMember op (VStr "maverick") with
  | Some member =>
      Op.hasMember op (VStr "maverick") = true
      /\ sameName (uniqueName member) (VStr "maverick") = true
      /\ exists before after,
           Op.members op = (before ++ member :: after)%list
           /\ Forall (fun other => sameName (uniqueName other) (VStr "maverick") = false)
                     before
  | None =>
      Op.hasMember op (VStr "maverick") = false
      /\ Forall (fun member => sameName (uniqueName member) (VStr "maverick") = false)
                (Op.members op)
  end.
Proof.
  intros op.
  apply (hasMember_iff_getMember op (VStr "maverick")); reflexivity.
Defined.

Lemma find_filter_same {A : Type} (P Q : A -> bool) (l : list A) :
  (forall x, P x = true -> Q x = true) ->
  List.find P (List.filter Q l) = List.find P l.
Proof.
  intros HPQ. induction l as [|x rest IH]; [reflexivity|].
  cbn [List.filter List.find].
  destruct (Q x) eqn:EQ.
  - cbn [List.find]. destruct (P x); [reflexivity | exact IH].
  - destruct (P x) eqn:EP; [|exact IH].
    apply HPQ in EP. congruence.
Qed.

(** X11.  The final filter of [run] does not change what [getMember]
    finds for a name that is neither [null] nor [undefined]. *)
Theorem getMember_after_filter (op : Op.t) (name : JsValue) :
  notNullish name = true ->
  Op.getMember (GoogleSheetParser.stripOp op) name = Op.getMember op name.
Proof.
  intros Hname. unfold Op.getMember, GoogleSheetParser.stripOp.
  cbn [Op.members]. apply find_filter_same.
  intros member Heq.
  destruct (uniqueName member), name; cbn in Heq, Hname |- *;
    try reflexivity; discriminate.
Qed.

Lemma getMember_after_filter_witness :
  Op.getMember (GoogleSheetParser.stripOp deadlyOp) (VStr "maverick")
  = Op.getMember deadlyOp (VStr "maverick").
Proof. apply (getMember_after_filter deadlyOp (VStr "maverick")). reflexivity. Defined.

(** ** The pilots of a run *)

Lemma JsValue_eqb_eq (a b : JsValue) : JsValue_eqb a b = true <-> a = b.
Proof.
  destruct a as [| |x|x|x], b as [| |y|y|y]; cbn; split; intros H;
    try reflexivity; try discriminate.
  - apply Bool.eqb_prop in H. now subst.
  - injection H as ->. apply Bool.eqb_reflx.
  - apply Z.eqb_eq in H. now subst.
  - injection H as ->. apply Z.eqb_refl.
  - apply String_eqb_true in H. now subst.
  - injection H as ->. apply String.eqb_refl.
Qed.

Lemma setAdd_In (set : list JsValue) (v x : JsValue) :
  In x (GoogleSheetParser.setAdd set v) <-> In x set \/ x = v.
Proof.
  unfold GoogleSheetParser.setAdd.
  destruct (existsb (JsValue_eqb v) set) eqn:E.
  - split; [tauto|]. intros [H| ->]; [exact H|].
    apply existsb_exists in E as (y & Hy & Heq).
    apply JsValue_eqb_eq in Heq. now subst.
  - rewrite in_app_iff. cbn. split.
    + intros [H|[<-|[]]]; auto.
    + intros [H| ->]; auto.
Qed.

Lemma setAdd_NoDup (set : list JsValue) (v : JsValue) :
  NoDup set -> NoDup (GoogleSheetParser.setAdd set v).
Proof.
  intros Hnd. unfold GoogleSheetParser.setAdd.
  destruct (existsb (JsValue_eqb v) set) eqn:E; [exact Hnd|].
  apply NoDup_app. split; [exact Hnd|]. split; [|apply NoDup_singleton].
  intros x Hx Hv. apply list_elem_of_singleton in Hv. subst x.
  assert (Hex : existsb (JsValue_eqb v) set = true); [|congruence].
  apply existsb_exists. exists v.
  split; [now apply list_elem_of_In | now apply JsValue_eqb_eq].
Qed.

Lemma setAddAll_spec (values : list JsValue) :
  forall set,
    NoDup set ->
    NoDup (fold_left GoogleSheetParser.setAdd values set)
    /\ forall x, In x (fold_left GoogleSheetParser.setAdd values set)
                 <-> In x set \/ In x values.
Proof.
  induction values as [|v rest IH]; intros set Hnd.
  - split; [exact Hnd|]. intros x. cbn. tauto.
  - cbn [fold_left].
    destruct (IH _ (setAdd_NoDup set v Hnd)) as [Hnd' Hin].
    split; [exact Hnd'|]. intros x. rewrite Hin, setAdd_In. cbn.
    split; intros H; [destruct H as [[H|H]|H] | destruct H as [H|[H|H]]]; auto.
Qed.

Lemma pilotsOf_spec (ops : list Op.t) :
  forall names,
    NoDup names ->
    NoDup (pilotsOf ops names)
    /\ forall x, In x (pilotsOf ops names)
                 <-> In x names
                     \/ exists op member,
                          In op ops /\ In member (Op.members op)
                          /\ uniqueName member = x.
Proof.
  induction ops as [|op rest IH]; intros names Hnd.
  - split; [exact Hnd|]. intros x. cbn. split; [tauto|].
    intros [H|(op & m & [] & _)]. exact H.
  - unfold pilotsOf. cbn [fold_left]. fold (pilotsOf rest).
    destruct (setAddAll_spec (map uniqueName (Op.members op)) names Hnd)
      as [Hnd1 Hin1].
    destruct (IH _ Hnd1) as [Hnd2 Hin2].
    split; [exact Hnd2|]. intros x. rewrite Hin2, Hin1, in_map_iff.
    split.
    + intros [[H|(m & Hm & Hin)]|(op' & m & Hop & Hm & Hx)].
      * now left.
      * right. exists op, m. split; [left; reflexivity | split; assumption].
      * right. exists op', m. split; [right; exact Hop | split; assumption].
    + intros [H|(op' & m & [<-|Hop] & Hm & Hx)].
      * left. now left.
      * left. right. exists m. split; assumption.
      * right. exists op', m. split; [exact Hop | split; assumption].
Qed.

(** X12.  The first loop of [run] over the ops gathers each pilot once:
    the names it collects have no duplicates, and a value is among them
    exactly when it is the [uniqueName] of a member of one of the
    ops. *)
Theorem run_gathers_each_pilot_once (ops : list Op.t) (self : GoogleSheetParser.t) :
  let names := fst (fold_left GoogleSheetParser.registerOp ops ([], self)) in
  NoDup names
  /\ forall x, In x names
               <-> exists op member,
                     In op ops /\ In member (Op.members op)
                     /\ uniqueName member = x.
Proof.
  cbv zeta. destruct (registerOps_keeps ops [] self) as (-> & _ & _).
  destruct (pilotsOf_spec ops [] (NoDup_nil_2 : NoDup (@nil JsValue))) as [Hnd Hin].
  split; [exact Hnd|]. intros x. rewrite Hin. cbn. tauto.
Qed.

(** ** The replay never throws *)

Lemma replay_absent (memberName : JsValue) (ops : list Op.t) :
  Forall (fun op => Op.getMember op memberName = None) ops ->
  forall acc,
    foldM (GoogleSheetParser.parseMemberOp memberName) acc ops = Ok acc.
Proof.
  induction ops as [|op rest IH]; intros Habsent acc; [reflexivity|].
  apply Forall_cons in Habsent as [Hop Hrest].
  destruct acc as [[self c] b].
  assert (Hstep : GoogleSheetParser.parseMemberOp memberName (self, c, b) op
                  = Ok (self, c, b))
    by (unfold GoogleSheetParser.parseMemberOp; now rewrite Hop).
  cbn [foldM]. rewrite Hstep. cbn [mbind Result_bind].
  exact (IH Hrest _).
Qed.

Lemma getMember_absent (op : Op.t) (name : JsValue) :
  textOrMissing name = true ->
  namesAreTexts op = true ->
  absentFrom name op = true ->
  Op.getMember op name = None.
Proof.
  unfold Op.getMember, namesAreTexts, absentFrom. intros Hname.
  induction (Op.members op) as [|m rest IH]; intros Htexts Habsent;
    [reflexivity|].
  cbn [forallb] in Htexts, Habsent.
  apply andb_prop in Htexts as [Hm Hrest].
  apply andb_prop in Habsent as [Hno Hrest'].
  cbn [List.find]. rewrite (looseEq_sameName _ _ Hm Hname).
  apply negb_true_iff in Hno. rewrite Hno. exact (IH Hrest Hrest').
Qed.

(** X13.  For a pilot whose name, a text other than [__proto__] or a
    missing name, is the name of no member of any op (the names of the
    members being texts or missing as well), [parseMember] only sets
    the pilot's record, to an empty history and no award, and touches
    nothing else. *)
Theorem parseMember_absent_pilot (self : GoogleSheetParser.t)
        (memberName : JsValue) (ops : list Op.t) :
  textOrMissing memberName = true ->
  toString memberName <> "__proto__" ->
  Forall (fun op => namesAreTexts op = true /\ absentFrom memberName op = true) ops ->
  GoogleSheetParser.parseMember self memberName ops
  = Ok (GoogleSheetParser.putMember self memberName (mkOverallMember "" 0 0)).
Proof.
  intros Hname _ Habsent. unfold GoogleSheetParser.parseMember.
  rewrite (replay_absent memberName ops); [reflexivity|].
  eapply Forall_impl; [exact Habsent|].
  intros op [Htexts Hno]. now apply getMember_absent.
Qed.

Lemma parseMember_absent_pilot_witness :
  GoogleSheetParser.parseMember (GoogleSheetParser.new []) (VStr "goose")
                                [deadlyOp; uncountedOp]
  = Ok (GoogleSheetParser.putMember (GoogleSheetParser.new []) (VStr "goose")
          (mkOverallMember "" 0 0)).
Proof.
  apply (parseMember_absent_pilot (GoogleSheetParser.new []) (VStr "goose")
           [deadlyOp; uncountedOp]).
  - reflexivity.
  - discriminate.
  - constructor; [split; reflexivity|]. constructor; [split; reflexivity|].
    constructor.
Defined.

(** X14.  [run] throws exactly when loading the ops of a sheet throws,
    and then with the same error: once the ops are loaded, the replay
    of the pilots and the final filter cannot throw. *)
Theorem run_throws_only_while_loading (self : GoogleSheetParser.t) (e : JsError) :
  GoogleSheetParser.run self = Throw e
  <-> foldM GoogleSheetParser.loadSheet [] (GoogleSheetParser.sheetsByIndex self)
      = Throw e.
Proof.
  destruct (foldM GoogleSheetParser.loadSheet []
                  (GoogleSheetParser.sheetsByIndex self)) as [ops|e'] eqn:Hload.
  - destruct (run_history self ops Hload) as (self' & Hrun & _).
    rewrite Hrun. split; discriminate.
  - unfold GoogleSheetParser.run. rewrite Hload. cbn [mbind Result_bind].
    split; intros [= ->]; reflexivity.
Qed.

(** ** Streak arithmetic *)

Lemma countChange_all_NoChange (c : Change) (l : list Change) :
  Forall (fun x => x = NoChange) l -> c <> NoChange -> countChange c l = 0%nat.
Proof.
  intros Hall Hc. induction l as [|x rest IH]; [reflexivity|].
  apply Forall_cons in Hall as [-> Hrest].
  rewrite countChange_cons, (IH Hrest). destruct c; try reflexivity; congruence.
Qed.

(** X15.  Over a stretch of ops in which a pilot has no [Failed]
    classification of a kind and [p] [Passed] ones, entered with the
    rolling counter at [c0], the pilot gets [(c0 + p) / 5] awards of
    that kind and the counter ends at [(c0 + p) mod 5]. *)
Theorem awards_over_clean_stretch (kind : AwardKind) (memberName : JsValue)
        (self : GoogleSheetParser.t) (c b : Z) (m : OverallMember)
        (ops : list Op.t) :
  GoogleSheetParser.members self !! toString memberName = Some m ->
  0 <= c <= 4 -> 0 <= b <= 4 ->
  countChange Failed (map (changeOf kind memberName) ops) = 0%nat ->
  exists self' c' b',
    foldM (GoogleSheetParser.parseMemberOp memberName) (self, c, b) ops
    = Ok (self', c', b')
    /\ (let total :=
          counterOf kind (self, c, b)
          + Z.of_nat (countChange Passed (map (changeOf kind memberName) ops)) in
        counterOf kind (self', c', b') = total mod 5
        /\ awardsOf kind self' memberName
           = awardsOf kind self memberName + total / 5).
Proof.
  intros Hm Hc Hb Hfail.
  destruct (passes_accumulate kind memberName ops self c b m Hm Hc Hb Hfail)
    as (s2 & c2 & b2 & m2 & E & Hm2 & Hk2 & Ha2).
  exists s2, c2, b2. split; [exact E|]. cbv zeta.
  unfold awardsOf. rewrite Hm, Hm2. split; assumption.
Qed.

Lemma awards_over_clean_stretch_witness :
  exists self' c' b',
    foldM (GoogleSheetParser.parseMemberOp (VStr "maverick"))
          (GoogleSheetParser.putMember (GoogleSheetParser.new [])
             (VStr "maverick") (mkOverallMember "" 0 0), 3, 0)
          tenOps
    = Ok (self', c', b')
    /\ c' = 3
    /\ awardsOf NoDeathStreak self' (VStr "maverick") = 2.
Proof.
  destruct (awards_over_clean_stretch NoDeathStreak (VStr "maverick")
              (GoogleSheetParser.putMember (GoogleSheetParser.new [])
                 (VStr "maverick") (mkOverallMember "" 0 0))
              3 0 (mkOverallMember "" 0 0) tenOps)
    as (self' & c' & b' & E & Hc & Ha);
    [apply lookup_insert_eq | lia | lia | vm_compute; reflexivity |].
  exists self', c', b'. split; [exact E|].
  split; [exact Hc | rewrite Ha; vm_compute; reflexivity].
Defined.

(** X16.  When the config of every op switches a kind of award off (the
    flag is [false], [null], 0 or the empty text), the replay of a
    pilot leaves the rolling counter of that kind where it was and
    hands out no award of that kind, whatever the cells of the pilot
    hold. *)
Theorem disabled_kind_never_awards (kind : AwardKind) (memberName : JsValue)
        (self : GoogleSheetParser.t) (c b : Z) (m : OverallMember)
        (ops : list Op.t) :
  GoogleSheetParser.members self !! toString memberName = Some m ->
  0 <= c <= 4 -> 0 <= b <= 4 ->
  Forall (fun op => truthy (flagOf kind (Op.config op)) = false) ops ->
  exists self' c' b',
    foldM (GoogleSheetParser.parseMemberOp memberName) (self, c, b) ops
    = Ok (self', c', b')
    /\ counterOf kind (self', c', b') = counterOf kind (self, c, b)
    /\ awardsOf kind self' memberName = awardsOf kind self memberName.
Proof.
  intros Hm Hc Hb Hoff.
  assert (Hall : Forall (fun x => x = NoChange) (map (changeOf kind memberName) ops)).
  { apply Forall_forall. intros x Hx. apply list_elem_of_In, in_map_iff in Hx
      as (op & <- & Hop).
    rewrite Forall_forall in Hoff. specialize (Hoff op).
    rewrite list_elem_of_In in Hoff. specialize (Hoff Hop).
    unfold changeOf. destruct (Op.getMember op memberName); [|reflexivity].
    destruct kind; cbn [flagOf] in Hoff; rewrite Hoff; reflexivity. }
  destruct (passes_accumulate kind memberName ops self c b m Hm Hc Hb
              (countChange_all_NoChange Failed _ Hall ltac:(discriminate)))
    as (s2 & c2 & b2 & m2 & E & Hm2 & Hk2 & Ha2).
  rewrite (countChange_all_NoChange Passed _ Hall ltac:(discriminate)) in Hk2, Ha2.
  pose proof (counterOf_bounds kind self c b Hc Hb) as Hk.
  exists s2, c2, b2. split; [exact E|].
  unfold awardsOf. rewrite Hm, Hm2.
  split; [rewrite Hk2 | rewrite Ha2]; Z.div_mod_to_equations; lia.
Qed.

Lemma disabled_kind_never_awards_witness :
  exists self' c' b',
    foldM (GoogleSheetParser.parseMemberOp (VStr "maverick"))
          (GoogleSheetParser.putMember (GoogleSheetParser.new [])
             (VStr "maverick") (mkOverallMember "" 0 0), 0, 4)
          [uncountedOp]
    = Ok (self', c', b')
    /\ b' = 4
    /\ awardsOf NoBolterStreak self' (VStr "maverick") = 0.
Proof.
  apply (disabled_kind_never_awards NoBolterStreak (VStr "maverick")
           (GoogleSheetParser.putMember (GoogleSheetParser.new [])
              (VStr "maverick") (mkOverallMember "" 0 0))
           0 4 (mkOverallMember "" 0 0) [uncountedOp]);
    [apply lookup_insert_eq | lia | lia | repeat constructor].
Defined.

(** ** What a replay writes does not depend on what it finds *)

Lemma logExtends_refl (names : list string) (L : gmap string string) :
  logExtends names L L.
Proof.
  split; [|auto]. intros k v Hk. exists "". now rewrite string_app_nil_r.
Qed.

Lemma logExtends_trans (names : list string) (L1 L2 L3 : gmap string string) :
  logExtends names L1 L2 -> logExtends names L2 L3 -> logExtends names L1 L3.
Proof.
  intros [Ha Hb] [Ha' Hb']. split.
  - intros k v Hk. destruct (Ha k v Hk) as [x Hx].
    destruct (Ha' k _ Hx) as [y Hy]. exists (x ++ y).
    now rewrite <- string_app_assoc.
  - intros k Hk Hn. apply Hb'; [apply Hb|]; assumption.
Qed.

Lemma logExtends_weaken (names names' : list string) (L L' : gmap string string) :
  (forall k, In k names -> In k names') ->
  logExtends names L L' -> logExtends names' L L'.
Proof.
  intros Hsub [Ha Hb]. split; [exact Ha|].
  intros k Hk Hn. apply Hb; [exact Hk|]. intros Hin. apply Hn, Hsub, Hin.
Qed.

Lemma logExtends_append (L : gmap string string) (n text : string) :
  logExtends [n] L (<[n := default "undefined" (L !! n) ++ text]> L).
Proof.
  split.
  - intros k v Hk. destruct (decide (n = k)) as [->|Hne].
    + rewrite lookup_insert_eq, Hk. exists text. reflexivity.
    + rewrite lookup_insert_ne by exact Hne. exists "".
      now rewrite string_app_nil_r.
  - intros k Hk Hn. rewrite lookup_insert_ne; [exact Hk|].
    intros ->. apply Hn. left. reflexivity.
Qed.

Section Uniform.

Variable memberName : JsValue.

Lemma awardWithoutDeath_uniform (op : Op.t) (member : OpMember) (m : OverallMember) :
  exists m' text,
    forall self,
      GoogleSheetParser.members self !! toString memberName = Some m ->
      exists self',
        GoogleSheetParser.awardWithoutDeath self memberName op member = Ok self'
        /\ GoogleSheetParser.members self'
           = <[toString memberName := m']> (GoogleSheetParser.members self)
        /\ GoogleSheetParser.opAchievementLog self'
           = <[Op.name op :=
                 default "undefined"
                         (GoogleSheetParser.opAchievementLog self !! Op.name op)
                 ++ text]> (GoogleSheetParser.opAchievementLog self).
Proof.
  do 2 eexists. intros self Hm.
  unfold GoogleSheetParser.awardWithoutDeath, GoogleSheetParser.memberOf.
  cbn. rewrite Hm. cbn. rewrite lookup_insert_eq. cbn.
  eexists. split; [reflexivity|]. cbn. split; reflexivity.
Qed.

Lemma awardWithoutBolter_uniform (op : Op.t) (member : OpMember) (m : OverallMember) :
  exists m' text,
    forall self,
      GoogleSheetParser.members self !! toString memberName = Some m ->
      exists self',
        GoogleSheetParser.awardWithoutBolter self memberName op member = Ok self'
        /\ GoogleSheetParser.members self'
           = <[toString memberName := m']> (GoogleSheetParser.members self)
        /\ GoogleSheetParser.opAchievementLog self'
           = <[Op.name op :=
                 default "undefined"
                         (GoogleSheetParser.opAchievementLog self !! Op.name op)
                 ++ text]> (GoogleSheetParser.opAchievementLog self).
Proof.
  do 2 eexists. intros self Hm.
  unfold GoogleSheetParser.awardWithoutBolter, GoogleSheetParser.memberOf.
  cbn. rewrite Hm. cbn. rewrite lookup_insert_eq. cbn.
  eexists. split; [reflexivity|]. cbn. split; reflexivity.
Qed.

Lemma log_uniform (message : string) (m : OverallMember) :
  exists m',
    forall self,
      GoogleSheetParser.members self !! toString memberName = Some m ->
      exists self',
        GoogleSheetParser.log self memberName message = Ok self'
        /\ GoogleSheetParser.members self'
           = <[toString memberName := m']> (GoogleSheetParser.members self)
        /\ GoogleSheetParser.opAchievementLog self'
           = GoogleSheetParser.opAchievementLog self.
Proof.
  eexists. intros self Hm.
  unfold GoogleSheetParser.log, GoogleSheetParser.memberOf.
  rewrite Hm. cbn. eexists. split; [reflexivity|]. cbn. split; reflexivity.
Qed.

(** What one op of the replay writes is fixed by the pilot's record and
    the two counters: the new record and the text added to the log of
    the op are the same whatever the rest of the instance holds. *)
Lemma parseMemberOp_uniform (c b : Z) (op : Op.t) (m : OverallMember) :
  exists m' c' b' (F : gmap string string -> gmap string string),
    (forall L, logExtends [Op.name op] L (F L))
    /\ forall self,
        GoogleSheetParser.members self !! toString memberName = Some m ->
        exists self',
          GoogleSheetParser.parseMemberOp memberName (self, c, b) op
          = Ok (self', c', b')
          /\ GoogleSheetParser.members self'
             = <[toString memberName := m']> (GoogleSheetParser.members self)
          /\ GoogleSheetParser.opAchievementLog self'
             = F (GoogleSheetParser.opAchievementLog self).
Proof.
  unfold GoogleSheetParser.parseMemberOp.
  destruct (Op.getMember op memberName) as [member|].
  2:{ exists m, c, b, (fun L => L). split; [intros L; apply logExtends_refl|].
      intros self Hm. exists self. split; [reflexivity|].
      split; [symmetry; now apply insert_id | reflexivity]. }
  assert (Hshape :
    forall (c1 b1 : Z) (dl bl : string),
    exists m' c' b' (F : gmap string string -> gmap string string),
      (forall L, logExtends [Op.name op] L (F L))
      /\ forall self,
          GoogleSheetParser.members self !! toString memberName = Some m ->
          exists self',
            ('(self1, opsWithoutDeath2, achievements1) ←
               (if 5 <=? c1
                then self' ← GoogleSheetParser.awardWithoutDeath self memberName op member;
                     Ok (self', 0, "[FIVE OPS WITHOUT DEATH] ")
                else Ok (self, c1, ""));
             '(self2, opsWithoutBolter2, achievements2) ←
               (if 5 <=? b1
                then self' ← GoogleSheetParser.awardWithoutBolter self1 memberName op member;
                     Ok (self', 0, achievements1 ++ "[FIVE OPS WITHOUT BOLTER]")
                else Ok (self1, b1, achievements1));
             self3 ← GoogleSheetParser.log self2 memberName
                       (Op.name op ++ ": " ++ dl ++ " " ++ bl
                          ++ " Wire: " ++ GoogleSheetParser.orNA (wire member)
                          ++ " Remarks: " ++ GoogleSheetParser.orNA (remarks member)
                          ++ " " ++ achievements2);
             Ok (self3, opsWithoutDeath2, opsWithoutBolter2))
            = Ok (self', c', b')
            /\ GoogleSheetParser.members self'
               = <[toString memberName := m']> (GoogleSheetParser.members self)
            /\ GoogleSheetParser.opAchievementLog self'
               = F (GoogleSheetParser.opAchievementLog self)).
  { intros c1 b1 dl bl.
    destruct (awardWithoutDeath_uniform op member m) as (md & td & Hd).
    destruct (5 <=? c1).
    - destruct (awardWithoutBolter_uniform op member md) as (mb & tb & Hb).
      destruct (5 <=? b1).
      + destruct (log_uniform
                    (Op.name op ++ ": " ++ dl ++ " " ++ bl
                       ++ " Wire: " ++ GoogleSheetParser.orNA (wire member)
                       ++ " Remarks: " ++ GoogleSheetParser.orNA (remarks member)
                       ++ " " ++ "[FIVE OPS WITHOUT DEATH] "
                       ++ "[FIVE OPS WITHOUT BOLTER]") mb) as (ml & Hl).
        exists ml, 0, 0,
          (fun L => let L1 := <[Op.name op :=
                                  default "undefined" (L !! Op.name op) ++ td]> L in
                    <[Op.name op := default "undefined" (L1 !! Op.name op) ++ tb]> L1).
        split.
        { intros L. cbv zeta.
          eapply logExtends_trans; apply logExtends_append. }
        intros self Hm.
        destruct (Hd self Hm) as (s1 & E1 & M1 & L1). rewrite E1.
        cbn [mbind Result_bind].
        destruct (Hb s1) as (s2 & E2 & M2 & L2);
          [rewrite M1; apply lookup_insert_eq|].
        rewrite E2. cbn [mbind Result_bind].
        destruct (Hl s2) as (s3 & E3 & M3 & L3);
          [rewrite M2; apply lookup_insert_eq|].
        rewrite E3. cbn [mbind Result_bind].
        exists s3. split; [reflexivity|].
        split; [now rewrite M3, M2, M1, !insert_insert_eq|].
        now rewrite L3, L2, L1.
      + destruct (log_uniform
                    (Op.name op ++ ": " ++ dl ++ " " ++ bl
                       ++ " Wire: " ++ GoogleSheetParser.orNA (wire member)
                       ++ " Remarks: " ++ GoogleSheetParser.orNA (remarks member)
                       ++ " " ++ "[FIVE OPS WITHOUT DEATH] ") md) as (ml & Hl).
        exists ml, 0, b1,
          (fun L => <[Op.name op := default "undefined" (L !! Op.name op) ++ td]> L).
        split; [intros L; apply logExtends_append|].
        intros self Hm.
        destruct (Hd self Hm) as (s1 & E1 & M1 & L1). rewrite E1.
        cbn [mbind Result_bind].
        destruct (Hl s1) as (s3 & E3 & M3 & L3);
          [rewrite M1; apply lookup_insert_eq|].
        rewrite E3. cbn [mbind Result_bind].
        exists s3. split; [reflexivity|].
        split; [now rewrite M3, M1, !insert_insert_eq|].
        now rewrite L3, L1.
    - destruct (awardWithoutBolter_uniform op member m) as (mb & tb & Hb).
      destruct (5 <=? b1).
      + destruct (log_uniform
                    (Op.name op ++ ": " ++ dl ++ " " ++ bl
                       ++ " Wire: " ++ GoogleSheetParser.orNA (wire member)
                       ++ " Remarks: " ++ GoogleSheetParser.orNA (remarks member)
                       ++ " " ++ "" ++ "[FIVE OPS WITHOUT BOLTER]") mb) as (ml & Hl).
        exists ml, c1, 0,
          (fun L => <[Op.name op := default "undefined" (L !! Op.name op) ++ tb]> L).
        split; [intros L; apply logExtends_append|].
        intros self Hm. cbn [mbind Result_bind].
        destruct (Hb self Hm) as (s2 & E2 & M2 & L2). rewrite E2.
        cbn [mbind Result_bind].
        destruct (Hl s2) as (s3 & E3 & M3 & L3);
          [rewrite M2; apply lookup_insert_eq|].
        rewrite E3. cbn [mbind Result_bind].
        exists s3. split; [reflexivity|].
        split; [now rewrite M3, M2, !insert_insert_eq|].
        now rewrite L3, L2.
      + destruct (log_uniform
                    (Op.name op ++ ": " ++ dl ++ " " ++ bl
                       ++ " Wire: " ++ GoogleSheetParser.orNA (wire member)
                       ++ " Remarks: " ++ GoogleSheetParser.orNA (remarks member)
                       ++ " " ++ "") m) as (ml & Hl).
        exists ml, c1, b1, (fun L => L).
        split; [intros L; apply logExtends_refl|].
        intros self Hm. cbn [mbind Result_bind].
        destruct (Hl self Hm) as (s3 & E3 & M3 & L3).
        rewrite E3. cbn [mbind Result_bind].
        exists s3. split; [reflexivity|]. split; assumption. }
  destruct (parseEvent (combatDeaths member) _);
    destruct (parseEvent (bolters member) _); apply Hshape.
Qed.

Lemma replay_uniform (ops : list Op.t) :
  forall (c b : Z) (m : OverallMember),
  exists m' c' b' (F : gmap string string -> gmap string string),
    (forall L, logExtends (map Op.name ops) L (F L))
    /\ forall self,
        GoogleSheetParser.members self !! toString memberName = Some m ->
        exists self',
          foldM (GoogleSheetParser.parseMemberOp memberName) (self, c, b) ops
          = Ok (self', c', b')
          /\ GoogleSheetParser.members self'
             = <[toString memberName := m']> (GoogleSheetParser.members self)
          /\ GoogleSheetParser.opAchievementLog self'
             = F (GoogleSheetParser.opAchievementLog self).
Proof.
  induction ops as [|op rest IH]; intros c b m.
  - exists m, c, b, (fun L => L). split; [intros L; apply logExtends_refl|].
    intros self Hm. exists self. split; [reflexivity|].
    split; [symmetry; now apply insert_id | reflexivity].
  - destruct (parseMemberOp_uniform c b op m) as (m1 & c1 & b1 & F1 & HF1 & H1).
    destruct (IH c1 b1 m1) as (m2 & c2 & b2 & F2 & HF2 & H2).
    exists m2, c2, b2, (fun L => F2 (F1 L)). split.
    + intros L. eapply logExtends_trans.
      * eapply logExtends_weaken; [|apply HF1]. intros k [<-|[]]. left. reflexivity.
      * eapply logExtends_weaken; [|apply HF2]. intros k Hk. right. exact Hk.
    + intros self Hm. destruct (H1 self Hm) as (s1 & E1 & M1 & L1).
      destruct (H2 s1) as (s2 & E2 & M2 & L2);
        [rewrite M1; apply lookup_insert_eq|].
      exists s2. cbn [foldM]. rewrite E1. cbn [mbind Result_bind].
      split; [exact E2|].
      split; [now rewrite M2, M1, insert_insert_eq | now rewrite L2, L1].
Qed.

Lemma parseMember_uniform (ops : list Op.t) :
  exists m' (F : gmap string string -> gmap string string),
    (forall L, logExtends (map Op.name ops) L (F L))
    /\ forall self,
        exists self',
          GoogleSheetParser.parseMember self memberName ops = Ok self'
          /\ GoogleSheetParser.members self'
             = <[toString memberName := m']> (GoogleSheetParser.members self)
          /\ GoogleSheetParser.opAchievementLog self'
             = F (GoogleSheetParser.opAchievementLog self).
Proof.
  destruct (replay_uniform ops 0 0 (mkOverallMember "" 0 0))
    as (m' & c' & b' & F & HF & H).
  exists m', F. split; [exact HF|]. intros self.
  destruct (H (GoogleSheetParser.putMember self memberName (mkOverallMember "" 0 0)))
    as (self' & E & M & L); [cbn; apply lookup_insert_eq|].
  exists self'. unfold GoogleSheetParser.parseMember. rewrite E.
  cbn [mbind Result_bind]. split; [reflexivity|].
  split; [rewrite M; cbn; apply insert_insert_eq | exact L].
Qed.

End Uniform.

Lemma parseMembers_uniform (ops : list Op.t) (names : list JsValue) :
  exists (written : list (string * OverallMember))
         (F : gmap string string -> gmap string string),
    (forall L, logExtends (map Op.name ops) L (F L))
    /\ forall self,
        exists self',
          foldM (fun s member => GoogleSheetParser.parseMember s member ops) self names
          = Ok self'
          /\ GoogleSheetParser.members self'
             = insertAll written (GoogleSheetParser.members self)
          /\ GoogleSheetParser.opAchievementLog self'
             = F (GoogleSheetParser.opAchievementLog self).
Proof.
  induction names as [|memberName rest IH].
  - exists [], (fun L => L). split; [intros L; apply logExtends_refl|].
    intros self. exists self. repeat split.
  - destruct (parseMember_uniform memberName ops) as (m1 & F1 & HF1 & H1).
    destruct IH as (written & F2 & HF2 & H2).
    exists ((toString memberName, m1) :: written), (fun L => F2 (F1 L)). split.
    + intros L. eapply logExtends_trans; [apply HF1 | apply HF2].
    + intros self. destruct (H1 self) as (s1 & E1 & M1 & L1).
      destruct (H2 s1) as (s2 & E2 & M2 & L2).
      exists s2. cbn [foldM]. rewrite E1. cbn [mbind Result_bind].
      split; [exact E2|].
      split; [now rewrite M2, M1 | now rewrite L2, L1].
Qed.

Lemma registerOps_log (ops : list Op.t) :
  forall (names : list JsValue) (self : GoogleSheetParser.t),
    GoogleSheetParser.opAchievementLog
      (snd (fold_left GoogleSheetParser.registerOp ops (names, self)))
    = insertAll (opHeaders ops) (GoogleSheetParser.opAchievementLog self)
    /\ GoogleSheetParser.members
         (snd (fold_left GoogleSheetParser.registerOp ops (names, self)))
       = GoogleSheetParser.members self.
Proof.
  induction ops as [|op rest IH]; intros names self; [split; reflexivity|].
  cbn [fold_left GoogleSheetParser.registerOp].
  destruct (IH (fold_left GoogleSheetParser.setAdd
                          (map uniqueName (Op.members op)) names)
               (GoogleSheetParser.set_opAchievementLog self
                  (<[Op.name op := "------ " ++ Op.name op ++ " ------" ++ nl]>
                     (GoogleSheetParser.opAchievementLog self))))
    as [Hl Hm].
  split; [rewrite Hl; reflexivity | rewrite Hm; reflexivity].
Qed.

Lemma insertAll_union {V : Type} (l : list (string * V)) :
  forall m : gmap string V, insertAll l m = list_to_map (rev l) ∪ m.
Proof.
  induction l as [|[k v] rest IH]; intros m.
  - cbn. now rewrite (left_id_L ∅ (∪)).
  - unfold insertAll. cbn [fold_left fst snd]. fold (insertAll rest (<[k:=v]> m)).
    rewrite IH. cbn [rev]. rewrite list_to_map_app. cbn [list_to_map foldr].
    rewrite <- (assoc_L (∪)). f_equal.
    rewrite <- insert_union_l, (left_id_L ∅ (∪)). reflexivity.
Qed.

Lemma insertAll_twice {V : Type} (l : list (string * V)) (m : gmap string V) :
  insertAll l (insertAll l m) = insertAll l m.
Proof.
  rewrite !insertAll_union. apply map_eq. intros k.
  rewrite !lookup_union.
  destruct (list_to_map (rev l) !! k), (m !! k); reflexivity.
Qed.

Lemma rev_keys_In {V : Type} (l : list (string * V)) (k : string) :
  k ∈ (rev l).*1 <-> In k (map fst l).
Proof.
  rewrite list_elem_of_fmap, in_map_iff. split.
  - intros (y & -> & Hy). exists y. split; [reflexivity|].
    apply list_elem_of_In in Hy. now apply in_rev.
  - intros (y & <- & Hy). exists y. split; [reflexivity|].
    apply list_elem_of_In. now apply in_rev in Hy.
Qed.

Lemma insertAll_absorbs {V : Type} (l : list (string * V)) (m : gmap string V) :
  (forall k, ~ In k (map fst l) -> m !! k = None) ->
  insertAll l m = insertAll l ∅.
Proof.
  intros Hm. rewrite !insertAll_union. apply map_eq. intros k.
  rewrite !lookup_union, lookup_empty.
  destruct (list_to_map (rev l) !! k) eqn:E; [destruct (m !! k); reflexivity|].
  rewrite Hm; [reflexivity|].
  apply not_elem_of_list_to_map in E. intros Hin. apply E.
  now apply rev_keys_In.
Qed.

Lemma insertAll_lookup_None {V : Type} (l : list (string * V)) (k : string) :
  ~ In k (map fst l) -> insertAll l (∅ : gmap string V) !! k = None.
Proof.
  intros Hk. rewrite insertAll_union, lookup_union, lookup_empty.
  assert (E : (list_to_map (rev l) : gmap string V) !! k = None);
    [|rewrite E; reflexivity].
  apply not_elem_of_list_to_map. intros Hin. apply Hk.
  now apply rev_keys_In.
Qed.

Lemma opHeaders_keys (ops : list Op.t) : map fst (opHeaders ops) = map Op.name ops.
Proof.
  unfold opHeaders. induction ops as [|op rest IH]; [reflexivity|].
  cbn [map fst]. now rewrite IH.
Qed.

(** What [run] leaves in [members] and [opAchievementLog], given the ops
    it loads: assignments and additions that do not depend on what the
    two fields held, made on a log in which every op has its header. *)
Lemma run_writes (ops : list Op.t) :
  exists (written : list (string * OverallMember))
         (F : gmap string string -> gmap string string),
    (forall L, logExtends (map Op.name ops) L (F L))
    /\ forall self,
        foldM GoogleSheetParser.loadSheet [] (GoogleSheetParser.sheetsByIndex self)
        = Ok ops ->
        exists self',
          GoogleSheetParser.run self
          = Ok (None, self', map GoogleSheetParser.stripOp ops)
          /\ GoogleSheetParser.sheetsByIndex self'
             = GoogleSheetParser.sheetsByIndex self
          /\ GoogleSheetParser.members self'
             = insertAll written (GoogleSheetParser.members self)
          /\ GoogleSheetParser.opAchievementLog self'
             = F (insertAll (opHeaders ops) (GoogleSheetParser.opAchievementLog self)).
Proof.
  destruct (parseMembers_uniform ops (pilotsOf ops [])) as (written & F & HF & H).
  exists written, F. split; [exact HF|]. intros self Hload.
  destruct (run_history self ops Hload) as (self' & Hrun & Hsheets & _).
  exists self'. split; [exact Hrun|]. split; [exact Hsheets|].
  unfold GoogleSheetParser.run in Hrun. rewrite Hload in Hrun.
  cbn [mbind Result_bind] in Hrun.
  destruct (registerOps_keeps ops [] self) as (Hn & _ & _).
  destruct (registerOps_log ops [] self) as (Hl & Hm).
  destruct (fold_left GoogleSheetParser.registerOp ops ([], self))
    as [names self1]. cbn [fst snd] in Hn, Hl, Hm. subst names.
  destruct (H self1) as (s2 & E & M & L). rewrite E in Hrun.
  cbn [mbind Result_bind] in Hrun. injection Hrun as <-.
  split; [now rewrite M, Hm | now rewrite L, Hl].
Qed.

(** X17.  After a first [run] on a new instance, a second [run] on the
    same instance and the same sheets completes, writes the same ops and
    leaves [members] and [opAchievementLog] exactly as the first run
    left them. *)
Theorem second_run_keeps_members_and_log (sheets : list Sheet)
        (result : option SheetParseResult) (self1 : GoogleSheetParser.t)
        (ops1 : list Op.t) :
  GoogleSheetParser.run (GoogleSheetParser.new sheets) = Ok (result, self1, ops1) ->
  exists self2,
    GoogleSheetParser.run self1 = Ok (None, self2, ops1)
    /\ GoogleSheetParser.members self2 = GoogleSheetParser.members self1
    /\ GoogleSheetParser.opAchievementLog self2
       = GoogleSheetParser.opAchievementLog self1.
Proof.
  intros Hrun.
  destruct (foldM GoogleSheetParser.loadSheet [] sheets) as [ops|e] eqn:Hload.
  2:{ unfold GoogleSheetParser.run in Hrun. cbn in Hrun. rewrite Hload in Hrun.
      discriminate Hrun. }
  destruct (run_writes ops) as (written & F & HF & H).
  destruct (H (GoogleSheetParser.new sheets) Hload) as (s1 & E1 & S1 & M1 & L1).
  rewrite Hrun in E1. injection E1 as _ <- ->. cbn in S1, M1, L1.
  destruct (H self1) as (s2 & E2 & _ & M2 & L2); [rewrite S1; exact Hload|].
  exists s2. split; [exact E2|]. split.
  - rewrite M2, M1. apply insertAll_twice.
  - rewrite L2, L1. f_equal. apply insertAll_absorbs.
    intros k Hk. rewrite opHeaders_keys in Hk.
    apply (proj2 (HF _)); [|exact Hk].
    apply insertAll_lookup_None. now rewrite opHeaders_keys.
Qed.

Lemma second_run_keeps_members_and_log_witness :
  exists self1 ops1 self2,
    GoogleSheetParser.run (GoogleSheetParser.new [oneOpSheet]) = Ok (None, self1, ops1)
    /\ GoogleSheetParser.run self1 = Ok (None, self2, ops1)
    /\ GoogleSheetParser.members self2 = GoogleSheetParser.members self1
    /\ GoogleSheetParser.opAchievementLog self2
       = GoogleSheetParser.opAchievementLog self1.
Proof.
  assert (E : exists self1 ops1,
             GoogleSheetParser.run (GoogleSheetParser.new [oneOpSheet])
             = Ok (None, self1, ops1)).
  { do 2 eexists. vm_compute. reflexivity. }
  destruct E as (self1 & ops1 & Hrun).
  destruct (second_run_keeps_members_and_log [oneOpSheet] None self1 ops1 Hrun)
    as (self2 & H2 & Hm & Hl).
  exists self1, ops1, self2. repeat split; assumption.
Defined.

Lemma opHeaders_lookup (ops : list Op.t) (L : gmap string string) (op : Op.t) :
  In op ops ->
  insertAll (opHeaders ops) L !! Op.name op = Some (opHeader (Op.name op)).
Proof.
  intros Hop. rewrite insertAll_union, lookup_union.
  destruct ((list_to_map (rev (opHeaders ops)) : gmap string string) !! Op.name op)
    as [v|] eqn:E.
  - apply elem_of_list_to_map_2, list_elem_of_In, in_rev in E.
    unfold opHeaders in E. apply in_map_iff in E as (o & Heq & _).
    injection Heq as Hname <-. rewrite Hname.
    destruct (L !! Op.name op); reflexivity.
  - exfalso. apply not_elem_of_list_to_map in E. apply E, rev_keys_In.
    rewrite opHeaders_keys. apply in_map_iff. exists op. split; [reflexivity | exact Hop].
Qed.

(** X18.  After a [run] that completes, the log of every op that was
    written starts with the header line of the op. *)
Theorem run_logs_start_with_header (self : GoogleSheetParser.t)
        (result : option SheetParseResult) (self' : GoogleSheetParser.t)
        (ops : list Op.t) (op : Op.t) :
  GoogleSheetParser.run self = Ok (result, self', ops) ->
  In op ops ->
  exists rest,
    GoogleSheetParser.opAchievementLog self' !! Op.name op
    = Some (opHeader (Op.name op) ++ rest).
Proof.
  intros Hrun Hop.
  destruct (foldM GoogleSheetParser.loadSheet []
                  (GoogleSheetParser.sheetsByIndex self)) as [loaded|e] eqn:Hload.
  2:{ unfold GoogleSheetParser.run in Hrun. rewrite Hload in Hrun.
      discriminate Hrun. }
  destruct (run_writes loaded) as (written & F & HF & H).
  destruct (H self Hload) as (s1 & E1 & _ & _ & L1).
  rewrite Hrun in E1. injection E1 as _ <- ->.
  apply in_map_iff in Hop as (op0 & <- & Hop0).
  change (Op.name (GoogleSheetParser.stripOp op0)) with (Op.name op0).
  rewrite L1. apply (proj1 (HF _)). now apply opHeaders_lookup.
Qed.

Lemma run_logs_start_with_header_witness :
  exists self' ops op rest,
    GoogleSheetParser.run (GoogleSheetParser.new [oneOpSheet]) = Ok (None, self', ops)
    /\ In op ops
    /\ GoogleSheetParser.opAchievementLog self' !! Op.name op
       = Some (opHeader (Op.name op) ++ rest).
Proof.
  assert (E : exists self' op,
             GoogleSheetParser.run (GoogleSheetParser.new [oneOpSheet])
             = Ok (None, self', [op])).
  { do 2 eexists. vm_compute. reflexivity. }
  destruct E as (self' & op & Hrun).
  destruct (run_logs_start_with_header _ _ _ _ op Hrun (or_introl eq_refl))
    as (rest & Hrest).
  exists self', [op], op, rest.
  split; [exact Hrun|]. split; [left; reflexivity | exact Hrest].
Defined.

(** X19.  [run] never changes [sheetsByIndex] and never rewrites the
    [achievementHistory] it finds: what the instance held before the run
    is the beginning of what it holds after. *)
Theorem run_only_appends_history (self : GoogleSheetParser.t)
        (result : option SheetParseResult) (self' : GoogleSheetParser.t)
        (ops : list Op.t) :
  GoogleSheetParser.run self = Ok (result, self', ops) ->
  GoogleSheetParser.sheetsByIndex self' = GoogleSheetParser.sheetsByIndex self
  /\ exists added,
      GoogleSheetParser.achievementHistory self'
      = GoogleSheetParser.achievementHistory self ++ added.
Proof.
  intros Hrun.
  destruct (foldM GoogleSheetParser.loadSheet []
                  (GoogleSheetParser.sheetsByIndex self)) as [loaded|e] eqn:Hload.
  2:{ unfold GoogleSheetParser.run in Hrun. rewrite Hload in Hrun.
      discriminate Hrun. }
  destruct (run_history self loaded Hload) as (s1 & E1 & Hs & Hh).
  rewrite Hrun in E1. injection E1 as _ <- _.
  split; [exact Hs|]. eexists. exact Hh.
Qed.

Lemma run_only_appends_history_witness :
  exists self' ops added,
    GoogleSheetParser.run
      (GoogleSheetParser.mk [fiveOpsSheet] ∅ "Earlier line" ∅)
    = Ok (None, self', ops)
    /\ GoogleSheetParser.achievementHistory self' = "Earlier line" ++ added.
Proof.
  assert (E : exists self' ops,
             GoogleSheetParser.run
               (GoogleSheetParser.mk [fiveOpsSheet] ∅ "Earlier line" ∅)
             = Ok (None, self', ops)).
  { do 2 eexists. vm_compute. reflexivity. }
  destruct E as (self' & ops & Hrun).
  destruct (run_only_appends_history _ _ _ _ Hrun) as (_ & added & Hadded).
  exists self', ops, added. split; [exact Hrun | exact Hadded].
Defined.

Lemma run_throws_only_while_loading_witness :
  GoogleSheetParser.run (GoogleSheetParser.new [headerFirstSheet])
  = Throw (CellOutOfBounds (-1) 0).
Proof.
  apply (proj2 (run_throws_only_while_loading
                  (GoogleSheetParser.new [headerFirstSheet])
                  (CellOutOfBounds (-1) 0))).
  reflexivity.
Defined.

Lemma run_gathers_each_pilot_once_witness :
  In (VStr "maverick")
     (fst (fold_left GoogleSheetParser.registerOp [deadlyOp; uncountedOp]
                     ([], GoogleSheetParser.new []))).
Proof.
  apply (proj2 (run_gathers_each_pilot_once [deadlyOp; uncountedOp]
                  (GoogleSheetParser.new []))).
  do 2 eexists. split; [left; reflexivity|]. split; [left; reflexivity|].
  reflexivity.
Defined.

(** ** Identity keys are lower-case *)

Lemma lowerChar_twice (c : ascii) : lowerChar (lowerChar c) = lowerChar c.
Proof.
  destruct c as [[] [] [] [] [] [] [] []]; reflexivity.
Qed.

Lemma toLowerCase_twice (s : string) : toLowerCase (toLowerCase s) = toLowerCase s.
Proof.
  induction s as [|c s IH]; [reflexivity|].
  cbn [toLowerCase]. now rewrite lowerChar_twice, IH.
Qed.

Lemma parseOpMemberRow_key (sh : Sheet) (row : nat) (mapping : ColumnMap)
      (member : OpMember) :
  Op.parseOpMemberRow sh row mapping = Ok member ->
  truthy (uniqueName member) = false
  \/ exists s, displayName member = VStr s
               /\ uniqueName member = VStr (toLowerCase s).
Proof.
  unfold Op.parseOpMemberRow. intros H.
  apply bind_Ok_inv in H as (raw & _ & H).
  destruct (truthy (uniqueName raw)) eqn:Htruthy.
  - destruct raw as [u d cs t b w l cd p r]. cbn [uniqueName setField] in H, Htruthy.
    destruct u as [| |x|n|s]; cbn [callToLowerCase mbind Result_bind] in H;
      try discriminate H.
    injection H as <-. right. exists s. split; reflexivity.
  - injection H as <-. left. exact Htruthy.
Qed.

Lemma loadRows_members (P : OpMember -> Prop) (sh : Sheet) (columnMap : ColumnMap)
      (rows : list nat) :
  (forall row member,
      Op.parseOpMemberRow sh row columnMap = Ok member -> P member) ->
  forall acc result,
    Op.loadRows sh columnMap rows acc = Ok result ->
    Forall P acc -> Forall P result.
Proof.
  intros Hrow. induction rows as [|row rest IH]; intros acc result Hload Hacc.
  - injection Hload as <-. exact Hacc.
  - cbn [Op.loadRows] in Hload.
    apply bind_Ok_inv in Hload as (stop & _ & Hload).
    destruct stop; [injection Hload as <-; exact Hacc|].
    apply bind_Ok_inv in Hload as (member & Hmember & Hload).
    apply (IH _ _ Hload). apply Forall_app. split; [exact Hacc|].
    constructor; [exact (Hrow row member Hmember) | constructor].
Qed.

Lemma scanRows_members (P : OpMember -> Prop) (sh : Sheet) (opConfig : OpConfig)
      (rows : list nat) :
  (forall row columnMap member,
      Op.parseOpMemberRow sh row columnMap = Ok member -> P member) ->
  forall ops result,
    Op.scanRows sh opConfig rows ops = Ok result ->
    Forall (fun op => Forall P (Op.members op)) ops ->
    Forall (fun op => Forall P (Op.members op)) result.
Proof.
  intros Hrow. induction rows as [|row rest IH]; intros ops result Hscan Hops.
  - injection Hscan as <-. exact Hops.
  - cbn [Op.scanRows] in Hscan.
    apply bind_Ok_inv in Hscan as (value & _ & Hscan).
    destruct (looseEq value (VStr "Name")); [|exact (IH _ _ Hscan Hops)].
    apply bind_Ok_inv in Hscan as (timeSlot & _ & Hscan).
    apply bind_Ok_inv in Hscan as (newOp & Hload & Hscan).
    apply (IH _ _ Hscan). apply Forall_app. split; [exact Hops|].
    constructor; [|constructor].
    unfold Op.load, Op.new in Hload.
    cbn [Op.startRow Op.timeslot Op.members Op.sheet Op.config] in Hload.
    apply bind_Ok_inv in Hload as (columnMap & _ & Hload).
    apply bind_Ok_inv in Hload as (loaded & Hrows & Hload).
    injection Hload as <-. cbn [Op.members].
    apply (loadRows_members P sh columnMap _ (fun r m => Hrow r columnMap m)
             _ _ Hrows). constructor.
Qed.

(** X20.  In every op [fromSheet] returns, a member either has an empty
    name ([null], the empty text, 0 or [false]) or has a text as
    [displayName] and the lower-cased [displayName] as [uniqueName];
    a [uniqueName] that is a text is already in lower case. *)
Theorem fromSheet_keys_are_lowercase (sh : Sheet) (ops : list Op.t)
        (op : Op.t) (member : OpMember) :
  Op.fromSheet sh = Ok ops ->
  In op ops -> In member (Op.members op) ->
  (truthy (uniqueName member) = false
   \/ exists s, displayName member = VStr s
                /\ uniqueName member = VStr (toLowerCase s))
  /\ forall key, uniqueName member = VStr key -> toLowerCase key = key.
Proof.
  intros Hfrom Hop Hmember. unfold Op.fromSheet in Hfrom.
  apply bind_Ok_inv in Hfrom as (opConfig & _ & Hscan).
  pose proof (scanRows_members _ sh opConfig _ (parseOpMemberRow_key sh)
                _ _ Hscan (Forall_nil_2 _)) as Hall.
  rewrite Forall_forall in Hall. specialize (Hall op).
  rewrite list_elem_of_In in Hall. specialize (Hall Hop).
  rewrite Forall_forall in Hall. specialize (Hall member).
  rewrite list_elem_of_In in Hall. specialize (Hall Hmember).
  split; [exact Hall|]. intros key Hkey.
  destruct Hall as [Hempty|(s & _ & Hs)].
  - rewrite Hkey in Hempty. cbn in Hempty. apply negb_false_iff in Hempty.
    apply String_eqb_true in Hempty. now subst.
  - rewrite Hkey in Hs. injection Hs as ->. apply toLowerCase_twice.
Qed.

Lemma fromSheet_keys_are_lowercase_witness :
  exists op member,
    In op fiveOps /\ In member (Op.members op)
    /\ displayName member = VStr "Maverick"
    /\ uniqueName member = VStr "maverick".
Proof.
  assert (E : exists op rest member others,
             Op.fromSheet fiveOpsSheet = Ok (op :: rest)
             /\ Op.members op = member :: others
             /\ displayName member = VStr "Maverick").
  { do 4 eexists. split; [vm_compute; reflexivity|]. split; reflexivity. }
  destruct E as (op & rest & member & others & Hfrom & Hmembers & Hdisplay).
  destruct (fromSheet_keys_are_lowercase fiveOpsSheet _ op member Hfrom
              (or_introl eq_refl)) as [[Hempty|(s & Hs & Hkey)] _].
  { rewrite Hmembers. left. reflexivity. }
  - exfalso. revert Hempty. clear - Hfrom Hmembers.
    vm_compute in Hfrom. injection Hfrom as <- _.
    injection Hmembers as <- _. discriminate.
  - exists op, member. unfold fiveOps. rewrite Hfrom.
    split; [left; reflexivity|]. split; [rewrite Hmembers; left; reflexivity|].
    split; [exact Hdisplay|].
    rewrite Hs in Hdisplay. injection Hdisplay as ->. exact Hkey.
Defined.
